(** * Orbit computation of wmpl/Trajectory/Orbit.py

    A shallow embedding of [calcOrbit] and of [Orbit.__repr__], and the
    properties of the orbit engine that the specification states.

    Numbers.  The source computes with numpy's float64.  They are modelled
    by [npfloat]: a real number, an infinity or NaN, with numpy's rules for
    the special values (a square root of a negative number, [arccos] outside
    [-1, 1] and [0/0] are NaN, [x/0] is an infinity, every comparison with
    NaN is false).  Arithmetic on finite values is exact: rounding, overflow
    and the sign of zero are outside [npfloat].  The properties that depend
    on the rounding are stated apart: on the lines concerned written with an
    explicit rounding ([Rounded]), and on the binary64 numbers of the kernel
    ([Binary64]).

    Collaborators.  The time, coordinate and ephemeris routines that the
    source imports from other modules of the package are the fields of the
    record [Env]; [calcOrbit] is a function of such an environment and of
    its arguments. *)

From Stdlib Require Import PrimFloat.
From Stdlib Require Import Reals Lra Lia ZArith Bool String List.
Import ListNotations.
Open Scope R_scope.

(** ** numpy float64 values *)

Inductive npfloat : Type :=
| NaN
| Inf (neg : bool)
| Fin (x : R).

Definition Rltb (x y : R) : bool := if Rlt_dec x y then true else false.
Definition Reqb (x y : R) : bool := if Req_dec_T x y then true else false.

Definition fneg (a : npfloat) : npfloat :=
  match a with
  | NaN => NaN
  | Inf s => Inf (negb s)
  | Fin x => Fin (- x)
  end.

Definition fadd (a b : npfloat) : npfloat :=
  match a, b with
  | NaN, _ | _, NaN => NaN
  | Inf s, Inf t => if Bool.eqb s t then Inf s else NaN
  | Inf s, Fin _ => Inf s
  | Fin _, Inf t => Inf t
  | Fin x, Fin y => Fin (x + y)
  end.

Definition fsub (a b : npfloat) : npfloat := fadd a (fneg b).

Definition fmul (a b : npfloat) : npfloat :=
  match a, b with
  | NaN, _ | _, NaN => NaN
  | Inf s, Inf t => Inf (xorb s t)
  | Inf s, Fin y => if Reqb y 0 then NaN else Inf (xorb s (Rltb y 0))
  | Fin x, Inf t => if Reqb x 0 then NaN else Inf (xorb (Rltb x 0) t)
  | Fin x, Fin y => Fin (x * y)
  end.

Definition fdiv (a b : npfloat) : npfloat :=
  match a, b with
  | NaN, _ | _, NaN => NaN
  | Inf _, Inf _ => NaN
  | Inf s, Fin y => Inf (xorb s (Rltb y 0))
  | Fin _, Inf _ => Fin 0
  | Fin x, Fin y =>
      if Reqb y 0 then (if Reqb x 0 then NaN else Inf (Rltb x 0))
      else Fin (x / y)
  end.

Definition fabs (a : npfloat) : npfloat :=
  match a with
  | NaN => NaN
  | Inf _ => Inf false
  | Fin x => Fin (Rabs x)
  end.

Definition fsqrt (a : npfloat) : npfloat :=
  match a with
  | NaN => NaN
  | Inf s => if s then NaN else Inf false
  | Fin x => if Rltb x 0 then NaN else Fin (sqrt x)
  end.

(** [a**2], [a**3] and [a**(3.0/2)]. *)
Definition fsquare (a : npfloat) : npfloat := fmul a a.
Definition fcube (a : npfloat) : npfloat := fmul (fmul a a) a.
Definition fpow15 (a : npfloat) : npfloat :=
  match a with
  | NaN => NaN
  | Inf _ => Inf false
  | Fin x => if Rltb x 0 then NaN else Fin (x * sqrt x)
  end.

(** Comparisons: false as soon as one side is NaN, except [!=]. *)
Definition fgt (a b : npfloat) : bool :=
  match a, b with
  | NaN, _ | _, NaN => false
  | Inf s, Inf t => andb (negb s) t
  | Inf s, Fin _ => negb s
  | Fin _, Inf t => t
  | Fin x, Fin y => Rltb y x
  end.

Definition flt (a b : npfloat) : bool := fgt b a.

Definition feq (a b : npfloat) : bool :=
  match a, b with
  | NaN, _ | _, NaN => false
  | Inf s, Inf t => Bool.eqb s t
  | Fin x, Fin y => Reqb x y
  | _, _ => false
  end.

Definition fne (a b : npfloat) : bool := negb (feq a b).

Definition fisnan (a : npfloat) : bool :=
  match a with NaN => true | _ => false end.


(** [np.sin], [np.cos], [np.tan], [np.arccos], [np.arctan2]. *)
Definition fsin (a : npfloat) : npfloat :=
  match a with Fin x => Fin (sin x) | _ => NaN end.

Definition fcos (a : npfloat) : npfloat :=
  match a with Fin x => Fin (cos x) | _ => NaN end.

Definition ftan (a : npfloat) : npfloat := fdiv (fsin a) (fcos a).

Definition farccos (a : npfloat) : npfloat :=
  match a with
  | Fin x => if Rltb x (-1) || Rltb 1 x then NaN else Fin (acos x)
  | _ => NaN
  end.

Definition Ratan2 (y x : R) : R :=
  if Rltb 0 x then atan (y / x)
  else if Rltb x 0 then
         (if Rltb y 0 then atan (y / x) - PI else atan (y / x) + PI)
       else if Rltb 0 y then PI / 2
            else if Rltb y 0 then - (PI / 2) else 0.

Definition farctan2 (y x : npfloat) : npfloat :=
  match y, x with
  | NaN, _ | _, NaN => NaN
  | Fin b, Fin a => Fin (Ratan2 b a)
  | Fin b, Inf s => if s then (if Rltb b 0 then Fin (- PI) else Fin PI) else Fin 0
  | Inf t, Fin _ => if t then Fin (- (PI / 2)) else Fin (PI / 2)
  | Inf t, Inf s =>
      match t, s with
      | false, false => Fin (PI / 4)
      | false, true => Fin (3 * PI / 4)
      | true, false => Fin (- (PI / 4))
      | true, true => Fin (- (3 * PI / 4))
      end
  end.

(** [a % m] on floats: the remainder has the sign of the divisor. *)
Definition Rmod (x m : R) : R := x - m * IZR (Int_part (x / m)).

Definition fmod (a m : npfloat) : npfloat :=
  match a, m with
  | Fin x, Fin y => if Reqb y 0 then NaN else Fin (Rmod x y)
  | Fin x, Inf s =>
      if Reqb x 0 then Fin 0
      else if Bool.eqb (Rltb x 0) s then Fin x else Inf s
  | _, _ => NaN
  end.

Definition np_pi : npfloat := Fin PI.
Definition two_pi : npfloat := fmul (Fin 2) np_pi.

(** [np.degrees] and [np.radians]. *)
Definition degrees (a : npfloat) : npfloat := fmul a (Fin (180 / PI)).
Definition radians (a : npfloat) : npfloat := fmul a (Fin (PI / 180)).

(** ** Vectors of three floats (numpy arrays of length 3) *)

Record vec : Type := V3 { vx : npfloat; vy : npfloat; vz : npfloat }.

Definition vscale (k : npfloat) (v : vec) : vec :=
  V3 (fmul k (vx v)) (fmul k (vy v)) (fmul k (vz v)).

Definition vdivs (v : vec) (k : npfloat) : vec :=
  V3 (fdiv (vx v) k) (fdiv (vy v) k) (fdiv (vz v) k).

Definition vadd (u v : vec) : vec :=
  V3 (fadd (vx u) (vx v)) (fadd (vy u) (vy v)) (fadd (vz u) (vz v)).

Definition vsub (u v : vec) : vec :=
  V3 (fsub (vx u) (vx v)) (fsub (vy u) (vy v)) (fsub (vz u) (vz v)).

(** [np.dot] and [np.cross]. *)
Definition dot (u v : vec) : npfloat :=
  fadd (fadd (fmul (vx u) (vx v)) (fmul (vy u) (vy v))) (fmul (vz u) (vz v)).

Definition cross (u v : vec) : vec :=
  V3 (fsub (fmul (vy u) (vz v)) (fmul (vz u) (vy v)))
     (fsub (fmul (vz u) (vx v)) (fmul (vx u) (vz v)))
     (fsub (fmul (vx u) (vy v)) (fmul (vy u) (vx v))).

(** Modelled from the spec: [vectMag] and [vectNorm] of wmpl.Utils.Math are
    not among the sources; the specification writes them as the length
    of [r] and as [r] with a hat: the
    Euclidean length of a vector and the vector divided by its length. *)
Definition vectMag (v : vec) : npfloat := fsqrt (dot v v).
Definition vectNorm (v : vec) : vec := vdivs v (vectMag v).

(** ** Collaborators *)

(** Python's [datetime.datetime]. *)
Record datetime : Type := Datetime {
  dt_year : Z; dt_month : Z; dt_day : Z;
  dt_hour : Z; dt_minute : Z; dt_second : Z; dt_microsecond : Z }.

(** A meteor shower as [associateShower] returns it. *)
Record Shower : Type := { IAU_no : Z; IAU_code : string }.

(** The routines and constants imported from wmpl.Utils and wmpl.Config,
    with the arguments the source passes them.  The ephemeris kernel that
    the source opens from [config.jpl_ephem_file] is part of
    [calcEarthRectangularCoordJPL]. *)
Record Env : Type := {
  jd2DynamicalTimeJD : npfloat -> npfloat;
  cartesian2Geo : npfloat -> npfloat -> npfloat -> npfloat ->
                  npfloat * npfloat * npfloat;
  altAz2RADec : npfloat -> npfloat -> npfloat -> npfloat -> npfloat ->
                npfloat * npfloat;
  raDec2AltAz : npfloat -> npfloat -> npfloat -> npfloat -> npfloat ->
                npfloat * npfloat;
  eci2RaDec : vec -> npfloat * npfloat;
  jd2LST : npfloat -> npfloat -> npfloat * npfloat;
  cartesianToSpherical : npfloat -> npfloat -> npfloat ->
                         npfloat * npfloat * npfloat;
  sphericalToCartesian : npfloat -> npfloat -> npfloat ->
                         npfloat * npfloat * npfloat;
  equatorialCoordPrecession : npfloat -> npfloat -> npfloat -> npfloat ->
                              npfloat * npfloat;
  raDec2Ecliptic : npfloat -> npfloat -> npfloat -> npfloat * npfloat;
  calcEarthRectangularCoordJPL : npfloat -> vec * vec;
  rotateVector : vec -> vec -> npfloat -> vec;
  eclipticToRectangularVelocityVect : npfloat -> npfloat -> npfloat -> vec;
  correctedEclipticCoord : npfloat -> npfloat -> npfloat -> vec ->
                           npfloat * npfloat * vec;
  jd2SolLonJPL : npfloat -> npfloat;
  jd2Date : npfloat -> datetime;
  datetime2JD : datetime -> npfloat;
  associateShower : npfloat -> npfloat -> npfloat -> npfloat -> option Shower;
  J2000_JD_days : npfloat;
  J2000_OBLIQUITY : npfloat;
  AU : npfloat;
  SUN_MU : npfloat;
  SUN_MASS : npfloat;
  G : npfloat;
  SIDEREAL_YEAR : npfloat }.

(** ** The result structure (class Orbit, lines 27-177) *)

Module Orbit.

Record t : Type := mk {
  ra : option npfloat;
  dec : option npfloat;
  azimuth_apparent : option npfloat;
  elevation_apparent : option npfloat;
  v_avg : option npfloat;
  v_init : option npfloat;
  ra_norot : option npfloat;
  dec_norot : option npfloat;
  azimuth_apparent_norot : option npfloat;
  elevation_apparent_norot : option npfloat;
  v_avg_norot : option npfloat;
  v_init_norot : option npfloat;
  jd_ref : option npfloat;
  jd_dyn : option npfloat;
  lst_ref : option npfloat;
  lon_ref : option npfloat;
  lat_ref : option npfloat;
  ht_ref : option npfloat;
  lat_geocentric : option npfloat;
  zc : option npfloat;
  zg : option npfloat;
  v_inf : option npfloat;
  v_g : option npfloat;
  ra_g : option npfloat;
  dec_g : option npfloat;
  L_g : option npfloat;
  B_g : option npfloat;
  meteor_pos : option vec;
  v_h : option npfloat;
  v_h_x : option npfloat;
  v_h_y : option npfloat;
  v_h_z : option npfloat;
  L_h : option npfloat;
  B_h : option npfloat;
  la_sun : option npfloat;
  a : option npfloat;
  e : option npfloat;
  i : option npfloat;
  peri : option npfloat;
  node : option npfloat;
  pi : option npfloat;
  q : option npfloat;
  Q : option npfloat;
  true_anomaly : option npfloat;
  eccentric_anomaly : option npfloat;
  mean_anomaly : option npfloat;
  last_perihelion : option datetime;
  n : option npfloat;
  Tj : option npfloat;
  T : option npfloat }.

(** [Orbit()]: every attribute is [None]. *)
Definition init : t :=
  {| ra := None;
     dec := None;
     azimuth_apparent := None;
     elevation_apparent := None;
     v_avg := None;
     v_init := None;
     ra_norot := None;
     dec_norot := None;
     azimuth_apparent_norot := None;
     elevation_apparent_norot := None;
     v_avg_norot := None;
     v_init_norot := None;
     jd_ref := None;
     jd_dyn := None;
     lst_ref := None;
     lon_ref := None;
     lat_ref := None;
     ht_ref := None;
     lat_geocentric := None;
     zc := None;
     zg := None;
     v_inf := None;
     v_g := None;
     ra_g := None;
     dec_g := None;
     L_g := None;
     B_g := None;
     meteor_pos := None;
     v_h := None;
     v_h_x := None;
     v_h_y := None;
     v_h_z := None;
     L_h := None;
     B_h := None;
     la_sun := None;
     a := None;
     e := None;
     i := None;
     peri := None;
     node := None;
     pi := None;
     q := None;
     Q := None;
     true_anomaly := None;
     eccentric_anomaly := None;
     mean_anomaly := None;
     last_perihelion := None;
     n := None;
     Tj := None;
     T := None |}.

End Orbit.

(** ** calcOrbit, lines 393-502: correction for the Earth's rotation *)

(** Lines 464-466: the corrected reference velocity when the stations are
    fixed. *)
Definition rotation_subtract (v_e ra_east : npfloat) (v_ref_vect : vec) : vec :=
  V3 (fsub (vx v_ref_vect) (fmul v_e (fcos ra_east)))
     (fsub (vy v_ref_vect) (fmul v_e (fsin ra_east)))
     (vz v_ref_vect).

(** Lines 490-492: the derotated reference velocity, for the report. *)
Definition rotation_add (v_e ra_east : npfloat) (v_ref_vect : vec) : vec :=
  V3 (fadd (vx v_ref_vect) (fmul v_e (fcos ra_east)))
     (fadd (vy v_ref_vect) (fmul v_e (fsin ra_east)))
     (vz v_ref_vect).

Module Rotation.
Section Body.
Variable E : Env.
Variables (radiant_eci : vec) (v_init v_avg : npfloat) (eci_ref : vec)
          (jd_ref : npfloat).
Variables (stations_fixed reference_init rotation_correction : bool).

Definition lat_geocentric : npfloat :=
  farctan2 (vz eci_ref)
           (fsqrt (fadd (fsquare (vx eci_ref)) (fsquare (vy eci_ref)))).

Definition jd_dyn : npfloat := jd2DynamicalTimeJD E jd_ref.

Definition geo_ref : npfloat * npfloat * npfloat :=
  cartesian2Geo E jd_ref (vx eci_ref) (vy eci_ref) (vz eci_ref).
Definition lat_ref : npfloat := fst (fst geo_ref).
Definition lon_ref : npfloat := snd (fst geo_ref).
Definition ht_ref : npfloat := snd geo_ref.

Definition v_e : npfloat :=
  fdiv (fmul (fmul (fmul (Fin 2) np_pi) (vectMag eci_ref))
             (fcos lat_geocentric))
       (Fin 86164.09053).

Definition azimuth_east : npfloat := fdiv np_pi (Fin 2).
Definition altitude_east : npfloat := Fin 0.
Definition ra_east : npfloat :=
  fst (altAz2RADec E azimuth_east altitude_east jd_ref lat_ref lon_ref).

Definition v_ref_vect : vec :=
  if reference_init then vscale v_init radiant_eci
  else vscale v_avg radiant_eci.

Definition v_ref_corr : vec :=
  if stations_fixed then rotation_subtract v_e ra_east v_ref_vect
  else if reference_init then vscale v_init radiant_eci
       else vscale v_avg radiant_eci.

Definition v_ref_nocorr : vec := rotation_add v_e ra_east v_ref_vect.

(** The ground-fixed radiant (lines 446-456 and 495-499):
    [(ra_norot, dec_norot)], [(azimuth, elevation)], [v_avg_norot] and
    [v_init_norot]. *)
Definition radec_norot : npfloat * npfloat :=
  if stations_fixed then eci2RaDec E radiant_eci
  else eci2RaDec E (vectNorm v_ref_nocorr).

Definition altaz_norot : npfloat * npfloat :=
  raDec2AltAz E (fst radec_norot) (snd radec_norot) jd_ref lat_ref lon_ref.

Definition v_init_norot : npfloat :=
  if stations_fixed then v_init else vectMag v_ref_nocorr.

Definition v_avg_norot : npfloat :=
  if stations_fixed then v_avg
  else fadd (fsub v_init_norot v_init) v_avg.

(** Lines 513-537. *)
Definition v_init_corr : npfloat :=
  if reference_init then
    if rotation_correction then vectMag v_ref_corr else v_init
  else
    if rotation_correction then
      fsub (fadd (vectMag v_ref_corr) v_init) v_avg
    else v_init.

(** Lines 542-548. *)
Definition radec : npfloat * npfloat := eci2RaDec E radiant_eci.
Definition altaz : npfloat * npfloat :=
  raDec2AltAz E (fst radec) (snd radec) jd_ref lat_ref lon_ref.

(** Line 562: the square of the escape velocity at the reference point,
    and the test against it. *)
Definition v_esc_sq : npfloat :=
  fdiv (fmul (Fin (2 * 6.67408 * 5.9722)) (Fin 1e13)) (vectMag eci_ref).

Definition escapes : bool := fgt (fsquare v_init_corr) v_esc_sq.
End Body.
End Rotation.

(** ** Lines 564-599: zenith attraction and the geocentric radiant *)

Module Zenith.
Section Body.
Variable E : Env.
Variables (eci_ref : vec) (jd_ref : npfloat).
Variables (lat_geocentric lon_ref : npfloat).
Variables (v_ref_corr : vec) (v_init_corr : npfloat).

Definition v_g : npfloat :=
  fsqrt (fsub (fsquare v_init_corr) (Rotation.v_esc_sq eci_ref)).

Definition radec_corr : npfloat * npfloat := eci2RaDec E (vectNorm v_ref_corr).
Definition ra_corr : npfloat := fst radec_corr.
Definition dec_corr : npfloat := snd radec_corr.

Definition lst_ref : npfloat :=
  radians (fst (jd2LST E jd_ref (degrees lon_ref))).

Definition zc : npfloat :=
  farccos (fadd (fmul (fsin dec_corr) (fsin lat_geocentric))
                (fmul (fmul (fcos dec_corr) (fcos lat_geocentric))
                      (fcos (fsub lst_ref ra_corr)))).

Definition delta_zc : npfloat :=
  fmul (Fin 2)
       (farctan2 (fmul (fsub v_init_corr v_g) (ftan (fdiv zc (Fin 2))))
                 (fadd v_init_corr v_g)).

Definition zg : npfloat := fadd zc (fabs delta_zc).

Definition azimuth_corr : npfloat :=
  fst (raDec2AltAz E ra_corr dec_corr jd_ref lat_geocentric lon_ref).

(** The geocentric radiant in the epoch of date (line 599). *)
Definition radec_g_date : npfloat * npfloat :=
  altAz2RADec E azimuth_corr (fsub (fdiv np_pi (Fin 2)) zg)
              jd_ref lat_geocentric lon_ref.
End Body.
End Zenith.

(** ** Lines 602-676: from the geocentric to the heliocentric frame *)

Module Helio.
Section Body.
Variable E : Env.
Variables (eci_ref : vec) (jd_ref jd_dyn : npfloat).
Variables (radec_g_date : npfloat * npfloat) (v_g : npfloat).

Definition sph : npfloat * npfloat * npfloat :=
  cartesianToSpherical E (vx eci_ref) (vy eci_ref) (vz eci_ref).
Definition re : npfloat := fst (fst sph).
Definition delta_e : npfloat := snd (fst sph).
Definition alpha_e : npfloat := snd sph.

Definition radec_ej : npfloat * npfloat :=
  equatorialCoordPrecession E jd_ref (J2000_JD_days E) alpha_e delta_e.
Definition alpha_ej : npfloat := fst radec_ej.
Definition delta_ej : npfloat := snd radec_ej.

(** [eci_ref] after line 611. *)
Definition eci_ref_j2000 : vec :=
  let '(x, y, z) := sphericalToCartesian E re delta_ej alpha_ej in V3 x y z.

(** [ra_g, dec_g] after line 617. *)
Definition radec_g : npfloat * npfloat :=
  equatorialCoordPrecession E jd_ref (J2000_JD_days E)
                            (fst radec_g_date) (snd radec_g_date).
Definition ra_g : npfloat := fst radec_g.
Definition dec_g : npfloat := snd radec_g.

Definition ecl_g : npfloat * npfloat :=
  raDec2Ecliptic E (J2000_JD_days E) ra_g dec_g.
Definition L_g : npfloat := fst ecl_g.
Definition B_g : npfloat := snd ecl_g.

Definition earth : vec * vec := calcEarthRectangularCoordJPL E jd_dyn.
Definition earth_pos : vec := fst earth.
Definition earth_vel : vec := snd earth.

Definition x_axis : vec := V3 (Fin 1) (Fin 0) (Fin 0).

Definition earth_pos_eq : vec :=
  rotateVector E earth_pos x_axis (J2000_OBLIQUITY E).

Definition meteor_pos : vec :=
  rotateVector E (vadd earth_pos_eq (vdivs eci_ref_j2000 (Fin 1000)))
               x_axis (fneg (J2000_OBLIQUITY E)).

Definition v_h : vec :=
  vadd earth_vel
       (eclipticToRectangularVelocityVect E L_g B_g (fdiv v_g (Fin 1000))).

Definition v_h_mag : npfloat := vectMag v_h.

Definition corrected : npfloat * npfloat * vec :=
  correctedEclipticCoord E L_g B_g (fdiv v_g (Fin 1000)) earth_vel.
Definition L_h : npfloat := fst (fst corrected).
Definition B_h : npfloat := snd (fst corrected).
Definition met_v_h : vec := snd corrected.

Definition la_sun : npfloat := jd2SolLonJPL E jd_dyn.
End Body.
End Helio.

(** ** Lines 679-782: the orbital elements *)

Module Kepler.
Section Body.
Variable E : Env.
Variables (meteor_pos v_h : vec) (jd_dyn : npfloat).

Definition epsilon : npfloat :=
  fsub (fdiv (fsquare (vectMag v_h)) (Fin 2))
       (fdiv (SUN_MU E) (vectMag meteor_pos)).

Definition a : npfloat :=
  fdiv (fneg (SUN_MU E)) (fmul (fmul (Fin 2) epsilon) (AU E)).

Definition n : npfloat :=
  fmul (fsqrt (fdiv (fmul (G E) (SUN_MASS E))
                    (fcube (fmul (fmul (fabs a) (AU E)) (Fin 1000)))))
       (Fin 86400).

Definition T : npfloat :=
  fdiv (fmul (fmul (Fin 2) np_pi)
             (fsqrt (fdiv (fcube (fmul a (AU E))) (SUN_MU E))))
       (fmul (Fin 86400) (SIDEREAL_YEAR E)).

Definition h_vect : vec := cross meteor_pos v_h.

Definition incl : npfloat := farccos (fdiv (vz h_vect) (vectMag h_vect)).

Definition e_vect : vec :=
  vsub (vdivs (cross v_h h_vect) (SUN_MU E)) (vectNorm meteor_pos).

Definition eccentricity : npfloat := vectMag e_vect.

Definition q : npfloat :=
  if feq eccentricity (Fin 1) then
    fdiv (fadd (vectMag meteor_pos) (dot e_vect meteor_pos))
         (fadd (Fin 1) (vectMag e_vect))
  else fmul a (fsub (Fin 1) eccentricity).

Definition Q : npfloat := fmul a (fadd (Fin 1) eccentricity).

Definition k_vect : vec := V3 (Fin 0) (Fin 0) (Fin 1).

Definition n_vect : vec := cross k_vect h_vect.

Definition node : npfloat :=
  fmod (if feq (vectMag n_vect) (Fin 0) then Fin 0
        else farctan2 (vy n_vect) (vx n_vect))
       two_pi.

Definition peri : npfloat :=
  fmod (if fne (vectMag n_vect) (Fin 0) then
          let peri :=
            farccos (fdiv (dot n_vect e_vect)
                          (fmul (vectMag n_vect) (vectMag e_vect))) in
          if flt (vz e_vect) (Fin 0) then fsub two_pi peri else peri
        else farccos (fdiv (vx e_vect) (vectMag e_vect)))
       two_pi.

Definition pi : npfloat := fmod (fadd node peri) two_pi.

Definition true_anomaly : npfloat :=
  let true_anomaly :=
    farccos (fdiv (dot e_vect meteor_pos)
                  (fmul (vectMag e_vect) (vectMag meteor_pos))) in
  fmod (if flt (dot meteor_pos v_h) (Fin 0) then fsub two_pi true_anomaly
        else true_anomaly)
       two_pi.

Definition eccentric_anomaly : npfloat :=
  farctan2 (fmul (fsqrt (fsub (Fin 1) (fsquare eccentricity)))
                 (fsin true_anomaly))
           (fadd eccentricity (fcos true_anomaly)).

Definition mean_anomaly : npfloat :=
  fmod (fsub eccentric_anomaly (fmul eccentricity (fsin eccentric_anomaly)))
       two_pi.

Definition dt_perihelion : npfloat :=
  fdiv (fmul mean_anomaly (fpow15 a)) (Fin 0.01720209895).

Definition last_perihelion : option datetime :=
  if negb (fisnan dt_perihelion) then
    Some (jd2Date E (fsub jd_dyn dt_perihelion))
  else None.

Definition Tj : npfloat :=
  fadd (fmul (fmul (Fin 2)
                   (fsqrt (fdiv (fmul (fsub (Fin 1) (fsquare eccentricity)) a)
                                (Fin 5.204267))))
             (fcos incl))
       (fdiv (Fin 5.204267) a).
End Body.
End Kepler.

(** ** calcOrbit (lines 349-826) *)

Definition calcOrbit (E : Env) (radiant_eci : vec) (v_init v_avg : npfloat)
    (eci_ref : vec) (jd_ref : npfloat)
    (stations_fixed reference_init rotation_correction : bool) : Orbit.t :=
  let lat_geocentric := Rotation.lat_geocentric eci_ref in
  let jd_dyn := Rotation.jd_dyn E jd_ref in
  let lat_ref := Rotation.lat_ref E eci_ref jd_ref in
  let lon_ref := Rotation.lon_ref E eci_ref jd_ref in
  let ht_ref := Rotation.ht_ref E eci_ref jd_ref in
  let radec_norot :=
    Rotation.radec_norot E radiant_eci v_init v_avg eci_ref jd_ref
                         stations_fixed reference_init in
  let altaz_norot :=
    Rotation.altaz_norot E radiant_eci v_init v_avg eci_ref jd_ref
                         stations_fixed reference_init in
  let v_avg_norot :=
    Rotation.v_avg_norot E radiant_eci v_init v_avg eci_ref jd_ref
                         stations_fixed reference_init in
  let v_init_norot :=
    Rotation.v_init_norot E radiant_eci v_init v_avg eci_ref jd_ref
                          stations_fixed reference_init in
  let v_ref_corr :=
    Rotation.v_ref_corr E radiant_eci v_init v_avg eci_ref jd_ref
                        stations_fixed reference_init in
  let v_init_corr :=
    Rotation.v_init_corr E radiant_eci v_init v_avg eci_ref jd_ref
                         stations_fixed reference_init rotation_correction in
  let radec := Rotation.radec E radiant_eci in
  let altaz := Rotation.altaz E radiant_eci eci_ref jd_ref in
  if Rotation.escapes E radiant_eci v_init v_avg eci_ref jd_ref
                      stations_fixed reference_init rotation_correction then
    let v_g := Zenith.v_g eci_ref v_init_corr in
    let lst_ref := Zenith.lst_ref E jd_ref lon_ref in
    let zc :=
      Zenith.zc E jd_ref lat_geocentric lon_ref v_ref_corr in
    let zg :=
      Zenith.zg E eci_ref jd_ref lat_geocentric lon_ref v_ref_corr
                v_init_corr in
    let radec_g_date :=
      Zenith.radec_g_date E eci_ref jd_ref lat_geocentric lon_ref v_ref_corr
                          v_init_corr in
    let ra_g := Helio.ra_g E jd_ref radec_g_date in
    let dec_g := Helio.dec_g E jd_ref radec_g_date in
    let L_g := Helio.L_g E jd_ref radec_g_date in
    let B_g := Helio.B_g E jd_ref radec_g_date in
    let meteor_pos := Helio.meteor_pos E eci_ref jd_ref jd_dyn in
    let v_h := Helio.v_h E jd_ref jd_dyn radec_g_date v_g in
    let v_h_mag := Helio.v_h_mag E jd_ref jd_dyn radec_g_date v_g in
    let met_v_h := Helio.met_v_h E jd_ref jd_dyn radec_g_date v_g in
    let L_h := Helio.L_h E jd_ref jd_dyn radec_g_date v_g in
    let B_h := Helio.B_h E jd_ref jd_dyn radec_g_date v_g in
    let la_sun := Helio.la_sun E jd_dyn in
    {| Orbit.ra := Some (fst radec);
       Orbit.dec := Some (snd radec);
       Orbit.azimuth_apparent := Some (fst altaz);
       Orbit.elevation_apparent := Some (snd altaz);
       Orbit.v_avg := Some v_avg;
       Orbit.v_init := Some v_init;
       Orbit.ra_norot := Some (fst radec_norot);
       Orbit.dec_norot := Some (snd radec_norot);
       Orbit.azimuth_apparent_norot := Some (fst altaz_norot);
       Orbit.elevation_apparent_norot := Some (snd altaz_norot);
       Orbit.v_avg_norot := Some v_avg_norot;
       Orbit.v_init_norot := Some v_init_norot;
       Orbit.jd_ref := Some jd_ref;
       Orbit.jd_dyn := Some jd_dyn;
       Orbit.lst_ref := Some lst_ref;
       Orbit.lon_ref := Some lon_ref;
       Orbit.lat_ref := Some lat_ref;
       Orbit.ht_ref := Some ht_ref;
       Orbit.lat_geocentric := Some lat_geocentric;
       Orbit.zc := Some zc;
       Orbit.zg := Some zg;
       Orbit.v_inf := Some v_init_corr;
       Orbit.v_g := Some v_g;
       Orbit.ra_g := Some ra_g;
       Orbit.dec_g := Some dec_g;
       Orbit.L_g := Some L_g;
       Orbit.B_g := Some B_g;
       Orbit.meteor_pos := Some meteor_pos;
       Orbit.v_h := Some (fmul v_h_mag (Fin 1000));
       Orbit.v_h_x := Some (vx met_v_h);
       Orbit.v_h_y := Some (vy met_v_h);
       Orbit.v_h_z := Some (vz met_v_h);
       Orbit.L_h := Some L_h;
       Orbit.B_h := Some B_h;
       Orbit.la_sun := Some la_sun;
       Orbit.a := Some (Kepler.a E meteor_pos v_h);
       Orbit.e := Some (Kepler.eccentricity E meteor_pos v_h);
       Orbit.i := Some (Kepler.incl meteor_pos v_h);
       Orbit.peri := Some (Kepler.peri E meteor_pos v_h);
       Orbit.node := Some (Kepler.node meteor_pos v_h);
       Orbit.pi := Some (Kepler.pi E meteor_pos v_h);
       Orbit.q := Some (Kepler.q E meteor_pos v_h);
       Orbit.Q := Some (Kepler.Q E meteor_pos v_h);
       Orbit.true_anomaly := Some (Kepler.true_anomaly E meteor_pos v_h);
       Orbit.eccentric_anomaly :=
         Some (Kepler.eccentric_anomaly E meteor_pos v_h);
       Orbit.mean_anomaly := Some (Kepler.mean_anomaly E meteor_pos v_h);
       Orbit.last_perihelion := Kepler.last_perihelion E meteor_pos v_h jd_dyn;
       Orbit.n := Some (Kepler.n E meteor_pos v_h);
       Orbit.Tj := Some (Kepler.Tj E meteor_pos v_h);
       Orbit.T := Some (Kepler.T E meteor_pos v_h) |}
  else
    {| Orbit.ra := Some (fst radec);
       Orbit.dec := Some (snd radec);
       Orbit.azimuth_apparent := Some (fst altaz);
       Orbit.elevation_apparent := Some (snd altaz);
       Orbit.v_avg := Some v_avg;
       Orbit.v_init := Some v_init;
       Orbit.ra_norot := Some (fst radec_norot);
       Orbit.dec_norot := Some (snd radec_norot);
       Orbit.azimuth_apparent_norot := Some (fst altaz_norot);
       Orbit.elevation_apparent_norot := Some (snd altaz_norot);
       Orbit.v_avg_norot := Some v_avg_norot;
       Orbit.v_init_norot := Some v_init_norot;
       Orbit.jd_ref := Some jd_ref;
       Orbit.jd_dyn := None;
       Orbit.lst_ref := None;
       Orbit.lon_ref := Some lon_ref;
       Orbit.lat_ref := Some lat_ref;
       Orbit.ht_ref := Some ht_ref;
       Orbit.lat_geocentric := Some lat_geocentric;
       Orbit.zc := None;
       Orbit.zg := None;
       Orbit.v_inf := Some v_init_corr;
       Orbit.v_g := None;
       Orbit.ra_g := None;
       Orbit.dec_g := None;
       Orbit.L_g := None;
       Orbit.B_g := None;
       Orbit.meteor_pos := None;
       Orbit.v_h := None;
       Orbit.v_h_x := None;
       Orbit.v_h_y := None;
       Orbit.v_h_z := None;
       Orbit.L_h := None;
       Orbit.B_h := None;
       Orbit.la_sun := None;
       Orbit.a := None;
       Orbit.e := None;
       Orbit.i := None;
       Orbit.peri := None;
       Orbit.node := None;
       Orbit.pi := None;
       Orbit.q := None;
       Orbit.Q := None;
       Orbit.true_anomaly := None;
       Orbit.eccentric_anomaly := None;
       Orbit.mean_anomaly := None;
       Orbit.last_perihelion := None;
       Orbit.n := None;
       Orbit.Tj := None;
       Orbit.T := None |}.

(** ** Orbit.__repr__ (lines 180-345) *)

(** The uncertainties object: the attributes it carries, by name. *)
Definition Uncertainties : Type := list (string * npfloat).

Fixpoint getattr (u : Uncertainties) (name : string) : option npfloat :=
  match u with
  | [] => None
  | (k, v) :: rest => if String.eqb k name then Some v else getattr rest name
  end.

Definition hasattr (u : Uncertainties) (name : string) : bool :=
  match getattr u name with Some _ => true | None => false end.

Definition nl : string := String (Ascii.ascii_of_nat 10) EmptyString.

Module Report.
Section Body.
Open Scope string_scope.

Variable E : Env.
(** [spec.format(x)] for a float, an integer and a string. *)
Variable format_float : string -> npfloat -> string.
Variable format_int : string -> Z -> string.
Variable format_str : string -> string -> string.
(** [str(d)] for a datetime. *)
Variable str_datetime : datetime -> string.

Variable uncertainties : option Uncertainties.
Variable v_init_ht : option npfloat.

(** Lines 183-206. *)
Definition _uncer (str_format std_name : string) (multi : npfloat)
    (deg : bool) : string :=
  let multi := if deg then fmul multi (degrees (Fin 1)) else multi in
  match uncertainties with
  | Some u =>
      if hasattr u std_name then
        match getattr u std_name with
        | Some v => " +/- " ++ format_float str_format (fmul v multi)
        | None => ""
        end
      else ""
  | None => ""
  end.

(** The three shapes of a line: an angle in degrees, a speed in km/s and
    a plain number.  [None] stands for the TypeError that Python raises
    when the attribute is [None]. *)
Definition line_deg (pre spec : string) (x : option npfloat)
    (std_name post : string) : option string :=
  match x with
  | Some v =>
      Some (pre ++ format_float spec (degrees v)
                ++ _uncer "{:.4f}" std_name (Fin 1) true ++ post)
  | None => None
  end.

Definition line_kms (pre spec : string) (x : option npfloat)
    (std_name post : string) : option string :=
  match x with
  | Some v =>
      Some (pre ++ format_float spec (fdiv v (Fin 1000))
                ++ _uncer "{:.4f}" std_name (fdiv (Fin 1) (Fin 1000)) false
                ++ post)
  | None => None
  end.

Definition line_num (pre spec : string) (x : option npfloat)
    (std_name post : string) : option string :=
  match x with
  | Some v =>
      Some (pre ++ format_float spec v
                ++ _uncer "{:.4f}" std_name (Fin 1) false ++ post)
  | None => None
  end.

(** Concatenation of the lines; one that raises makes the whole raise. *)
Fixpoint concat_lines (ls : list (option string)) : option string :=
  match ls with
  | [] => Some ""
  | l :: rest =>
      match l, concat_lines rest with
      | Some s, Some t => Some (s ++ t)
      | _, _ => None
      end
  end.

Definition is_set {A : Type} (x : option A) : bool :=
  match x with Some _ => true | None => false end.

Definition v_init_ht_str : string :=
  match v_init_ht with
  | Some h => " (average above " ++ format_float "{:.2f}" h ++ " km)"
  | None => ""
  end.

(** Lines 213-215. *)
Definition header (self : Orbit.t) : option string :=
  if is_set (Orbit.ra_g self) then
    concat_lines
      [ match Orbit.jd_dyn self with
        | Some v => Some ("  JD dynamic   = " ++ format_float "{:20.12f}" v
                            ++ " " ++ nl)
        | None => None
        end;
        match Orbit.lst_ref self with
        | Some v => Some ("  LST apparent = "
                            ++ format_float "{:.10f}" (degrees v)
                            ++ " deg" ++ nl)
        | None => None
        end ]
  else Some "".

(** Lines 220-239. *)
Definition apparent_eci (self : Orbit.t) : option string :=
  concat_lines
    [ Some ("Radiant (apparent in ECI which includes Earth's rotation, epoch of date):" ++ nl);
      line_deg "  R.A.      = " "{:>9.5f}" (Orbit.ra self) "ra" (" deg" ++ nl);
      line_deg "  Dec       = " "{:>+9.5f}" (Orbit.dec self) "dec" (" deg" ++ nl);
      line_deg "  Azimuth   = " "{:>9.5f}" (Orbit.azimuth_apparent self)
               "azimuth_apparent" (" deg" ++ nl);
      line_deg "  Elevation = " "{:>+9.5f}" (Orbit.elevation_apparent self)
               "elevation_apparent" (" deg" ++ nl);
      line_kms "  Vavg      = " "{:>9.5f}" (Orbit.v_avg self) "v_avg"
               (" km/s" ++ nl);
      line_kms "  Vinit     = " "{:>9.5f}" (Orbit.v_init self) "v_init"
               (" km/s" ++ v_init_ht_str ++ nl) ].

(** Lines 247-259. *)
Definition apparent_ground (self : Orbit.t) : option string :=
  concat_lines
    [ Some ("Radiant (apparent ground-fixed, epoch of date):" ++ nl);
      line_deg "  R.A.      = " "{:>9.5f}" (Orbit.ra_norot self) "ra"
               (" deg" ++ nl);
      line_deg "  Dec       = " "{:>+9.5f}" (Orbit.dec_norot self) "dec"
               (" deg" ++ nl);
      line_deg "  Azimuth   = " "{:>9.5f}" (Orbit.azimuth_apparent_norot self)
               "azimuth_apparent" (" deg" ++ nl);
      line_deg "  Elevation = " "{:>+9.5f}"
               (Orbit.elevation_apparent_norot self)
               "elevation_apparent" (" deg" ++ nl);
      line_kms "  Vavg      = " "{:>9.5f}" (Orbit.v_avg_norot self) "v_avg"
               (" km/s" ++ nl);
      line_kms "  Vinit     = " "{:>9.5f}" (Orbit.v_init_norot self) "v_init"
               (" km/s" ++ v_init_ht_str ++ nl) ].

(** Lines 320-325. *)
Definition last_perihelion_line (self : Orbit.t) : option string :=
  match Orbit.last_perihelion self with
  | Some d =>
      Some ("  Last perihelion JD = "
              ++ format_float "{:.6f}" (datetime2JD E d) ++ " "
              ++ "(" ++ str_datetime d ++ ")"
              ++ _uncer "{:.4f} days" "last_perihelion" (Fin 1) false
              ++ nl)
  | None => Some ("  Last perihelion JD = NaN " ++ nl)
  end.

(** Lines 330-342. *)
Definition shower_lines (self : Orbit.t) : option string :=
  match Orbit.la_sun self, Orbit.L_g self, Orbit.B_g self, Orbit.v_g self with
  | Some la_sun, Some L_g, Some B_g, Some v_g =>
      let shower_obj := associateShower E la_sun L_g B_g v_g in
      let shower_no :=
        match shower_obj with Some s => IAU_no s | None => (-1)%Z end in
      let shower_code :=
        match shower_obj with Some s => IAU_code s | None => "..." end in
      Some ("Shower association:" ++ nl
              ++ "  IAU No.  = " ++ format_int "{:>4d}" shower_no ++ nl
              ++ "  IAU code = " ++ format_str "{:>4s}" shower_code ++ nl)
  | _, _, _, _ => None
  end.

(** Lines 267-342. *)
Definition orbit_lines (self : Orbit.t) : option string :=
  if is_set (Orbit.ra_g self) then
    concat_lines
      [ Some ("Radiant (geocentric, J2000):" ++ nl);
        line_deg "  R.A.   = " "{:>9.5f}" (Orbit.ra_g self) "ra_g" (" deg" ++ nl);
        line_deg "  Dec    = " "{:>+9.5f}" (Orbit.dec_g self) "dec_g" (" deg" ++ nl);
        line_kms "  Vg     = " "{:>9.5f}" (Orbit.v_g self) "v_g" (" km/s" ++ nl);
        line_kms "  Vinf   = " "{:>9.5f}" (Orbit.v_inf self) "v_inf" (" km/s" ++ nl);
        line_deg "  Zc     = " "{:>9.5f}" (Orbit.zc self) "zc" (" deg" ++ nl);
        line_deg "  Zg     = " "{:>9.5f}" (Orbit.zg self) "zg" (" deg" ++ nl);
        Some ("Radiant (ecliptic geocentric, J2000):" ++ nl);
        line_deg "  Lg     = " "{:>9.5f}" (Orbit.L_g self) "L_g" (" deg" ++ nl);
        line_deg "  Bg     = " "{:>+9.5f}" (Orbit.B_g self) "B_g" (" deg" ++ nl);
        line_kms "  Vh     = " "{:>9.5f}" (Orbit.v_h self) "v_h" (" km/s" ++ nl);
        Some ("Radiant (ecliptic heliocentric, J2000):" ++ nl);
        line_deg "  Lh     = " "{:>9.5f}" (Orbit.L_h self) "L_h" (" deg" ++ nl);
        line_deg "  Bh     = " "{:>+9.5f}" (Orbit.B_h self) "B_h" (" deg" ++ nl);
        line_num "  Vh_x   = " "{:>9.5f}" (Orbit.v_h_x self) "v_h_x" (" km/s" ++ nl);
        line_num "  Vh_y   = " "{:>9.5f}" (Orbit.v_h_y self) "v_h_y" (" km/s" ++ nl);
        line_num "  Vh_z   = " "{:>9.5f}" (Orbit.v_h_z self) "v_h_z" (" km/s" ++ nl);
        Some ("Orbit:" ++ nl);
        line_deg "  La Sun = " "{:>10.6f}" (Orbit.la_sun self) "la_sun" (" deg" ++ nl);
        line_num "  a      = " "{:>10.6f}" (Orbit.a self) "a" (" AU" ++ nl);
        line_num "  e      = " "{:>10.6f}" (Orbit.e self) "e" nl;
        line_deg "  i      = " "{:>10.6f}" (Orbit.i self) "i" (" deg" ++ nl);
        line_deg "  peri   = " "{:>10.6f}" (Orbit.peri self) "peri" (" deg" ++ nl);
        line_deg "  node   = " "{:>10.6f}" (Orbit.node self) "node" (" deg" ++ nl);
        line_deg "  Pi     = " "{:>10.6f}" (Orbit.pi self) "pi" (" deg" ++ nl);
        line_num "  q      = " "{:>10.6f}" (Orbit.q self) "q" (" AU" ++ nl);
        line_deg "  f      = " "{:>10.6f}" (Orbit.true_anomaly self)
                 "true_anomaly" (" deg" ++ nl);
        line_deg "  M      = " "{:>10.6f}" (Orbit.mean_anomaly self)
                 "mean_anomaly" (" deg" ++ nl);
        line_num "  Q      = " "{:>10.6f}" (Orbit.Q self) "Q" (" AU" ++ nl);
        line_deg "  n      = " "{:>10.6f}" (Orbit.n self) "n" (" deg/day" ++ nl);
        line_num "  T      = " "{:>10.6f}" (Orbit.T self) "T" (" years" ++ nl);
        last_perihelion_line self;
        line_num "  Tj     = " "{:>10.6f}" (Orbit.Tj self) "Tj" nl;
        shower_lines self ]
  else Some "".

Definition __repr__ (self : Orbit.t) : option string :=
  concat_lines
    [ header self; apparent_eci self; apparent_ground self;
      orbit_lines self ].
End Body.
End Report.

(** ** The heliocentric state that calcOrbit hands to the element solver *)

Section HelioState.
Variable E : Env.
Variables (radiant_eci : vec) (v_init v_avg : npfloat) (eci_ref : vec)
          (jd_ref : npfloat).
Variables (stations_fixed reference_init rotation_correction : bool).

(** [ra_g, dec_g] of line 599. *)
Definition calcOrbit_radec_g_date : npfloat * npfloat :=
  Zenith.radec_g_date E eci_ref jd_ref (Rotation.lat_geocentric eci_ref)
    (Rotation.lon_ref E eci_ref jd_ref)
    (Rotation.v_ref_corr E radiant_eci v_init v_avg eci_ref jd_ref
                         stations_fixed reference_init)
    (Rotation.v_init_corr E radiant_eci v_init v_avg eci_ref jd_ref
                          stations_fixed reference_init rotation_correction).

(** [v_g] of line 568. *)
Definition calcOrbit_v_g : npfloat :=
  Zenith.v_g eci_ref
    (Rotation.v_init_corr E radiant_eci v_init v_avg eci_ref jd_ref
                          stations_fixed reference_init rotation_correction).

(** [meteor_pos] of line 655 and [v_h] of line 664. *)
Definition calcOrbit_meteor_pos : vec :=
  Helio.meteor_pos E eci_ref jd_ref (Rotation.jd_dyn E jd_ref).

Definition calcOrbit_v_h : vec :=
  Helio.v_h E jd_ref (Rotation.jd_dyn E jd_ref) calcOrbit_radec_g_date
            calcOrbit_v_g.
End HelioState.

(** A vector with a NaN component. *)
Definition has_nan (u : vec) : Prop := vx u = NaN \/ vy u = NaN \/ vz u = NaN.

(** A stored angle is normalised when it is a real number of [0, 2 pi). *)
Definition normalised (x : npfloat) : Prop :=
  exists r : R, x = Fin r /\ 0 <= r < 2 * PI.

(** It is within a turn when it is a real number of [0, 2 pi], the end
    included: what the remainder of float64 gives for an operand that may
    be negative. *)
Definition within_turn (x : npfloat) : Prop :=
  exists r : R, x = Fin r /\ 0 <= r <= 2 * PI.





(** ** A concrete environment and concrete arguments

    An environment in which the pipeline can be followed by hand: no
    precession and an ecliptic in the plane of the equator (the coordinate
    changes return their arguments), the Earth on the x axis, 7971.7881152 km
    short of 129601992.205078125 km from the Sun (0.866 AU), moving along y
    at [s] km/s, and a geocentric velocity that adds along y.  The reference
    point is on the x axis, 7971788.1152 m from the centre of the Earth, where
    the square of the escape velocity is exactly 1e8 m2/s2. *)
Definition demoEnv (s : R) : Env := {|
  jd2DynamicalTimeJD := fun jd => jd;
  cartesian2Geo := fun jd x y z => (Fin 0, Fin 0, Fin 1593788.1152);
  altAz2RADec := fun az alt jd lat lon => (az, alt);
  raDec2AltAz := fun ra dec jd lat lon => (ra, dec);
  eci2RaDec := fun v => (Fin 0, Fin 0);
  jd2LST := fun jd lon => (Fin 0, Fin 0);
  cartesianToSpherical := fun x y z => (x, y, z);
  sphericalToCartesian := fun r theta phi => (r, theta, phi);
  equatorialCoordPrecession := fun jd_start jd_final ra dec => (ra, dec);
  raDec2Ecliptic := fun jd ra dec => (ra, dec);
  calcEarthRectangularCoordJPL := fun jd =>
    (V3 (Fin 129594020.416962925) (Fin 0) (Fin 0), V3 (Fin 0) (Fin s) (Fin 0));
  rotateVector := fun v axis angle => v;
  eclipticToRectangularVelocityVect := fun L B v => V3 (Fin 0) v (Fin 0);
  correctedEclipticCoord := fun L B v earth_vel => (L, B, earth_vel);
  jd2SolLonJPL := fun jd => Fin 0;
  jd2Date := fun jd => Datetime 2000 1 1 12 0 0 0;
  datetime2JD := fun d => Fin 2451545;
  associateShower := fun la_sun L_g B_g v_g => None;
  J2000_JD_days := Fin 2451545;
  J2000_OBLIQUITY := Fin 0;
  AU := Fin 149597870.7;
  SUN_MU := Fin 132712440018;
  SUN_MASS := Fin 1.98855e30;
  G := Fin 6.67384e-11;
  SIDEREAL_YEAR := Fin 365.256363004 |}.

Definition demo_radiant : vec := V3 (Fin 0) (Fin 1) (Fin 0).
Definition demo_eci : vec := V3 (Fin 7971788.1152) (Fin 0) (Fin 0).
Definition demo_jd : npfloat := Fin 2457955.794670294970.
Definition demo_pos : vec := V3 (Fin 129601992.205078125) (Fin 0) (Fin 0).

(** [calcOrbit] in that environment, with an initial velocity of [v] m/s, an
    average velocity of 25 km/s, moving stations, the initial point as the
    reference and no correction of the velocity for the rotation. *)
Definition demoOrbit (s v : R) : Orbit.t :=
  calcOrbit (demoEnv s) demo_radiant (Fin v) (Fin 25000) demo_eci demo_jd
            false true false.

Definition demo_escapes (s v : R) : bool :=
  Rotation.escapes (demoEnv s) demo_radiant (Fin v) (Fin 25000) demo_eci
                   demo_jd false true false.

(** The heliocentric position and velocity of [demoOrbit s 26000]. *)
Definition demo_r (s : R) : vec :=
  calcOrbit_meteor_pos (demoEnv s) demo_eci demo_jd.

Definition demo_v (s : R) : vec :=
  calcOrbit_v_h (demoEnv s) demo_radiant (Fin 26000) (Fin 25000) demo_eci
                demo_jd false true false.

(** ** When the report can be rendered *)

(** The attributes that the two radiant sections of the report read. *)
Definition radiant_fields_set (o : Orbit.t) : Prop :=
  Orbit.ra o <> None /\ Orbit.dec o <> None
  /\ Orbit.azimuth_apparent o <> None /\ Orbit.elevation_apparent o <> None
  /\ Orbit.v_avg o <> None /\ Orbit.v_init o <> None
  /\ Orbit.ra_norot o <> None /\ Orbit.dec_norot o <> None
  /\ Orbit.azimuth_apparent_norot o <> None
  /\ Orbit.elevation_apparent_norot o <> None
  /\ Orbit.v_avg_norot o <> None /\ Orbit.v_init_norot o <> None.

(** The attributes that the header and the orbit section read, besides
    [ra_g] and [last_perihelion]. *)
Definition orbit_fields_set (o : Orbit.t) : Prop :=
  Orbit.jd_dyn o <> None /\ Orbit.lst_ref o <> None
  /\ Orbit.dec_g o <> None /\ Orbit.v_g o <> None /\ Orbit.v_inf o <> None
  /\ Orbit.zc o <> None /\ Orbit.zg o <> None
  /\ Orbit.L_g o <> None /\ Orbit.B_g o <> None /\ Orbit.v_h o <> None
  /\ Orbit.L_h o <> None /\ Orbit.B_h o <> None
  /\ Orbit.v_h_x o <> None /\ Orbit.v_h_y o <> None /\ Orbit.v_h_z o <> None
  /\ Orbit.la_sun o <> None /\ Orbit.a o <> None /\ Orbit.e o <> None
  /\ Orbit.i o <> None /\ Orbit.peri o <> None /\ Orbit.node o <> None
  /\ Orbit.pi o <> None /\ Orbit.q o <> None
  /\ Orbit.true_anomaly o <> None /\ Orbit.mean_anomaly o <> None
  /\ Orbit.Q o <> None /\ Orbit.n o <> None /\ Orbit.T o <> None
  /\ Orbit.Tj o <> None.

Definition renderable (o : Orbit.t) : Prop :=
  radiant_fields_set o /\ (Orbit.ra_g o <> None -> orbit_fields_set o).

(** ** Rounding

    [npfloat] computes exactly on finite values.  Where a property is one
    of floating tolerance, the lines concerned are written once more on real
    numbers with the rounding explicit: [rnd] stands for the rounding to
    nearest of float64, applied to the exact result of every operation. *)

Module Rounded.

(** [rnd] is accurate at [x] to the unit roundoff [u]: the relative error
    of the rounded value is at most [u].  Float64 gives this with
    [u = 2^-53] for every result that neither overflows nor underflows, and
    for every sum or difference of two floats that does not overflow. *)
Definition accurate (rnd : R -> R) (u x : R) : Prop :=
  Rabs (rnd x - x) <= u * Rabs x.

(** The rounding of a float64 result; the special values are themselves. *)
Definition rounded (rnd : R -> R) (a : npfloat) : npfloat :=
  match a with
  | Fin x => Fin (rnd x)
  | _ => a
  end.

Section Lines.
Variable rnd : R -> R.

(** Orbit.py, lines 464-465 and 490-491: a horizontal component [v] of the
    reference velocity, the rotation velocity [v_e] and the cosine or the
    sine [t] of [ra_east] as numpy returned it. *)
Definition subtract_rotation (v_e t v : R) : R := rnd (v - rnd (v_e * t)).

Definition add_rotation (v_e t v : R) : R := rnd (v + rnd (v_e * t)).




End Lines.

(** Rounding to the nearest multiple of 2^-10: a coarse binary rounding,
    for examples. *)
Definition coarse (x : R) : R := IZR (Int_part (x * 1024 + / 2)) / 1024.

End Rounded.

(** ** Float64 itself

    Where the rounding decides a property, the lines concerned are also
    evaluated on the binary64 numbers of the kernel, whose operations are
    those of IEEE 754 as numpy's are. *)

Module Binary64.

Definition np_pi : float := 0x1.921fb54442d18p+1%float.

Definition two_pi : float := (2 * np_pi)%float.

(** [x % m] of numpy and of Python for [0 < m] and a non-zero [x] with
    [-m < x < m]: the C [fmod] is then [x] itself, and [m] is added to it
    when it is negative. *)
Definition remainder_within (x m : float) : float :=
  if (x <? 0)%float then (x + m)%float else x.

(** Orbit.py, line 464 and line 490, on one component. *)
Definition subtract_rotation (v_e t v : float) : float := (v - v_e * t)%float.

Definition add_rotation (v_e t v : float) : float := (v + v_e * t)%float.

Definition vec64 : Type := float * float * float.

(** The length of a vector, the square root of the sum of the squares; the
    order of the sum does not matter for the vectors below, which have a
    zero component. *)
Definition vectMag (v : vec64) : float :=
  let '(x, y, z) := v in PrimFloat.sqrt (x * x + y * y + z * z)%float.

(** [np.cross]. *)
Definition cross (u v : vec64) : vec64 :=
  let '(a, b, c) := u in
  let '(x, y, z) := v in
  ((b * z - c * y)%float, (c * x - a * z)%float, (a * y - b * x)%float).

(** Orbit.py, lines 682 and 685; the square is the product. *)
Definition epsilon (sun_mu : float) (meteor_pos v_h : vec64) : float :=
  (vectMag v_h * vectMag v_h / 2 - sun_mu / vectMag meteor_pos)%float.

Definition a (sun_mu au : float) (meteor_pos v_h : vec64) : float :=
  (- sun_mu / (2 * epsilon sun_mu meteor_pos v_h * au))%float.

(** Orbit.py, lines 695 and 703-704. *)
Definition eccentricity (sun_mu : float) (meteor_pos v_h : vec64) : float :=
  let '(cx, cy, cz) := cross v_h (cross meteor_pos v_h) in
  let '(x, y, z) := meteor_pos in
  let r := vectMag meteor_pos in
  vectMag ((cx / sun_mu - x / r)%float, (cy / sun_mu - y / r)%float,
           (cz / sun_mu - z / r)%float).

(** A heliocentric state (km and km/s) receding from the Sun, with the
    constants [SUN_MU] (km3/s2) and [AU] (km) of [demoEnv]. *)
Definition sun_mu_km : float := 0x1.ee64720d2p+36%float.

Definition au_km : float := 0x1.1d55d5d666666p+27%float.

Definition near_parabolic_pos : vec64 :=
  (0x1.1e82b294df079p+27%float, 0%float, 0%float).

Definition near_parabolic_vel : vec64 :=
  (0x1.532fec56d5cfbp+2%float, 0x1.4d9999999999ap+5%float, 0%float).

End Binary64.

(** ** The command-line script of Orbit.py (lines 831-1033) *)

Module OrbitMain.

(** What [arg_parser.parse_args()] returns. *)
Record CmlArgs : Type := {
  pickle_file : option string;
  ra : option npfloat;
  dec : option npfloat;
  vinit : option npfloat;
  vavg : option npfloat;
  time : option string;
  lat : option npfloat;
  lon : option npfloat;
  ele : option npfloat;
  j2000 : bool;
  refavg : bool;
  vrotcorr : bool;
  statfixed : bool;
  milig : bool }.

(** The attributes of a pickled trajectory that the script reads. *)
Record Trajectory : Type := {
  orbit : Orbit.t;
  state_vect_mini : vec }.

(** The routines that only the script calls, and the formats with which
    the orbit is printed.  [loadPickle] and [strptime] return [None] where
    the Python routine raises (no such file, a time that does not follow
    the format). *)
Record ScriptEnv : Type := {
  loadPickle : string -> option Trajectory;
  strptime : string -> option datetime;
  geo2Cartesian : npfloat -> npfloat -> npfloat -> npfloat -> vec;
  raDec2ECI : npfloat -> npfloat -> vec;
  format_float : string -> npfloat -> string;
  format_int : string -> Z -> string;
  format_str : string -> string -> string;
  str_datetime : datetime -> string }.

(** How a run ends: normally, with the orbit that was computed and printed,
    by [sys.exit()] after a message was printed, or by an exception. *)
Inductive outcome (A : Type) : Type :=
| Done (a : A)
| Exit (message : string)
| Raise.

Arguments Done {A} a.
Arguments Exit {A} message.
Arguments Raise {A}.

Definition bind {A B : Type} (m : outcome A) (k : A -> outcome B) : outcome B :=
  match m with
  | Done a => k a
  | Exit message => Exit message
  | Raise => Raise
  end.

Notation "x <- m ;; k" := (bind m (fun x => k))
  (at level 61, m at next level, right associativity).

(** A [None] that reaches a numerical routine raises a TypeError. *)
Definition number {A : Type} (x : option A) : outcome A :=
  match x with
  | Some v => Done v
  | None => Raise
  end.

Definition parameter_missing_message (name : string) : string :=
  ("To compute the orbit without the existing trajectory file, " ++ name
   ++ " must also be provided!")%string.

(** The pattern of lines 915-937 and 974-996: the value of the command
    line, else the attribute of the pickled orbit, else the exit. *)
Definition resolve (given : option npfloat) (traj : option Trajectory)
    (attribute : Orbit.t -> option npfloat) (name : string)
    : outcome (option npfloat) :=
  match given with
  | Some v => Done (Some v)
  | None =>
      match traj with
      | Some t => Done (attribute (orbit t))
      | None => Exit (parameter_missing_message name)
      end
  end.

(** Lines 1013-1015: [(reference_init, rotation_correction,
    stations_fixed)]. *)
Definition flags (cml : CmlArgs) : bool * bool * bool :=
  (negb (refavg cml) && negb (milig cml),
   vrotcorr cml || milig cml,
   statfixed cml || milig cml).

Section Script.
Variable E : Env.
Variable S : ScriptEnv.
Variable cml : CmlArgs.

(** Line 1033: [print(orb)] renders the orbit with [__repr__], which
    raises a TypeError on an attribute that is [None]. *)
Definition print_orbit (orb : Orbit.t) : outcome Orbit.t :=
  match Report.__repr__ E (format_float S) (format_int S) (format_str S)
                        (str_datetime S) None None orb with
  | Some text => Done orb
  | None => Raise
  end.

(** Lines 905-909. *)
Definition load : outcome (option Trajectory) :=
  match pickle_file cml with
  | Some path =>
      match loadPickle S path with
      | Some t => Done (Some t)
      | None => Raise
      end
  | None => Done None
  end.

(** Lines 915-1033, from the trajectory that was loaded, if any, to the
    orbit that [calcOrbit] returns and the script prints.  An average
    velocity that is [None] is only stored by [calcOrbit] when the stations
    are fixed and the reference is the initial point; it then raises in the
    report, at [self.v_avg/1000]. *)
Definition run (traj : option Trajectory) : outcome Orbit.t :=
  ra <- resolve (option_map radians (ra cml)) traj Orbit.ra "RA" ;;
  dec <- resolve (option_map radians (dec cml)) traj Orbit.dec "Dec" ;;
  v_init <- resolve (option_map (fmul (Fin 1000)) (vinit cml)) traj
                    Orbit.v_init "initial velocity" ;;
  v_avg <- match vavg cml with
           | Some w => Done (Some (fmul (Fin 1000) w))
           | None =>
               match traj with
               | Some t => Done (Orbit.v_avg (orbit t))
               | None =>
                   match v_init with
                   | Some v => Done (Some v)
                   | None =>
                       Exit (parameter_missing_message "average velocity")
                   end
               end
           end ;;
  jd_ref <- match time cml with
            | Some text =>
                match strptime S text with
                | Some dt_ref => Done (Some (datetime2JD E dt_ref))
                | None => Raise
                end
            | None =>
                match traj with
                | Some t => Done (Orbit.jd_ref (orbit t))
                | None => Exit (parameter_missing_message "reference time")
                end
            end ;;
  eci_ref <- match lat cml, lon cml, ele cml with
             | None, None, None =>
                 match traj with
                 | Some t => Done (state_vect_mini t)
                 | None => Exit (parameter_missing_message "lat, lon, ht")
                 end
             | _, _, _ =>
                 lat_ref <- resolve (option_map radians (lat cml)) traj
                                    Orbit.lat_ref "latitude" ;;
                 lon_ref <- resolve (option_map radians (lon cml)) traj
                                    Orbit.lon_ref "longitude" ;;
                 ht_ref <- resolve (option_map (fmul (Fin 1000)) (ele cml))
                                   traj Orbit.ht_ref "height" ;;
                 lat_ref <- number lat_ref ;;
                 lon_ref <- number lon_ref ;;
                 ht_ref <- number ht_ref ;;
                 jd <- number jd_ref ;;
                 Done (geo2Cartesian S lat_ref lon_ref ht_ref jd)
             end ;;
  ra <- number ra ;;
  dec <- number dec ;;
  jd_ref <- number jd_ref ;;
  v_init <- number v_init ;;
  v_avg <- number v_avg ;;
  let radec :=
    if j2000 cml
    then equatorialCoordPrecession E (J2000_JD_days E) jd_ref ra dec
    else (ra, dec) in
  let radiant_eci := raDec2ECI S (fst radec) (snd radec) in
  let '(reference_init, rotation_correction, stations_fixed) := flags cml in
  print_orbit (calcOrbit E radiant_eci v_init v_avg eci_ref jd_ref
                         stations_fixed reference_init rotation_correction).

Definition main : outcome Orbit.t := traj <- load ;; run traj.
End Script.

(** The same arguments with other values of the four flags [-k], [-c], [-s]
    and [-m]. *)
Definition with_flags (cml : CmlArgs) (k c s m : bool) : CmlArgs :=
  {| pickle_file := pickle_file cml; ra := ra cml; dec := dec cml;
     vinit := vinit cml; vavg := vavg cml; time := time cml;
     lat := lat cml; lon := lon cml; ele := ele cml; j2000 := j2000 cml;
     refavg := k; vrotcorr := c; statfixed := s; milig := m |}.

End OrbitMain.

(** Concrete arguments of the script: everything but the average velocity
    is given, there is no pickle; [strptime] accepts any non-empty text. *)
Definition demoScript : OrbitMain.ScriptEnv := {|
  OrbitMain.loadPickle := fun path => None;
  OrbitMain.strptime := fun text =>
    if String.eqb text "" then None else Some (Datetime 2017 7 21 7 4 19 513000);
  OrbitMain.geo2Cartesian := fun lat lon ht jd => demo_eci;
  OrbitMain.raDec2ECI := fun ra dec =>
    V3 (fmul (fcos dec) (fcos ra)) (fmul (fcos dec) (fsin ra)) (fsin dec);
  OrbitMain.format_float := fun spec x => EmptyString;
  OrbitMain.format_int := fun spec n => EmptyString;
  OrbitMain.format_str := fun spec text => text;
  OrbitMain.str_datetime := fun d => EmptyString |}.

Definition demoArgs (ra : option npfloat) : OrbitMain.CmlArgs := {|
  OrbitMain.pickle_file := None;
  OrbitMain.ra := ra;
  OrbitMain.dec := Some (Fin 0);
  OrbitMain.vinit := Some (Fin 26);
  OrbitMain.vavg := None;
  OrbitMain.time := Some "20170721-070419.513"%string;
  OrbitMain.lat := Some (Fin 0);
  OrbitMain.lon := Some (Fin 0);
  OrbitMain.ele := Some (Fin 1593.7881152);
  OrbitMain.j2000 := false;
  OrbitMain.refavg := false;
  OrbitMain.vrotcorr := false;
  OrbitMain.statfixed := false;
  OrbitMain.milig := false |}.

(** ** MinimizationParameterNormalization (GUI.py, lines 1099-1247) *)

Module Normalization.

Inductive method : Type := Bounds | Scaling.

(** The exceptions that the methods raise. *)
Inductive error : Type :=
| ValueError (message : string)
| IndexError
| UnboundLocalError
| ZeroDivisionError.

(** [x/y].  The division of two Python floats (or integers) raises when
    the divisor is zero; when one of them is a numpy float it gives an
    infinity or NaN (and a warning) instead.  [numpy] tells which numbers
    the lists hold. *)
Definition truediv (numpy : bool) (x y : npfloat) : error + npfloat :=
  if numpy then inr (fdiv x y)
  else match y with
       | Fin r => if Reqb r 0 then inl ZeroDivisionError else inr (fdiv x y)
       | _ => inr (fdiv x y)
       end.

(** A loop that appends [f a] for every [a] of a list and stops at the
    first exception. *)
Fixpoint traverse {A B : Type} (f : A -> error + B) (l : list A)
    : error + list B :=
  match l with
  | [] => inr []
  | a :: rest =>
      match f a with
      | inl e => inl e
      | inr x =>
          match traverse f rest with
          | inl e => inl e
          | inr xs => inr (x :: xs)
          end
      end
  end.

(** The attributes of the object.  A bound is a pair [bound_min,
    bound_max]. *)
Record t : Type := mk {
  params : list npfloat;
  normalization_method : option method;
  bounds : option (list (npfloat * npfloat));
  scaling_list : option (list npfloat) }.

(** [__init__] (lines 1100-1117). *)
Definition init (params : list npfloat) : t := mk params None None None.

(** [normalizeBounds] (lines 1121-1150): the object after the call, and the
    normalised parameters with their bounds.  The attributes are assigned
    before the loop, so they are changed also when the loop raises. *)
Definition normalizeBounds (numpy : bool) (self : t)
    (bounds : list (npfloat * npfloat))
    : t * (error + (list npfloat * list (npfloat * npfloat))) :=
  let self' := mk (params self) (Some Bounds) (Some bounds)
                  (scaling_list self) in
  (self',
   match traverse
           (fun pb : npfloat * (npfloat * npfloat) =>
              let '(p, (bound_min, bound_max)) := pb in
              truediv numpy (fsub p bound_min) (fsub bound_max bound_min))
           (combine (params self) bounds) with
   | inl e => inl e
   | inr params_normed =>
       inr (params_normed,
            map (fun _ => (Fin 0, Fin 1)) (combine (params self) bounds))
   end).

(** The loop of lines 1180-1191 when bounds are given: [bounds[i]] raises an
    IndexError past the end of the list. *)
Fixpoint scale_bounds (i : nat) (zipped : list (npfloat * npfloat))
    (bounds : list (npfloat * npfloat))
    : error + list (npfloat * npfloat) :=
  match zipped with
  | [] => inr []
  | (p, scale) :: rest =>
      match nth_error bounds i with
      | None => inl IndexError
      | Some (bound_min, bound_max) =>
          match scale_bounds (S i) rest bounds with
          | inl e => inl e
          | inr tail =>
              inr ((fmul bound_min scale, fmul bound_max scale) :: tail)
          end
      end
  end.

(** [normalizeScaling] (lines 1154-1198).  The attributes are assigned
    before the loop, so they are changed also when the loop raises. *)
Definition normalizeScaling (self : t) (scaling_list : list npfloat)
    (bounds : option (list (npfloat * npfloat)))
    : t * (error + (list npfloat * option (list (npfloat * npfloat)))) :=
  let self' := mk (params self) (Some Scaling) bounds (Some scaling_list) in
  let zipped := combine (params self) scaling_list in
  let params_normed :=
    map (fun ps : npfloat * npfloat => fmul (fst ps) (snd ps)) zipped in
  (self',
   match bounds with
   | None => inr (params_normed, None)
   | Some b =>
       match scale_bounds 0 zipped b with
       | inl e => inl e
       | inr bounds_normed => inr (params_normed, Some bounds_normed)
       end
   end).

(** [denormalize] (lines 1202-1247).  When no normalisation was done, the
    [return params] of the last line reads a local variable that was never
    assigned. *)
Definition denormalize (numpy : bool) (self : t)
    (params_normed : list npfloat) : error + list npfloat :=
  match normalization_method self with
  | Some Bounds =>
      match bounds self with
      | None =>
          inl (ValueError
                 "Boundaries for parameter denormalization not specified!")
      | Some b =>
          inr (map (fun pb : npfloat * (npfloat * npfloat) =>
                      let '(p_normed, (bound_min, bound_max)) := pb in
                      fadd (fmul p_normed (fsub bound_max bound_min))
                           bound_min)
                   (combine params_normed b))
      end
  | Some Scaling =>
      match scaling_list self with
      | None =>
          inl (ValueError
                 "Scaling list for parameter denormalization not specified!")
      | Some sl =>
          traverse (fun ps : npfloat * npfloat =>
                      truediv numpy (fst ps) (snd ps))
                   (combine params_normed sl)
      end
  | None => inl UnboundLocalError
  end.

(** The objects that [__init__] and the two normalisations can make. *)
Inductive reachable : t -> Prop :=
| reach_init (params : list npfloat) : reachable (init params)
| reach_bounds (numpy : bool) (self : t) (b : list (npfloat * npfloat)) :
    reachable self -> reachable (fst (normalizeBounds numpy self b))
| reach_scaling (self : t) (sl : list npfloat)
    (b : option (list (npfloat * npfloat))) :
    reachable self -> reachable (fst (normalizeScaling self sl b)).

End Normalization.

(** ** MetSimGUI.saveUpdatedOrbit (GUI.py, lines 4357-4384) *)

(** [s.replace(old, new)] of Python for a non-empty [old]: the occurrences
    of [old] are replaced from the left, without overlap.  [skip] counts the
    characters of an occurrence that are still to be passed over. *)
Fixpoint replace_from (old new : string) (skip : nat) (s : string) : string :=
  match s with
  | EmptyString => EmptyString
  | String c rest =>
      match skip with
      | S k => replace_from old new k rest
      | O =>
          if String.prefix old s
          then String.append new
                 (replace_from old new (String.length old - 1) rest)
          else String c (replace_from old new 0 rest)
      end
  end.

Definition str_replace (s old new : string) : string :=
  replace_from old new 0 s.

Module SaveUpdatedOrbit.

(** The attributes of [self.traj] that the method reads. *)
Record Trajectory : Type := {
  radiant_eci_mini : vec;
  v_init : npfloat;
  v_avg : npfloat;
  state_vect_mini : vec;
  rbeg_jd : npfloat;
  orbit : Orbit.t;
  uncertainties : option Uncertainties }.

(** What the method does: the orbit it prints, the report it saves and the
    pickle it saves (the trajectory with the new orbit). *)
Record Effects : Type := {
  printed : string;
  report_dir : string;
  report_file_name : string;
  report_uncertainties : option Uncertainties;
  pickle_trajectory : Trajectory;
  pickle_dir : string;
  pickle_file_name : string }.

Section Body.
Variable E : Env.
Variable format_float : string -> npfloat -> string.
Variable format_int : string -> Z -> string.
Variable format_str : string -> string -> string.
Variable str_datetime : datetime -> string.
(** [os.path.split]. *)
Variable path_split : string -> string * string.

(** [self.const.v_init], [self.traj] and [self.traj_path]. *)
Variable const_v_init : npfloat.
Variable traj : Trajectory.
Variable traj_path : string.

(** Line 4363; the subtraction raises when the orbit has no [v_init]. *)
Definition v_init_diff : option npfloat :=
  match Orbit.v_init (orbit traj) with
  | Some v => Some (fsub const_v_init v)
  | None => None
  end.

(** Lines 4366-4367: [calcOrbit] with its default flags. *)
Definition updated_orbit (diff : npfloat) : Orbit.t :=
  calcOrbit E (radiant_eci_mini traj) (fadd (v_init traj) diff)
            (fadd (v_avg traj) diff) (state_vect_mini traj) (rbeg_jd traj)
            false true false.

Definition with_orbit (orb : Orbit.t) : Trajectory :=
  {| radiant_eci_mini := radiant_eci_mini traj; v_init := v_init traj;
     v_avg := v_avg traj; state_vect_mini := state_vect_mini traj;
     rbeg_jd := rbeg_jd traj; orbit := orb;
     uncertainties := uncertainties traj |}.

(** [None] when an exception is raised. *)
Definition saveUpdatedOrbit : option Effects :=
  match v_init_diff with
  | None => None
  | Some diff =>
      let orb := updated_orbit diff in
      match Report.__repr__ E format_float format_int format_str
                            str_datetime None None orb with
      | None => None
      | Some text =>
          let '(dir_path, file_name) := path_split traj_path in
          Some {| printed := text;
                  report_dir := dir_path;
                  report_file_name :=
                    String.append (str_replace file_name "trajectory.pickle" "")
                                  "report_sim.txt";
                  report_uncertainties := uncertainties traj;
                  pickle_trajectory := with_orbit orb;
                  pickle_dir := dir_path;
                  pickle_file_name :=
                    str_replace file_name "trajectory.pickle"
                                "trajectory_sim.pickle" |}
      end
  end.
End Body.

End SaveUpdatedOrbit.

(** A trajectory with the orbit [demoOrbit 6 26000], read from the file
    [20170721_trajectory.pickle], and a model whose initial velocity is
    26.5 km/s. *)
Definition demoTrajectory : SaveUpdatedOrbit.Trajectory :=
  {| SaveUpdatedOrbit.radiant_eci_mini := demo_radiant;
     SaveUpdatedOrbit.v_init := Fin 26000;
     SaveUpdatedOrbit.v_avg := Fin 25000;
     SaveUpdatedOrbit.state_vect_mini := demo_eci;
     SaveUpdatedOrbit.rbeg_jd := demo_jd;
     SaveUpdatedOrbit.orbit := demoOrbit 6 26000;
     SaveUpdatedOrbit.uncertainties := None |}.

Definition demoSave : option SaveUpdatedOrbit.Effects :=
  SaveUpdatedOrbit.saveUpdatedOrbit (demoEnv 6)
    (fun _ _ => EmptyString) (fun _ _ => EmptyString)
    (fun _ _ => EmptyString) (fun _ => EmptyString)
    (fun path => (EmptyString, path)) (Fin 26500) demoTrajectory
    "20170721_trajectory.pickle".

(** ** FragmentationEntry (GUI.py, lines 575-823) *)

Module FragmentationEntry.

(** The values that the constructor is given: fields of a line of the
    fragmentation file (strings), numbers, or [None]. *)
Inductive pyval : Type :=
| PNone
| PStr (s : string)
| PInt (z : Z)
| PFloat (x : npfloat).

(** [int(x)] of a float: the truncation toward zero. *)
Definition truncate (x : R) : Z :=
  if Rltb x 0 then (- Int_part (- x))%Z else Int_part x.

Record t : Type := mk {
  id : option Z;
  done : bool;
  frag_type : string;
  height : npfloat;
  number : option Z;
  mass_percent : option npfloat;
  sigma : option npfloat;
  gamma : option npfloat;
  erosion_coeff : option npfloat;
  grain_mass_min : option npfloat;
  grain_mass_max : option npfloat;
  mass_index : option npfloat;
  fragments : list Z;
  time : option npfloat;
  dyn_pressure : option npfloat;
  velocity : option npfloat;
  parent_mass : option npfloat;
  mass : option npfloat;
  final_mass : option npfloat;
  main_time_data : list npfloat;
  main_height_data : list npfloat;
  main_luminosity : list npfloat;
  main_abs_mag : list npfloat;
  grains_time_data : list npfloat;
  grains_height_data : list npfloat;
  grains_luminosity : list npfloat;
  grains_abs_mag : list npfloat }.

Section Body.
(** The rounding of float64, for the conversions of units. *)
Variable rnd : R -> R.
(** [float(s)] and [int(s)] of a string ([None] when they raise a
    ValueError), [s.strip()], and the formats. *)
Variable float_of_string : string -> option npfloat.
Variable int_of_string : string -> option Z.
Variable strip : string -> string.
Variable format_float : string -> npfloat -> string.
Variable format_int : string -> Z -> string.
Variable format_str : string -> string -> string.

(** [float(v)] and [int(v)]; [None] when an exception is raised. *)
Definition to_float (v : pyval) : option npfloat :=
  match v with
  | PNone => None
  | PStr s => float_of_string s
  | PInt z => Some (Fin (IZR z))
  | PFloat x => Some x
  end.

Definition to_int (v : pyval) : option Z :=
  match v with
  | PNone => None
  | PStr s => int_of_string s
  | PInt z => Some z
  | PFloat (Fin x) => Some (truncate x)
  | PFloat _ => None
  end.

(** [__init__] (lines 576-687); [None] when it raises.  [1000**norm] and
    [1e6**norm] are 1000 and 1e6 when the units are normalised, and 1
    otherwise: the product and the quotient with 1 are the number itself. *)
Definition init (frag_type : string)
    (height number mass_percent sigma gamma erosion_coeff grain_mass_min
     grain_mass_max mass_index : pyval) (normalize_units : bool)
    : option t :=
  let frag_type := strip frag_type in
  match to_float height with
  | None => None
  | Some h =>
      Some {|
        id := None;
        done := false;
        frag_type := frag_type;
        height :=
          if normalize_units then Rounded.rounded rnd (fmul (Fin 1000) h)
          else h;
        number :=
          match to_int number with
          | Some n => Some n
          | None =>
              if String.eqb frag_type "F" || String.eqb frag_type "EF"
              then Some 1%Z else None
          end;
        mass_percent := to_float mass_percent;
        sigma :=
          match to_float sigma with
          | Some s =>
              Some (if normalize_units
                    then Rounded.rounded rnd (fdiv s (Fin 1e6)) else s)
          | None => None
          end;
        gamma := to_float gamma;
        erosion_coeff :=
          match to_float erosion_coeff with
          | Some c =>
              Some (if normalize_units
                    then Rounded.rounded rnd (fdiv c (Fin 1e6)) else c)
          | None => None
          end;
        grain_mass_min := to_float grain_mass_min;
        grain_mass_max := to_float grain_mass_max;
        mass_index := to_float mass_index;
        fragments := [];
        time := None;
        dyn_pressure := None;
        velocity := None;
        parent_mass := None;
        mass := None;
        final_mass := None;
        main_time_data := [];
        main_height_data := [];
        main_luminosity := [];
        main_abs_mag := [];
        grains_time_data := [];
        grains_height_data := [];
        grains_luminosity := [];
        grains_abs_mag := [] |}
  end.

(** [n*" "] and [", ".join(entries)]. *)
Fixpoint spaces (n : nat) : string :=
  match n with
  | O => EmptyString
  | S k => String.append " " (spaces k)
  end.

Fixpoint join (sep : string) (entries : list string) : string :=
  match entries with
  | [] => EmptyString
  | [e] => e
  | e :: rest => String.append e (String.append sep (join sep rest))
  end.

(** A formatted value, or blanks when the attribute is [None]. *)
Definition field (spec : string) (width : nat) (x : option npfloat) : string :=
  match x with
  | Some v => format_float spec v
  | None => spaces width
  end.

(** [toString] (lines 723-823). *)
Definition toString (self : t) : string :=
  String.append
    (join ", "
       [ format_str "{:>6s}" (frag_type self);
         format_float "{:11.3f}"
                      (Rounded.rounded rnd (fdiv (height self) (Fin 1000)));
         match number self with
         | Some n => format_int "{:6d}" n
         | None => spaces 6
         end;
         field "{:8.3f}" 8 (mass_percent self);
         field "{:14.4f}" 14
               (option_map (fun x => Rounded.rounded rnd (fmul (Fin 1e6) x))
                           (sigma self));
         field "{:5.2f}" 5 (gamma self);
         field "{:13.4f}" 13
               (option_map (fun x => Rounded.rounded rnd (fmul (Fin 1e6) x))
                           (erosion_coeff self));
         field "{:9.2e}" 9 (grain_mass_min self);
         field "{:9.2e}" 9 (grain_mass_max self);
         field "{:5.2f}" 5 (mass_index self) ])
    (String.append " # "
       (String.append
          (join ", "
             [ field "{:9.6f}" 9 (time self);
               field "{:9.3f}" 9
                     (option_map
                        (fun p => Rounded.rounded rnd (fdiv p (Fin 1000)))
                        (dyn_pressure self));
               field "{:8.3f}" 8
                     (option_map
                        (fun v => Rounded.rounded rnd (fdiv v (Fin 1000)))
                        (velocity self));
               field "{:11.2e}" 11 (parent_mass self);
               field "{:9.2e}" 9 (mass self);
               field "{:10.2e}" 10 (final_mass self) ])
          " #")).
End Body.

End FragmentationEntry.

(** * Properties *)

(** ** Evaluation of the comparisons on reals *)

Lemma Rltb_true (x y : R) : x < y -> Rltb x y = true.
Proof.
  intros H. unfold Rltb. destruct (Rlt_dec x y); [reflexivity | contradiction].
Qed.

Lemma Rltb_false (x y : R) : ~ x < y -> Rltb x y = false.
Proof.
  intros H. unfold Rltb. destruct (Rlt_dec x y); [contradiction | reflexivity].
Qed.

Lemma Rltb_lt (x y : R) : Rltb x y = true -> x < y.
Proof.
  unfold Rltb. destruct (Rlt_dec x y); [trivial | discriminate].
Qed.

Lemma Rltb_nlt (x y : R) : Rltb x y = false -> y <= x.
Proof.
  unfold Rltb. destruct (Rlt_dec x y); [discriminate | intros _; lra].
Qed.

Lemma Reqb_true (x y : R) : x = y -> Reqb x y = true.
Proof.
  intros H. unfold Reqb. destruct (Req_dec_T x y); [reflexivity | contradiction].
Qed.

Lemma Reqb_false (x y : R) : x <> y -> Reqb x y = false.
Proof.
  intros H. unfold Reqb. destruct (Req_dec_T x y); [contradiction | reflexivity].
Qed.

Lemma Reqb_eq (x y : R) : Reqb x y = true -> x = y.
Proof.
  unfold Reqb. destruct (Req_dec_T x y); [trivial | discriminate].
Qed.

Lemma Reqb_neq (x y : R) : Reqb x y = false -> x <> y.
Proof.
  unfold Reqb. destruct (Req_dec_T x y); [discriminate | trivial].
Qed.

(** ** The remainder *)

Lemma Rmod_range (x m : R) : 0 < m -> 0 <= Rmod x m < m.
Proof.
  intros Hm. unfold Rmod.
  destruct (base_Int_part (x / m)) as [Hlo Hhi].
  assert (Hx : x = m * (x / m)) by (field; lra).
  revert Hlo Hhi Hx.
  generalize (IZR (Int_part (x / m))), (x / m). intros k d Hlo Hhi Hx.
  subst x. split; nra.
Qed.

Lemma Rmod_0 (m : R) : Rmod 0 m = 0.
Proof.
  unfold Rmod. replace (0 / m) with 0 by (unfold Rdiv; ring).
  replace (Int_part 0) with 0%Z.
  - simpl. ring.
  - apply Int_part_spec. simpl. lra.
Qed.

Lemma two_pi_fin : two_pi = Fin (2 * PI).
Proof. reflexivity. Qed.

Lemma two_pi_pos : 0 < 2 * PI.
Proof. pose proof PI_RGT_0. lra. Qed.

Lemma fmod_two_pi (x : npfloat) :
  fmod x two_pi = NaN \/ normalised (fmod x two_pi).
Proof.
  rewrite two_pi_fin. destruct x as [| s | r]; simpl; auto.
  rewrite Reqb_false by (pose proof two_pi_pos; lra).
  right. exists (Rmod r (2 * PI)). split; [reflexivity |].
  apply Rmod_range, two_pi_pos.
Qed.

Lemma fmod_nan (m : npfloat) : fmod NaN m = NaN.
Proof. reflexivity. Qed.

Lemma fmod_zero_two_pi : fmod (Fin 0) two_pi = Fin 0.
Proof.
  rewrite two_pi_fin. simpl.
  rewrite Reqb_false by (pose proof two_pi_pos; lra).
  now rewrite Rmod_0.
Qed.

(** ** NaN and the normalised angles of the element solver *)

Lemma normalised_within_turn (x : npfloat) : normalised x -> within_turn x.
Proof.
  intros (r & Hx & H0 & H1). exists r. split; [exact Hx | lra].
Qed.

(** In float64 itself the remainder of a tiny negative number by [2 pi] is
    [2 pi]: the sum of the two rounds to it. *)
Lemma remainder_rounds_to_two_pi :
  Binary64.remainder_within (- 0x1p-60) Binary64.two_pi = Binary64.two_pi.
Proof. reflexivity. Qed.

Section KeplerAngles.
Variable E : Env.
Variables (meteor_pos v_h : vec).

Lemma node_range :
  Kepler.node meteor_pos v_h = NaN \/ normalised (Kepler.node meteor_pos v_h).
Proof. apply fmod_two_pi. Qed.

Lemma peri_range :
  Kepler.peri E meteor_pos v_h = NaN
  \/ normalised (Kepler.peri E meteor_pos v_h).
Proof. apply fmod_two_pi. Qed.

Lemma pi_range :
  Kepler.pi E meteor_pos v_h = NaN \/ normalised (Kepler.pi E meteor_pos v_h).
Proof. apply fmod_two_pi. Qed.

Lemma true_anomaly_range :
  Kepler.true_anomaly E meteor_pos v_h = NaN
  \/ normalised (Kepler.true_anomaly E meteor_pos v_h).
Proof. apply fmod_two_pi. Qed.

Lemma mean_anomaly_range :
  Kepler.mean_anomaly E meteor_pos v_h = NaN
  \/ normalised (Kepler.mean_anomaly E meteor_pos v_h).
Proof. apply fmod_two_pi. Qed.

(** On a hyperbolic orbit [1 - e**2] is negative: its square root, the
    eccentric anomaly and the mean anomaly are NaN. *)
Lemma hyperbolic_mean_anomaly :
  fgt (Kepler.eccentricity E meteor_pos v_h) (Fin 1) = true ->
  Kepler.mean_anomaly E meteor_pos v_h = NaN.
Proof.
  intros He. unfold Kepler.mean_anomaly, Kepler.eccentric_anomaly.
  destruct (Kepler.eccentricity E meteor_pos v_h) as [| s | e].
  - discriminate.
  - destruct s; [discriminate | reflexivity].
  - simpl in He. apply Rltb_lt in He.
    assert (Hs : fsqrt (fsub (Fin 1) (fsquare (Fin e))) = NaN).
    { simpl. rewrite Rltb_true by nra. reflexivity. }
    rewrite Hs. reflexivity.
Qed.

(** When the argument of perihelion is NaN so is the longitude of
    perihelion. *)
Lemma pi_nan_of_peri :
  Kepler.peri E meteor_pos v_h = NaN -> Kepler.pi E meteor_pos v_h = NaN.
Proof.
  intros Hp. unfold Kepler.pi. rewrite Hp.
  destruct (Kepler.node meteor_pos v_h); reflexivity.
Qed.

End KeplerAngles.

(** ** calcOrbit: what is stored, on each side of the escape-velocity test *)

Section CalcOrbitFields.
Variable E : Env.
Variables (radiant_eci : vec) (v_init v_avg : npfloat) (eci_ref : vec)
          (jd_ref : npfloat).
Variables (stations_fixed reference_init rotation_correction : bool).

Local Abbreviation orbit :=
  (calcOrbit E radiant_eci v_init v_avg eci_ref jd_ref
             stations_fixed reference_init rotation_correction).
Local Abbreviation escapes :=
  (Rotation.escapes E radiant_eci v_init v_avg eci_ref jd_ref
                    stations_fixed reference_init rotation_correction).
Local Abbreviation v_init_corr :=
  (Rotation.v_init_corr E radiant_eci v_init v_avg eci_ref jd_ref
                        stations_fixed reference_init rotation_correction).
Local Abbreviation v_ref_corr :=
  (Rotation.v_ref_corr E radiant_eci v_init v_avg eci_ref jd_ref
                       stations_fixed reference_init).
Local Abbreviation r_h :=
  (calcOrbit_meteor_pos E eci_ref jd_ref).
Local Abbreviation v_h :=
  (calcOrbit_v_h E radiant_eci v_init v_avg eci_ref jd_ref
                 stations_fixed reference_init rotation_correction).

Lemma calcOrbit_v_inf : Orbit.v_inf orbit = Some v_init_corr.
Proof. unfold calcOrbit. cbv zeta. destruct escapes; reflexivity. Qed.



Lemma calcOrbit_elements :
  escapes = true ->
  Orbit.a orbit = Some (Kepler.a E r_h v_h)
  /\ Orbit.e orbit = Some (Kepler.eccentricity E r_h v_h)
  /\ Orbit.q orbit = Some (Kepler.q E r_h v_h)
  /\ Orbit.Q orbit = Some (Kepler.Q E r_h v_h)
  /\ Orbit.node orbit = Some (Kepler.node r_h v_h)
  /\ Orbit.peri orbit = Some (Kepler.peri E r_h v_h)
  /\ Orbit.pi orbit = Some (Kepler.pi E r_h v_h)
  /\ Orbit.true_anomaly orbit = Some (Kepler.true_anomaly E r_h v_h)
  /\ Orbit.mean_anomaly orbit = Some (Kepler.mean_anomaly E r_h v_h)
  /\ Orbit.last_perihelion orbit
     = Kepler.last_perihelion E r_h v_h (Rotation.jd_dyn E jd_ref).
Proof.
  intros H. unfold calcOrbit. cbv zeta. rewrite H.
  repeat split.
Qed.



(** C2: the corrected initial velocity, stored as [v_inf], is the length of
    the corrected reference vector when the reference is the initial point
    and the velocity is corrected for the rotation; that length plus
    [v_init - v_avg] when the reference is the average point and the velocity
    is corrected; and [v_init] itself in the two cases without correction. *)
Theorem corrected_initial_velocity :
  Orbit.v_inf orbit = Some v_init_corr
  /\ (reference_init = true -> rotation_correction = true ->
      v_init_corr = vectMag v_ref_corr)
  /\ (reference_init = true -> rotation_correction = false ->
      v_init_corr = v_init)
  /\ (reference_init = false -> rotation_correction = true ->
      v_init_corr = fsub (fadd (vectMag v_ref_corr) v_init) v_avg)
  /\ (reference_init = false -> rotation_correction = false ->
      v_init_corr = v_init).
Proof.
  split; [apply calcOrbit_v_inf |].
  unfold Rotation.v_init_corr.
  repeat split; intros -> ->; reflexivity.
Qed.

(** C3: on a computed orbit [q] is [a*(1 - e)] unless the eccentricity is
    exactly 1, where it is [(|r| + e_vect.r)/(1 + |e_vect|)]; [Q] is
    [a*(1 + e)] in every case. *)
Theorem perihelion_and_aphelion_distance :
  escapes = true ->
  exists a e : npfloat,
    Orbit.a orbit = Some a /\ Orbit.e orbit = Some e
    /\ e = vectMag (Kepler.e_vect E r_h v_h)
    /\ (feq e (Fin 1) = false ->
        Orbit.q orbit = Some (fmul a (fsub (Fin 1) e)))
    /\ (feq e (Fin 1) = true ->
        Orbit.q orbit
        = Some (fdiv (fadd (vectMag r_h) (dot (Kepler.e_vect E r_h v_h) r_h))
                     (fadd (Fin 1) (vectMag (Kepler.e_vect E r_h v_h)))))
    /\ Orbit.Q orbit = Some (fmul a (fadd (Fin 1) e)).
Proof.
  intros H.
  destruct (calcOrbit_elements H) as (Ha & He & Hq & HQ & _).
  exists (Kepler.a E r_h v_h), (Kepler.eccentricity E r_h v_h).
  split; [exact Ha |]. split; [exact He |]. split; [reflexivity |].
  rewrite Hq, HQ. unfold Kepler.q, Kepler.Q.
  repeat split.
  - intros Hne. rewrite Hne. reflexivity.
  - intros Heq. rewrite Heq. reflexivity.
Qed.

(** C4: with [n_vect] the cross product of the z axis and the angular
    momentum: when its length is zero the node is 0 and the argument of
    perihelion is [arccos(e_x/|e|)]; otherwise the node is
    [arctan2(n_y, n_x)] and the argument of perihelion is
    [arccos(n.e/(|n||e|))], taken from [2 pi] when [e_z < 0]; both are
    reduced modulo [2 pi]. *)
Theorem node_and_argument_of_perihelion :
  escapes = true ->
  let n_vect := Kepler.n_vect r_h v_h in
  let e_vect := Kepler.e_vect E r_h v_h in
  n_vect = cross (V3 (Fin 0) (Fin 0) (Fin 1)) (cross r_h v_h)
  /\ (feq (vectMag n_vect) (Fin 0) = true ->
      Orbit.node orbit = Some (Fin 0)
      /\ Orbit.peri orbit
         = Some (fmod (farccos (fdiv (vx e_vect) (vectMag e_vect))) two_pi))
  /\ (feq (vectMag n_vect) (Fin 0) = false ->
      Orbit.node orbit
      = Some (fmod (farctan2 (vy n_vect) (vx n_vect)) two_pi)
      /\ let peri :=
           farccos (fdiv (dot n_vect e_vect)
                         (fmul (vectMag n_vect) (vectMag e_vect))) in
         Orbit.peri orbit
         = Some (fmod (if flt (vz e_vect) (Fin 0) then fsub two_pi peri
                       else peri) two_pi)).
Proof.
  intros H. cbv zeta.
  destruct (calcOrbit_elements H) as (_ & _ & _ & _ & Hn & Hp & _).
  rewrite Hn, Hp. unfold Kepler.node, Kepler.peri, fne.
  split; [reflexivity |].
  split; intros Hz; rewrite Hz; simpl negb; cbv iota.
  - rewrite fmod_zero_two_pi. split; reflexivity.
  - split; reflexivity.
Qed.

(** C5, as amended: on a computed orbit each of [node], [peri],
    [true_anomaly] and [mean_anomaly] is either NaN or a number of the
    closed interval [0, 2 pi].  [peri] and [true_anomaly], remainders of
    operands that are not negative, are below [2 pi]; [node] and
    [mean_anomaly] are remainders of operands that may be negative, and in
    float64 the remainder of a tiny negative operand is [2 pi] itself
    ([remainder_rounds_to_two_pi]).  [mean_anomaly] is NaN when the
    eccentricity exceeds 1. *)
Theorem stored_angles_normalised_or_nan :
  escapes = true ->
  exists node peri true_anomaly mean_anomaly : npfloat,
    Orbit.node orbit = Some node /\ Orbit.peri orbit = Some peri
    /\ Orbit.true_anomaly orbit = Some true_anomaly
    /\ Orbit.mean_anomaly orbit = Some mean_anomaly
    /\ (node = NaN \/ within_turn node)
    /\ (peri = NaN \/ normalised peri)
    /\ (true_anomaly = NaN \/ normalised true_anomaly)
    /\ (mean_anomaly = NaN \/ within_turn mean_anomaly)
    /\ (forall e : npfloat,
          Orbit.e orbit = Some e -> fgt e (Fin 1) = true ->
          mean_anomaly = NaN).
Proof.
  intros H.
  destruct (calcOrbit_elements H)
    as (_ & He & _ & _ & Hn & Hp & _ & Ht & Hm & _).
  exists (Kepler.node r_h v_h), (Kepler.peri E r_h v_h),
         (Kepler.true_anomaly E r_h v_h), (Kepler.mean_anomaly E r_h v_h).
  split; [exact Hn |]. split; [exact Hp |]. split; [exact Ht |].
  split; [exact Hm |].
  split; [destruct (node_range r_h v_h) as [Hx | Hx];
          [left; exact Hx | right; now apply normalised_within_turn] |].
  split; [apply peri_range |].
  split; [apply true_anomaly_range |].
  split; [destruct (mean_anomaly_range E r_h v_h) as [Hx | Hx];
          [left; exact Hx | right; now apply normalised_within_turn] |].
  intros e Hs Hgt. rewrite He in Hs. injection Hs as <-.
  now apply hyperbolic_mean_anomaly.
Qed.

(** C9: when the corrected initial velocity does not exceed the escape
    velocity [jd_dyn] and [lst_ref] are left unset. *)
Theorem dynamical_time_unset_when_infeasible :
  escapes = false ->
  Orbit.jd_dyn orbit = None /\ Orbit.lst_ref orbit = None.
Proof.
  intros H. unfold calcOrbit. cbv zeta. rewrite H. split; reflexivity.
Qed.

(** The other side of C9: both are assigned on a computed orbit, [jd_dyn]
    with the dynamical time that was computed before the test. *)
Lemma dynamical_time_set_when_feasible :
  escapes = true ->
  Orbit.jd_dyn orbit = Some (jd2DynamicalTimeJD E jd_ref)
  /\ Orbit.lst_ref orbit
     = Some (radians (fst (jd2LST E jd_ref
                             (degrees (Rotation.lon_ref E eci_ref jd_ref))))).
Proof.
  intros H. unfold calcOrbit. cbv zeta. rewrite H. split; reflexivity.
Qed.

(** C10, as amended: on a computed orbit [pi] is [(node + peri) mod 2 pi];
    it is NaN when [node + peri] is, and a number of [0, 2 pi) otherwise. *)
Theorem longitude_of_perihelion :
  escapes = true ->
  exists node peri pi : npfloat,
    Orbit.node orbit = Some node /\ Orbit.peri orbit = Some peri
    /\ Orbit.pi orbit = Some pi
    /\ pi = fmod (fadd node peri) two_pi
    /\ (pi = NaN \/ normalised pi)
    /\ (fadd node peri = NaN -> pi = NaN).
Proof.
  intros H.
  destruct (calcOrbit_elements H) as (_ & _ & _ & _ & Hn & Hp & Hpi & _).
  exists (Kepler.node r_h v_h), (Kepler.peri E r_h v_h),
         (Kepler.pi E r_h v_h).
  repeat split; trivial.
  - apply pi_range.
  - intros Hs. unfold Kepler.pi. rewrite Hs. reflexivity.
Qed.

End CalcOrbitFields.

(** ** The concrete environment, followed by hand *)

Lemma vectMag_x (x : R) : vectMag (V3 (Fin x) (Fin 0) (Fin 0)) = Fin (Rabs x).
Proof.
  cbv [vectMag dot vx vy vz fmul fadd fsqrt].
  rewrite Rltb_false by nra. f_equal.
  replace (x * x + 0 * 0 + 0 * 0) with (Rsqr x) by (unfold Rsqr; ring).
  apply sqrt_Rsqr_abs.
Qed.


Lemma demo_eci_length : vectMag demo_eci = Fin 7971788.1152.
Proof.
  unfold demo_eci. rewrite vectMag_x. f_equal. apply Rabs_pos_eq. lra.
Qed.

Lemma demo_v_esc_sq : Rotation.v_esc_sq demo_eci = Fin 100000000.
Proof.
  unfold Rotation.v_esc_sq. rewrite demo_eci_length.
  cbv [fmul fdiv]. rewrite Reqb_false by lra. f_equal. lra.
Qed.

Lemma demo_escapes_fast (s : R) : demo_escapes s 26000 = true.
Proof.
  cbv [demo_escapes Rotation.escapes Rotation.v_init_corr].
  rewrite demo_v_esc_sq. cbv [fsquare fmul fgt]. apply Rltb_true. lra.
Qed.

Lemma demo_escapes_slow (s : R) : demo_escapes s 5000 = false.
Proof.
  cbv [demo_escapes Rotation.escapes Rotation.v_init_corr].
  rewrite demo_v_esc_sq. cbv [fsquare fmul fgt]. apply Rltb_false. lra.
Qed.

Lemma demo_v_g : Zenith.v_g demo_eci (Fin 26000) = Fin 24000.
Proof.
  unfold Zenith.v_g. rewrite demo_v_esc_sq.
  cbv [fsquare fmul fsub fneg fadd fsqrt].
  rewrite Rltb_false by lra. f_equal.
  transitivity (sqrt (24000 * 24000)); [f_equal; lra | apply sqrt_square; lra].
Qed.

Lemma demo_meteor_pos (s : R) :
  calcOrbit_meteor_pos (demoEnv s) demo_eci demo_jd = demo_pos.
Proof.
  cbv [calcOrbit_meteor_pos Helio.meteor_pos Helio.earth_pos_eq
       Helio.earth_pos Helio.earth Helio.eci_ref_j2000 Helio.re
       Helio.delta_ej Helio.alpha_ej Helio.radec_ej Helio.alpha_e
       Helio.delta_e Helio.sph Helio.x_axis Rotation.jd_dyn
       demoEnv demo_eci demo_pos rotateVector calcEarthRectangularCoordJPL
       cartesianToSpherical sphericalToCartesian equatorialCoordPrecession
       J2000_JD_days J2000_OBLIQUITY jd2DynamicalTimeJD
       vadd vdivs vx vy vz fadd fdiv fneg fst snd].
  rewrite !Reqb_false by lra.
  f_equal; f_equal; lra.
Qed.

Lemma demo_v_h (s : R) :
  calcOrbit_v_h (demoEnv s) demo_radiant (Fin 26000) (Fin 25000) demo_eci
                demo_jd false true false
  = V3 (Fin 0) (Fin (s + 24)) (Fin 0).
Proof.
  cbv [calcOrbit_v_h calcOrbit_v_g Helio.v_h Rotation.v_init_corr].
  rewrite demo_v_g.
  cbv [Helio.earth_vel Helio.earth Helio.L_g Helio.B_g Helio.ecl_g
       Rotation.jd_dyn demoEnv calcEarthRectangularCoordJPL
       eclipticToRectangularVelocityVect jd2DynamicalTimeJD
       vadd vx vy vz fadd fdiv fst snd].
  rewrite Reqb_false by lra.
  f_equal; f_equal; lra.
Qed.

(** The element solver at [demo_pos] with a velocity of [w] km/s along y:
    the eccentricity vector is [(w*w/1024 - 1, 0, 0)] and the orbit lies in
    the reference plane. *)
Lemma demo_e_vect (s w : R) :
  Kepler.e_vect (demoEnv s) demo_pos (V3 (Fin 0) (Fin w) (Fin 0))
  = V3 (Fin (w * w / 1024 - 1)) (Fin 0) (Fin 0).
Proof.
  unfold Kepler.e_vect, vectNorm, demo_pos. rewrite vectMag_x.
  rewrite Rabs_pos_eq by lra.
  cbv [Kepler.h_vect cross vsub vdivs vx vy vz fsub fadd fneg fmul fdiv
       demoEnv SUN_MU].
  rewrite !Reqb_false by lra.
  f_equal; f_equal; lra.
Qed.

Lemma demo_eccentricity (s w : R) :
  Kepler.eccentricity (demoEnv s) demo_pos (V3 (Fin 0) (Fin w) (Fin 0))
  = Fin (Rabs (w * w / 1024 - 1)).
Proof.
  unfold Kepler.eccentricity. rewrite demo_e_vect. apply vectMag_x.
Qed.

Lemma demo_n_vect (w : R) :
  Kepler.n_vect demo_pos (V3 (Fin 0) (Fin w) (Fin 0))
  = V3 (Fin 0) (Fin 0) (Fin 0).
Proof.
  cbv [Kepler.n_vect Kepler.k_vect Kepler.h_vect demo_pos cross
       vx vy vz fsub fadd fneg fmul].
  f_equal; f_equal; ring.
Qed.

(** At 64 km/s the eccentricity is 3. *)
Lemma demo_hyperbolic (s : R) :
  Kepler.eccentricity (demoEnv s) demo_pos (V3 (Fin 0) (Fin 64) (Fin 0))
  = Fin 3.
Proof.
  rewrite demo_eccentricity. f_equal.
  replace (64 * 64 / 1024 - 1) with 3 by lra. apply Rabs_pos_eq. lra.
Qed.

Lemma demo_hyperbolic_mean_anomaly (s : R) :
  Kepler.mean_anomaly (demoEnv s) demo_pos (V3 (Fin 0) (Fin 64) (Fin 0)) = NaN.
Proof.
  apply hyperbolic_mean_anomaly. rewrite demo_hyperbolic.
  simpl. apply Rltb_true. lra.
Qed.

(** At 32 km/s the orbit is a circle: the eccentricity vector is zero and
    the argument of perihelion is [arccos(0/0)]. *)
Lemma demo_circular_peri (s : R) :
  Kepler.peri (demoEnv s) demo_pos (V3 (Fin 0) (Fin 32) (Fin 0)) = NaN.
Proof.
  unfold Kepler.peri. rewrite demo_n_vect, demo_e_vect, !vectMag_x.
  replace (32 * 32 / 1024 - 1) with 0 by lra. rewrite Rabs_R0.
  cbv [fne feq vx fdiv]. rewrite !Reqb_true by reflexivity.
  reflexivity.
Qed.

Lemma demo_r_eq (s : R) : demo_r s = demo_pos.
Proof. unfold demo_r. apply demo_meteor_pos. Qed.

Lemma demo_v_eq (s w : R) :
  s + 24 = w -> demo_v s = V3 (Fin 0) (Fin w) (Fin 0).
Proof. intros <-. unfold demo_v. apply demo_v_h. Qed.

Lemma demoOrbit_elements (s : R) :
  Orbit.node (demoOrbit s 26000) = Some (Kepler.node (demo_r s) (demo_v s))
  /\ Orbit.peri (demoOrbit s 26000)
     = Some (Kepler.peri (demoEnv s) (demo_r s) (demo_v s))
  /\ Orbit.pi (demoOrbit s 26000)
     = Some (Kepler.pi (demoEnv s) (demo_r s) (demo_v s))
  /\ Orbit.mean_anomaly (demoOrbit s 26000)
     = Some (Kepler.mean_anomaly (demoEnv s) (demo_r s) (demo_v s))
  /\ Orbit.last_perihelion (demoOrbit s 26000)
     = Kepler.last_perihelion (demoEnv s) (demo_r s) (demo_v s)
                              (Rotation.jd_dyn (demoEnv s) demo_jd).
Proof.
  destruct (calcOrbit_elements (demoEnv s) demo_radiant (Fin 26000)
              (Fin 25000) demo_eci demo_jd false true false
              (demo_escapes_fast s))
    as (_ & _ & _ & _ & Hn & Hp & Hpi & _ & Hm & Hl).
  exact (conj Hn (conj Hp (conj Hpi (conj Hm Hl)))).
Qed.

(** ** The claims that the code does not satisfy as they are stated *)


(** C5 as stated fails on a hyperbolic orbit: with a heliocentric velocity
    of 64 km/s at 0.866 AU the eccentricity is 3 and the stored mean anomaly
    is NaN. *)
Lemma stored_angles_counterexample :
  demo_escapes 40 26000 = true
  /\ Orbit.e (demoOrbit 40 26000) = Some (Fin 3)
  /\ Orbit.mean_anomaly (demoOrbit 40 26000) = Some NaN.
Proof.
  split; [apply demo_escapes_fast |].
  destruct (calcOrbit_elements (demoEnv 40) demo_radiant (Fin 26000)
              (Fin 25000) demo_eci demo_jd false true false
              (demo_escapes_fast 40))
    as (_ & He & _ & _ & _ & _ & _ & _ & Hm & _).
  fold (demoOrbit 40 26000) in He, Hm. fold (demo_r 40) (demo_v 40) in He, Hm.
  rewrite He, Hm, demo_r_eq, (demo_v_eq 40 64) by lra.
  rewrite demo_hyperbolic, demo_hyperbolic_mean_anomaly. split; reflexivity.
Qed.

(** C10 as stated fails on a circular orbit: with a heliocentric velocity
    of 32 km/s at 0.866 AU the eccentricity vector is zero, the argument of
    perihelion is NaN and so is the stored longitude of perihelion. *)
Lemma longitude_of_perihelion_counterexample :
  demo_escapes 8 26000 = true
  /\ Orbit.peri (demoOrbit 8 26000) = Some NaN
  /\ Orbit.pi (demoOrbit 8 26000) = Some NaN.
Proof.
  split; [apply demo_escapes_fast |].
  destruct (demoOrbit_elements 8) as (_ & Hp & Hpi & _).
  rewrite Hp, Hpi.
  assert (H : Kepler.peri (demoEnv 8) (demo_r 8) (demo_v 8) = NaN).
  { rewrite demo_r_eq, (demo_v_eq 8 32) by lra. apply demo_circular_peri. }
  rewrite (pi_nan_of_peri _ _ _ H), H. split; reflexivity.
Qed.

(** ** Witnesses on the concrete orbits *)

Lemma perihelion_and_aphelion_distance_witness :
  exists a e : npfloat,
    Orbit.a (demoOrbit 6 26000) = Some a
    /\ Orbit.e (demoOrbit 6 26000) = Some e
    /\ e = vectMag (Kepler.e_vect (demoEnv 6) (demo_r 6) (demo_v 6))
    /\ (feq e (Fin 1) = false ->
        Orbit.q (demoOrbit 6 26000) = Some (fmul a (fsub (Fin 1) e)))
    /\ (feq e (Fin 1) = true ->
        Orbit.q (demoOrbit 6 26000)
        = Some (fdiv (fadd (vectMag (demo_r 6))
                           (dot (Kepler.e_vect (demoEnv 6) (demo_r 6)
                                               (demo_v 6))
                                (demo_r 6)))
                     (fadd (Fin 1)
                           (vectMag (Kepler.e_vect (demoEnv 6) (demo_r 6)
                                                   (demo_v 6))))))
    /\ Orbit.Q (demoOrbit 6 26000) = Some (fmul a (fadd (Fin 1) e)).
Proof.
  unfold demoOrbit, demo_r, demo_v.
  exact (perihelion_and_aphelion_distance (demoEnv 6) demo_radiant
           (Fin 26000) (Fin 25000) demo_eci demo_jd false true false
           (demo_escapes_fast 6)).
Defined.

Lemma node_and_argument_of_perihelion_witness :
  let n_vect := Kepler.n_vect (demo_r 6) (demo_v 6) in
  let e_vect := Kepler.e_vect (demoEnv 6) (demo_r 6) (demo_v 6) in
  n_vect = cross (V3 (Fin 0) (Fin 0) (Fin 1)) (cross (demo_r 6) (demo_v 6))
  /\ (feq (vectMag n_vect) (Fin 0) = true ->
      Orbit.node (demoOrbit 6 26000) = Some (Fin 0)
      /\ Orbit.peri (demoOrbit 6 26000)
         = Some (fmod (farccos (fdiv (vx e_vect) (vectMag e_vect))) two_pi))
  /\ (feq (vectMag n_vect) (Fin 0) = false ->
      Orbit.node (demoOrbit 6 26000)
      = Some (fmod (farctan2 (vy n_vect) (vx n_vect)) two_pi)
      /\ let peri :=
           farccos (fdiv (dot n_vect e_vect)
                         (fmul (vectMag n_vect) (vectMag e_vect))) in
         Orbit.peri (demoOrbit 6 26000)
         = Some (fmod (if flt (vz e_vect) (Fin 0) then fsub two_pi peri
                       else peri) two_pi)).
Proof.
  unfold demoOrbit, demo_r, demo_v.
  exact (node_and_argument_of_perihelion (demoEnv 6) demo_radiant
           (Fin 26000) (Fin 25000) demo_eci demo_jd false true false
           (demo_escapes_fast 6)).
Defined.

Lemma stored_angles_normalised_or_nan_witness :
  exists node peri true_anomaly mean_anomaly : npfloat,
    Orbit.node (demoOrbit 6 26000) = Some node
    /\ Orbit.peri (demoOrbit 6 26000) = Some peri
    /\ Orbit.true_anomaly (demoOrbit 6 26000) = Some true_anomaly
    /\ Orbit.mean_anomaly (demoOrbit 6 26000) = Some mean_anomaly
    /\ (node = NaN \/ within_turn node)
    /\ (peri = NaN \/ normalised peri)
    /\ (true_anomaly = NaN \/ normalised true_anomaly)
    /\ (mean_anomaly = NaN \/ within_turn mean_anomaly)
    /\ (forall e : npfloat,
          Orbit.e (demoOrbit 6 26000) = Some e -> fgt e (Fin 1) = true ->
          mean_anomaly = NaN).
Proof.
  unfold demoOrbit.
  exact (stored_angles_normalised_or_nan (demoEnv 6) demo_radiant
           (Fin 26000) (Fin 25000) demo_eci demo_jd false true false
           (demo_escapes_fast 6)).
Defined.

Lemma dynamical_time_unset_when_infeasible_witness :
  Orbit.jd_dyn (demoOrbit 8 5000) = None
  /\ Orbit.lst_ref (demoOrbit 8 5000) = None.
Proof.
  unfold demoOrbit.
  exact (dynamical_time_unset_when_infeasible (demoEnv 8) demo_radiant
           (Fin 5000) (Fin 25000) demo_eci demo_jd false true false
           (demo_escapes_slow 8)).
Defined.

Lemma longitude_of_perihelion_witness :
  exists node peri pi : npfloat,
    Orbit.node (demoOrbit 6 26000) = Some node
    /\ Orbit.peri (demoOrbit 6 26000) = Some peri
    /\ Orbit.pi (demoOrbit 6 26000) = Some pi
    /\ pi = fmod (fadd node peri) two_pi
    /\ (pi = NaN \/ normalised pi)
    /\ (fadd node peri = NaN -> pi = NaN).
Proof.
  unfold demoOrbit.
  exact (longitude_of_perihelion (demoEnv 6) demo_radiant
           (Fin 26000) (Fin 25000) demo_eci demo_jd false true false
           (demo_escapes_fast 6)).
Defined.

(** ** The report *)

Section ReportProperties.
Variable E : Env.
Variable format_float : string -> npfloat -> string.
Variable format_int : string -> Z -> string.
Variable format_str : string -> string -> string.
Variable str_datetime : datetime -> string.
Variable uncertainties : option Uncertainties.
Variable v_init_ht : option npfloat.

Lemma uncer_without_object (str_format std_name : string) (multi : npfloat)
    (deg : bool) :
  Report._uncer format_float None str_format std_name multi deg = ""%string.
Proof. reflexivity. Qed.

Lemma uncer_without_attribute (u : Uncertainties)
    (str_format std_name : string) (multi : npfloat) (deg : bool) :
  getattr u std_name = None ->
  Report._uncer format_float (Some u) str_format std_name multi deg
  = ""%string.
Proof.
  intros H. unfold Report._uncer, hasattr. rewrite H. reflexivity.
Qed.

Lemma last_perihelion_line_total (self : Orbit.t) :
  exists s : string,
    Report.last_perihelion_line E format_float str_datetime uncertainties self
    = Some s.
Proof.
  unfold Report.last_perihelion_line.
  destruct (Orbit.last_perihelion self); eexists; reflexivity.
Qed.

End ReportProperties.

(** C8: the suffix of a line is empty when no uncertainties object is given
    and when the object given lacks the attribute of that line, and the
    report of an orbit that [calcOrbit] returned is rendered without an
    exception, whatever the uncertainties object carries. *)
Theorem report_omits_missing_uncertainties
    (E : Env) (format_float : string -> npfloat -> string)
    (format_int : string -> Z -> string)
    (format_str : string -> string -> string)
    (str_datetime : datetime -> string) :
  (forall str_format std_name multi deg,
      Report._uncer format_float None str_format std_name multi deg
      = ""%string)
  /\ (forall u str_format std_name multi deg,
         getattr u std_name = None ->
         Report._uncer format_float (Some u) str_format std_name multi deg
         = ""%string)
  /\ (forall uncertainties v_init_ht radiant_eci v_init v_avg eci_ref jd_ref
             stations_fixed reference_init rotation_correction,
         exists s : string,
           Report.__repr__ E format_float format_int format_str str_datetime
             uncertainties v_init_ht
             (calcOrbit E radiant_eci v_init v_avg eci_ref jd_ref
                        stations_fixed reference_init rotation_correction)
           = Some s).
Proof.
  split; [intros; apply uncer_without_object |].
  split; [intros; now apply uncer_without_attribute |].
  intros unc ht radiant_eci v_init v_avg eci_ref jd_ref sf ri rc.
  unfold calcOrbit. cbv zeta.
  destruct (Rotation.escapes E radiant_eci v_init v_avg eci_ref jd_ref sf ri rc).
  - unfold Report.__repr__, Report.orbit_lines, Report.last_perihelion_line.
    cbn [Orbit.last_perihelion Orbit.ra_g Report.is_set].
    destruct (Kepler.last_perihelion E _ _ _); eexists; reflexivity.
  - eexists; reflexivity.
Qed.

(** ** The time since the perihelion is never infinite *)

Lemma fadd_nan_r (a : npfloat) : fadd a NaN = NaN.
Proof. destruct a; reflexivity. Qed.

Lemma fmul_nan_r (a : npfloat) : fmul a NaN = NaN.
Proof. destruct a; reflexivity. Qed.

Lemma fsub_nan_r (a : npfloat) : fsub a NaN = NaN.
Proof. destruct a; reflexivity. Qed.

Lemma fdiv_nan_r (a : npfloat) : fdiv a NaN = NaN.
Proof. destruct a; reflexivity. Qed.

Lemma vectMag_fin (x y z : R) :
  vectMag (V3 (Fin x) (Fin y) (Fin z)) = Fin (sqrt (x * x + y * y + z * z)).
Proof.
  cbv [vectMag dot vx vy vz fmul fadd fsqrt].
  rewrite Rltb_false by nra. reflexivity.
Qed.

(** A vector of which the length is infinite has an infinite component, and
    then its unit vector has a NaN component. *)
Lemma vectMag_cases (u : vec) :
  vectMag u = NaN
  \/ (vectMag u = Inf false /\ has_nan (vectNorm u))
  \/ (exists x y z : R, u = V3 (Fin x) (Fin y) (Fin z)).
Proof.
  destruct u as [[| [] | x] [| [] | y] [| [] | z]];
    try (left; reflexivity);
    try (right; left; split; [reflexivity | unfold has_nan; cbn; tauto]).
  right; right. exists x, y, z. reflexivity.
Qed.

Lemma has_nan_length (u : vec) : has_nan u -> vectMag u = NaN.
Proof.
  destruct u as [x y z]. unfold has_nan, vectMag, dot. cbn [vx vy vz].
  intros [-> | [-> | ->]]; cbn [fmul]; rewrite ?fadd_nan_r; reflexivity.
Qed.

Lemma has_nan_vsub_r (u w : vec) : has_nan w -> has_nan (vsub u w).
Proof.
  destruct u as [x y z], w as [a b c]. unfold has_nan. cbn [vsub vx vy vz].
  intros [-> | [-> | ->]]; rewrite fsub_nan_r; tauto.
Qed.

Lemma Ratan2_zero (y x : R) : y = 0 -> 0 <= x -> Ratan2 y x = 0.
Proof.
  intros -> Hx. unfold Ratan2.
  destruct (Rlt_dec 0 x) as [Hp | Hn].
  - rewrite (Rltb_true _ _ Hp). replace (0 / x) with 0 by (unfold Rdiv; ring).
    apply atan_0.
  - rewrite (Rltb_false _ _ Hn), (Rltb_false x 0) by lra.
    rewrite Rltb_false by lra. reflexivity.
Qed.

Lemma parabola_identity (x y z a b c rho sg mu : R) :
  rho <> 0 -> mu <> 0 ->
  rho * rho = x * x + y * y + z * z ->
  sg * sg = a * a + b * b + c * c ->
  sg * sg / 2 = mu / rho ->
  let hx := y * c - z * b in
  let hy := z * a - x * c in
  let hz := x * b - y * a in
  let ex := (b * hz - c * hy) / mu - x / rho in
  let ey := (c * hx - a * hz) / mu - y / rho in
  let ez := (a * hy - b * hx) / mu - z / rho in
  ex * ex + ey * ey + ez * ez = 1.
Proof.
  intros Hr Hm H1 H2 H3. cbv zeta.
  assert (HS : a * a + b * b + c * c = 2 * mu / rho).
  { rewrite <- H2. apply (f_equal (fun t => 2 * t)) in H3.
    replace (2 * (sg * sg / 2)) with (sg * sg) in H3 by field.
    rewrite H3. field. assumption. }
  set (hx := y * c - z * b). set (hy := z * a - x * c).
  set (hz := x * b - y * a).
  set (wx := b * hz - c * hy). set (wy := c * hx - a * hz).
  set (wz := a * hy - b * hx).
  set (HH := hx * hx + hy * hy + hz * hz).
  assert (I1 : wx * x + wy * y + wz * z = HH)
    by (unfold wx, wy, wz, HH, hx, hy, hz; ring).
  assert (I2 : wx * wx + wy * wy + wz * wz = (a * a + b * b + c * c) * HH)
    by (unfold wx, wy, wz, HH, hx, hy, hz; ring).
  transitivity ((wx * wx + wy * wy + wz * wz) / (mu * mu)
                - 2 * (wx * x + wy * y + wz * z) / (mu * rho)
                + (x * x + y * y + z * z) / (rho * rho)).
  { field. split; assumption. }
  rewrite I2, I1, HS, <- H1. field. split; assumption.
Qed.

Section LastPerihelion.
Variable E : Env.
Variables (mu au : R).
Hypothesis Hmu : SUN_MU E = Fin mu.
Hypothesis Hmu_pos : 0 < mu.
Hypothesis Hau : AU E = Fin au.
Hypothesis Hau_nz : au <> 0.
Variables (r v : vec).

Lemma eccentricity_nan_mean_anomaly :
  Kepler.eccentricity E r v = NaN -> Kepler.mean_anomaly E r v = NaN.
Proof.
  intros H. unfold Kepler.mean_anomaly, Kepler.eccentric_anomaly.
  rewrite H. reflexivity.
Qed.

Lemma infinite_position_mean_anomaly :
  has_nan (vectNorm r) -> Kepler.mean_anomaly E r v = NaN.
Proof.
  intros H. apply eccentricity_nan_mean_anomaly.
  unfold Kepler.eccentricity, Kepler.e_vect.
  apply has_nan_length, has_nan_vsub_r, H.
Qed.

Lemma parabolic_eccentricity (x y z a b c : R) :
  r = V3 (Fin x) (Fin y) (Fin z) -> v = V3 (Fin a) (Fin b) (Fin c) ->
  sqrt (x * x + y * y + z * z) <> 0 ->
  sqrt (a * a + b * b + c * c) * sqrt (a * a + b * b + c * c) / 2
  = mu / sqrt (x * x + y * y + z * z) ->
  Kepler.eccentricity E r v = Fin 1.
Proof.
  intros -> -> Hrho Heps.
  unfold Kepler.eccentricity, Kepler.e_vect, vectNorm.
  rewrite vectMag_fin, Hmu.
  cbv [Kepler.h_vect cross vsub vdivs vx vy vz fsub fadd fneg fmul fdiv].
  rewrite !Reqb_false by (assumption || lra).
  rewrite vectMag_fin. f_equal.
  transitivity (sqrt 1); [f_equal | apply sqrt_1].
  assert (Hm : mu <> 0) by lra.
  assert (Hx : 0 <= x * x + y * y + z * z) by nra.
  assert (Ha : 0 <= a * a + b * b + c * c) by nra.
  pose proof (parabola_identity x y z a b c _ _ mu Hrho Hm
                (sqrt_sqrt _ Hx) (sqrt_sqrt _ Ha) Heps) as P.
  cbv zeta in P. rewrite <- P. field. split; assumption.
Qed.

Lemma parabolic_mean_anomaly :
  Kepler.eccentricity E r v = Fin 1 ->
  Kepler.mean_anomaly E r v = NaN \/ Kepler.mean_anomaly E r v = Fin 0.
Proof.
  intros H. unfold Kepler.mean_anomaly, Kepler.eccentric_anomaly. rewrite H.
  assert (Hs : fsqrt (fsub (Fin 1) (fsquare (Fin 1))) = Fin 0).
  { cbv [fsquare fmul fsub fneg fadd fsqrt]. rewrite Rltb_false by lra.
    f_equal. rewrite <- sqrt_0. f_equal. lra. }
  rewrite Hs.
  destruct (true_anomaly_range E r v) as [Hn | (t & Ht & _)].
  - left. rewrite Hn. reflexivity.
  - right. rewrite Ht. cbv [fsin fcos fmul fadd farctan2].
    rewrite Ratan2_zero; [| ring | pose proof (COS_bound t); lra].
    cbv [fsin fmul fsub fneg fadd]. rewrite sin_0.
    replace (0 + - (1 * 0)) with 0 by ring. apply fmod_zero_two_pi.
Qed.

Lemma a_infinite_epsilon (w : bool) :
  Kepler.a E r v = Inf w -> Kepler.epsilon E r v = Fin 0.
Proof.
  unfold Kepler.a. rewrite Hmu, Hau.
  destruct (Kepler.epsilon E r v) as [| t | e0]; cbv [fneg fmul fdiv].
  - discriminate.
  - rewrite (Reqb_false 2 0) by lra. rewrite (Reqb_false au 0) by assumption.
    discriminate.
  - destruct (Req_dec_T (2 * e0 * au) 0) as [Hz | Hnz].
    + intros _. f_equal.
      destruct (Rmult_integral _ _ Hz) as [H2 | H2]; [lra | contradiction].
    + rewrite (Reqb_false _ _ Hnz). discriminate.
Qed.

Lemma epsilon_zero_mean_anomaly :
  Kepler.epsilon E r v = Fin 0 ->
  Kepler.mean_anomaly E r v = NaN \/ Kepler.mean_anomaly E r v = Fin 0.
Proof.
  unfold Kepler.epsilon. rewrite Hmu. intros He.
  destruct (vectMag_cases r) as [Hr | [[Hr Hn] | (x & y & z & Hr)]].
  - rewrite Hr in He. cbv [fdiv] in He. rewrite fsub_nan_r in He.
    discriminate.
  - left. apply infinite_position_mean_anomaly, Hn.
  - destruct (vectMag_cases v) as [Hv | [[Hv _] | (a & b & c & Hv)]].
    + rewrite Hv in He. discriminate.
    + rewrite Hv, Hr, vectMag_fin in He. cbv [fsquare fmul fdiv xorb] in He.
      rewrite (Rltb_false 2 0) in He by lra.
      destruct (Reqb (sqrt (x * x + y * y + z * z)) 0);
        [rewrite (Reqb_false mu 0), (Rltb_false mu 0) in He by lra |];
        discriminate.
    + rewrite Hv, Hr, !vectMag_fin in He.
      cbv [fsquare fmul fdiv fsub fneg fadd] in He.
      rewrite (Reqb_false 2 0) in He by lra.
      destruct (Req_dec_T (sqrt (x * x + y * y + z * z)) 0) as [Hz | Hnz].
      * rewrite (Reqb_true _ _ Hz), (Reqb_false mu 0) in He by lra.
        discriminate.
      * rewrite (Reqb_false _ _ Hnz) in He.
        apply parabolic_mean_anomaly.
        apply (parabolic_eccentricity x y z a b c Hr Hv Hnz).
        injection He as He. lra.
Qed.

(** With exact arithmetic the time since the perihelion is a number or NaN:
    the semi-major axis is infinite only on a parabola, where the mean anomaly
    is 0 or NaN and its product with the infinite power is NaN.  An infinite
    time is an effect of the rounding alone. *)
Lemma dt_perihelion_not_infinite (s : bool) :
  Kepler.dt_perihelion E r v <> Inf s.
Proof.
  unfold Kepler.dt_perihelion. intros H.
  destruct (Kepler.a E r v) as [| w | x] eqn:Ha.
  - cbv [fpow15] in H. rewrite fmul_nan_r in H. discriminate.
  - destruct (epsilon_zero_mean_anomaly (a_infinite_epsilon w Ha))
      as [Hm | Hm]; rewrite Hm in H.
    + discriminate.
    + cbv [fpow15 fmul] in H. rewrite Reqb_true in H by reflexivity.
      discriminate.
  - cbv [fpow15] in H. destruct (Rltb x 0).
    + rewrite fmul_nan_r in H. discriminate.
    + destruct (mean_anomaly_range E r v) as [Hm | (m & Hm & _)];
        rewrite Hm in H.
      * discriminate.
      * cbv [fmul fdiv] in H. rewrite Reqb_false in H by lra. discriminate.
Qed.

End LastPerihelion.

(** In float64 itself the specific orbital energy of a bound orbit that is
    nearly parabolic rounds to zero: the semi-major axis of line 685 is then
    minus infinity while the eccentricity is below 1, so that the mean
    anomaly is a number and the time since the perihelion is infinite. *)
Lemma semi_major_axis_infinite_in_float64 :
  Binary64.epsilon Binary64.sun_mu_km Binary64.near_parabolic_pos
                   Binary64.near_parabolic_vel
  = 0%float
  /\ Binary64.a Binary64.sun_mu_km Binary64.au_km
                Binary64.near_parabolic_pos Binary64.near_parabolic_vel
     = neg_infinity
  /\ (Binary64.eccentricity Binary64.sun_mu_km Binary64.near_parabolic_pos
                            Binary64.near_parabolic_vel
      <? 1)%float = true.
Proof. repeat split; reflexivity. Qed.




(** * Further properties of calcOrbit *)

Lemma Rmod_small (x m : R) : 0 <= x < m -> Rmod x m = x.
Proof.
  intros [H0 Hm]. unfold Rmod.
  replace (Int_part (x / m)) with 0%Z; [simpl; ring |].
  apply Int_part_spec. simpl.
  assert (Hq : 0 <= x / m < 1).
  { split.
    - apply Rmult_le_pos; [assumption | left; apply Rinv_0_lt_compat; lra].
    - apply (Rmult_lt_reg_r m); [lra |]. field_simplify; lra. }
  lra.
Qed.

Lemma Rmod_self (m : R) : 0 < m -> Rmod m m = 0.
Proof.
  intros Hm. unfold Rmod.
  replace (m / m) with 1 by (field; lra).
  replace (Int_part 1) with 1%Z; [simpl; ring |].
  apply Int_part_spec. simpl. lra.
Qed.

Lemma Ratan2_bound (y x : R) : - PI <= Ratan2 y x <= PI.
Proof.
  pose proof PI_RGT_0 as Hpi. pose proof (atan_bound (y / x)) as Ha.
  unfold Ratan2.
  destruct (Rltb 0 x); [lra |].
  destruct (Rltb x 0) eqn:Hx.
  - apply Rltb_lt in Hx.
    destruct (Rltb y 0) eqn:Hy.
    + apply Rltb_lt in Hy.
      assert (0 < y / x).
      { replace (y / x) with ((- y) * / (- x)) by (field; lra).
        apply Rmult_lt_0_compat; [lra | apply Rinv_0_lt_compat; lra]. }
      pose proof (atan_increasing 0 (y / x) H) as Hi. rewrite atan_0 in Hi. lra.
    + apply Rltb_nlt in Hy.
      assert (y / x <= 0).
      { replace (y / x) with (- (y * / (- x))) by (field; lra).
        assert (0 <= y * / (- x)); [| lra].
        apply Rmult_le_pos; [lra | left; apply Rinv_0_lt_compat; lra]. }
      assert (atan (y / x) <= 0).
      { destruct H as [H | H].
        - pose proof (atan_increasing _ _ H) as Hi. rewrite atan_0 in Hi. lra.
        - rewrite H, atan_0. lra. }
      lra.
  - destruct (Rltb 0 y); [lra |]. destruct (Rltb y 0); lra.
Qed.

Section CalcOrbitMore.
Variable E : Env.
Variables (radiant_eci : vec) (v_init v_avg : npfloat) (eci_ref : vec)
          (jd_ref : npfloat).
Variables (stations_fixed reference_init rotation_correction : bool).

Local Abbreviation orbit :=
  (calcOrbit E radiant_eci v_init v_avg eci_ref jd_ref
             stations_fixed reference_init rotation_correction).
Local Abbreviation escapes :=
  (Rotation.escapes E radiant_eci v_init v_avg eci_ref jd_ref
                    stations_fixed reference_init rotation_correction).
Local Abbreviation v_init_corr :=
  (Rotation.v_init_corr E radiant_eci v_init v_avg eci_ref jd_ref
                        stations_fixed reference_init rotation_correction).
Local Abbreviation v_ref_corr :=
  (Rotation.v_ref_corr E radiant_eci v_init v_avg eci_ref jd_ref
                       stations_fixed reference_init).
Local Abbreviation r_h :=
  (calcOrbit_meteor_pos E eci_ref jd_ref).
Local Abbreviation v_h :=
  (calcOrbit_v_h E radiant_eci v_init v_avg eci_ref jd_ref
                 stations_fixed reference_init rotation_correction).

(** X1: whatever the outcome of the escape-velocity test, the apparent
    radiant, the ground-fixed radiant and the reference geometry are stored;
    the velocities and the reference time are the arguments themselves. *)
Theorem apparent_and_reference_fields_always_set :
  Orbit.v_init orbit = Some v_init
  /\ Orbit.v_avg orbit = Some v_avg
  /\ Orbit.jd_ref orbit = Some jd_ref
  /\ Orbit.ra orbit = Some (fst (eci2RaDec E radiant_eci))
  /\ Orbit.dec orbit = Some (snd (eci2RaDec E radiant_eci))
  /\ Orbit.lat_geocentric orbit
     = Some (farctan2 (vz eci_ref)
               (fsqrt (fadd (fsquare (vx eci_ref)) (fsquare (vy eci_ref)))))
  /\ Orbit.azimuth_apparent orbit <> None
  /\ Orbit.elevation_apparent orbit <> None
  /\ Orbit.ra_norot orbit <> None /\ Orbit.dec_norot orbit <> None
  /\ Orbit.azimuth_apparent_norot orbit <> None
  /\ Orbit.elevation_apparent_norot orbit <> None
  /\ Orbit.v_avg_norot orbit <> None /\ Orbit.v_init_norot orbit <> None
  /\ Orbit.lon_ref orbit <> None /\ Orbit.lat_ref orbit <> None
  /\ Orbit.ht_ref orbit <> None.
Proof.
  unfold calcOrbit. cbv zeta.
  destruct escapes; cbn [Orbit.v_init Orbit.v_avg Orbit.jd_ref Orbit.ra
    Orbit.dec Orbit.lat_geocentric Orbit.azimuth_apparent
    Orbit.elevation_apparent Orbit.ra_norot Orbit.dec_norot
    Orbit.azimuth_apparent_norot Orbit.elevation_apparent_norot
    Orbit.v_avg_norot Orbit.v_init_norot Orbit.lon_ref Orbit.lat_ref
    Orbit.ht_ref];
    repeat (split; [first [reflexivity | discriminate] |]); discriminate.
Qed.

Lemma calcOrbit_zenith_fields :
  escapes = true ->
  Orbit.v_g orbit = Some (Zenith.v_g eci_ref v_init_corr)
  /\ Orbit.zc orbit
     = Some (Zenith.zc E jd_ref (Rotation.lat_geocentric eci_ref)
               (Rotation.lon_ref E eci_ref jd_ref) v_ref_corr)
  /\ Orbit.zg orbit
     = Some (Zenith.zg E eci_ref jd_ref (Rotation.lat_geocentric eci_ref)
               (Rotation.lon_ref E eci_ref jd_ref) v_ref_corr v_init_corr)
  /\ Orbit.i orbit = Some (Kepler.incl r_h v_h)
  /\ Orbit.T orbit = Some (Kepler.T E r_h v_h).
Proof.
  intros H. unfold calcOrbit. cbv zeta. rewrite H.
  split; [reflexivity |]. split; [reflexivity |]. split; [reflexivity |].
  split; reflexivity.
Qed.

Lemma v_g_after_gate (w e : npfloat) :
  fgt (fsquare w) e = true ->
  fgt (fsqrt (fsub (fsquare w) e)) (Fin 0) = true
  /\ (forall x y : R, w = Fin x -> e = Fin y ->
      exists g : R,
        fsqrt (fsub (fsquare w) e) = Fin g /\ 0 < g /\ g * g = x * x - y).
Proof.
  intros H. split.
  - destruct (fsquare w) as [| s | x]; destruct e as [| t | y];
      cbn in H; try discriminate.
    + destruct s, t; try discriminate. reflexivity.
    + destruct s; try discriminate. reflexivity.
    + destruct t; try discriminate. reflexivity.
    + apply Rltb_lt in H. cbv [fsub fneg fadd fsqrt].
      rewrite Rltb_false by lra. cbv [fgt]. apply Rltb_true.
      apply sqrt_lt_R0. lra.
  - intros x y -> ->. cbv [fsquare fmul fgt] in H. apply Rltb_lt in H.
    exists (sqrt (x * x + - y)). cbv [fsquare fmul fsub fneg fadd fsqrt].
    rewrite Rltb_false by lra. split; [reflexivity |].
    split; [apply sqrt_lt_R0; lra |].
    rewrite sqrt_sqrt by lra. ring.
Qed.

(** X4: on a computed orbit the geocentric velocity is a positive number,
    never NaN: the test of line 562 keeps the square root of line 568 away
    from negative arguments.  For a finite corrected velocity [w] and a
    finite squared escape velocity [y] it is the positive root of
    [w*w - y]. *)
Theorem geocentric_velocity_positive :
  escapes = true ->
  exists v_g : npfloat,
    Orbit.v_g orbit = Some v_g
    /\ fgt v_g (Fin 0) = true
    /\ (forall w y : R,
           v_init_corr = Fin w -> Rotation.v_esc_sq eci_ref = Fin y ->
           exists g : R, v_g = Fin g /\ 0 < g /\ g * g = w * w - y).
Proof.
  intros H. destruct (calcOrbit_zenith_fields H) as (Hg & _).
  exists (Zenith.v_g eci_ref v_init_corr). split; [exact Hg |].
  unfold Zenith.v_g. apply v_g_after_gate. exact H.
Qed.

Lemma farctan2_range (y x : npfloat) :
  farctan2 y x = NaN
  \/ exists d : R, farctan2 y x = Fin d /\ - PI <= d <= PI.
Proof.
  pose proof PI_RGT_0 as Hpi.
  destruct y as [| [] | b]; destruct x as [| [] | a]; cbn; auto; right;
    try (destruct (Rltb b 0)); eexists; (split; [reflexivity |]);
    try lra; try apply Ratan2_bound.
Qed.

Lemma farccos_range (x : npfloat) :
  farccos x = NaN \/ exists t : R, farccos x = Fin t /\ 0 <= t <= PI.
Proof.
  destruct x as [| s | r]; cbn; auto.
  destruct (Rltb r (-1) || Rltb 1 r); auto.
  right. exists (acos r). split; [reflexivity | apply acos_bound].
Qed.

(** X5: on a computed orbit the zenith angle [zc] and the inclination [i]
    are NaN or numbers of [0, pi]; the zenith distance of the geocentric
    radiant [zg] is never below [zc] and exceeds it by [2 pi] at most. *)
Theorem zenith_angles_and_inclination :
  escapes = true ->
  exists zc zg i : npfloat,
    Orbit.zc orbit = Some zc /\ Orbit.zg orbit = Some zg
    /\ Orbit.i orbit = Some i
    /\ (zc = NaN \/ exists t : R, zc = Fin t /\ 0 <= t <= PI)
    /\ (i = NaN \/ exists t : R, i = Fin t /\ 0 <= t <= PI)
    /\ (zc = NaN -> zg = NaN)
    /\ (forall t u : R, zc = Fin t -> zg = Fin u -> t <= u <= t + 2 * PI).
Proof.
  intros H. destruct (calcOrbit_zenith_fields H) as (_ & Hc & Hg & Hi & _).
  eexists _, _, _. split; [exact Hc |]. split; [exact Hg |].
  split; [exact Hi |].
  split; [apply farccos_range |]. split; [apply farccos_range |].
  unfold Zenith.zg, Zenith.delta_zc.
  set (zc := Zenith.zc E jd_ref _ _ _).
  split.
  - intros ->. reflexivity.
  - intros t u Ht. rewrite Ht.
    match goal with
    | |- fadd _ (fabs (fmul _ (farctan2 ?y ?x))) = _ -> _ =>
        destruct (farctan2_range y x) as [Hd | (d & Hd & Hb)]; rewrite Hd
    end; cbn; [discriminate |].
    intros [= <-].
    pose proof (Rabs_pos (2 * d)).
    assert (Rabs (2 * d) <= 2 * PI) by (apply Rabs_le; lra).
    lra.
Qed.

Lemma fmod_two_pi_small (t : R) :
  0 <= t < 2 * PI -> fmod (Fin t) two_pi = Fin t.
Proof.
  intros Ht. rewrite two_pi_fin. cbn.
  rewrite Reqb_false by lra. now rewrite Rmod_small.
Qed.

Lemma fmod_two_pi_self : fmod (Fin (2 * PI)) two_pi = Fin 0.
Proof.
  pose proof two_pi_pos. rewrite two_pi_fin. cbn.
  rewrite Reqb_false by lra. now rewrite Rmod_self.
Qed.

(** X6: on a computed orbit the true anomaly tells the side of the
    perihelion: when the meteoroid approaches the Sun ([r.v < 0]) it is NaN,
    0 or a number of [pi, 2 pi); otherwise it is NaN or a number of
    [0, pi]. *)
Theorem true_anomaly_half_plane :
  escapes = true ->
  exists nu : npfloat,
    Orbit.true_anomaly orbit = Some nu
    /\ (nu = NaN
        \/ exists t : R,
             nu = Fin t
             /\ (if flt (dot r_h v_h) (Fin 0)
                 then t = 0 \/ PI <= t < 2 * PI
                 else 0 <= t <= PI)).
Proof.
  intros H.
  destruct (calcOrbit_elements E radiant_eci v_init v_avg eci_ref jd_ref
              stations_fixed reference_init rotation_correction H)
    as (_ & _ & _ & _ & _ & _ & _ & Ht & _).
  eexists. split; [exact Ht |].
  unfold Kepler.true_anomaly. pose proof PI_RGT_0 as Hpi.
  match goal with
  | |- context [farccos ?x] =>
      destruct (farccos_range x) as [Hn | (t & Hn & Hb)]; rewrite Hn
  end.
  - left. destruct (flt (dot r_h v_h) (Fin 0)); reflexivity.
  - right. destruct (flt (dot r_h v_h) (Fin 0)).
    + rewrite two_pi_fin. cbv [fsub fneg fadd].
      destruct (Req_dec_T t 0) as [-> | Hnz].
      * exists 0. split; [| left; reflexivity].
        replace (2 * PI + - 0) with (2 * PI) by ring.
        rewrite <- two_pi_fin at 2. apply fmod_two_pi_self.
      * exists (2 * PI + - t). split; [| right; lra].
        rewrite <- two_pi_fin. apply fmod_two_pi_small. lra.
    + exists t. split; [| exact Hb]. apply fmod_two_pi_small. lra.
Qed.


End CalcOrbitMore.

(** X2: when the stations are fixed the ground-fixed radiant that is
    reported is the apparent radiant itself, with the two velocities given. *)
Theorem fixed_stations_ground_radiant
    (E : Env) (radiant_eci : vec) (v_init v_avg : npfloat) (eci_ref : vec)
    (jd_ref : npfloat) (reference_init rotation_correction : bool) :
  let orbit :=
    calcOrbit E radiant_eci v_init v_avg eci_ref jd_ref
              true reference_init rotation_correction in
  Orbit.ra_norot orbit = Orbit.ra orbit
  /\ Orbit.dec_norot orbit = Orbit.dec orbit
  /\ Orbit.azimuth_apparent_norot orbit = Orbit.azimuth_apparent orbit
  /\ Orbit.elevation_apparent_norot orbit = Orbit.elevation_apparent orbit
  /\ Orbit.v_avg_norot orbit = Some v_avg
  /\ Orbit.v_init_norot orbit = Some v_init.
Proof.
  cbv zeta. unfold calcOrbit. cbv zeta.
  destruct (Rotation.escapes E radiant_eci v_init v_avg eci_ref jd_ref true
              reference_init rotation_correction);
    cbn [Orbit.ra_norot Orbit.ra Orbit.dec_norot Orbit.dec
         Orbit.azimuth_apparent_norot Orbit.azimuth_apparent
         Orbit.elevation_apparent_norot Orbit.elevation_apparent
         Orbit.v_avg_norot Orbit.v_init_norot];
    repeat (split; [reflexivity |]); reflexivity.
Qed.

(** * Further properties of the report *)

Lemma concat_lines_set (ls : list (option string)) :
  Report.concat_lines ls <> None <-> Forall (fun l => l <> None) ls.
Proof.
  induction ls as [| l ls IH]; cbn.
  - split; [constructor | discriminate].
  - rewrite Forall_cons_iff, <- IH.
    destruct l, (Report.concat_lines ls); split; intros H;
      try discriminate; try (split; discriminate); try tauto;
      destruct H; congruence.
Qed.

Section ReportMore.
Variable E : Env.
Variable format_float : string -> npfloat -> string.
Variable format_int : string -> Z -> string.
Variable format_str : string -> string -> string.
Variable str_datetime : datetime -> string.
Variable uncertainties : option Uncertainties.
Variable v_init_ht : option npfloat.

Local Abbreviation repr :=
  (Report.__repr__ E format_float format_int format_str str_datetime
                   uncertainties v_init_ht).

Lemma line_deg_set (pre spec : string) (x : option npfloat)
    (std_name post : string) :
  Report.line_deg format_float uncertainties pre spec x std_name post <> None
  <-> x <> None.
Proof. destruct x; cbn; split; congruence. Qed.

Lemma line_kms_set (pre spec : string) (x : option npfloat)
    (std_name post : string) :
  Report.line_kms format_float uncertainties pre spec x std_name post <> None
  <-> x <> None.
Proof. destruct x; cbn; split; congruence. Qed.

Lemma line_num_set (pre spec : string) (x : option npfloat)
    (std_name post : string) :
  Report.line_num format_float uncertainties pre spec x std_name post <> None
  <-> x <> None.
Proof. destruct x; cbn; split; congruence. Qed.

Lemma some_set {A : Type} (x : A) : Some x <> None <-> True.
Proof. split; [trivial | discriminate]. Qed.

Lemma last_perihelion_line_set (self : Orbit.t) :
  Report.last_perihelion_line E format_float str_datetime uncertainties self
  <> None <-> True.
Proof.
  unfold Report.last_perihelion_line.
  destruct (Orbit.last_perihelion self); split; trivial; discriminate.
Qed.

Lemma shower_lines_set (self : Orbit.t) :
  Report.shower_lines E format_int format_str self <> None
  <-> Orbit.la_sun self <> None /\ Orbit.L_g self <> None
      /\ Orbit.B_g self <> None /\ Orbit.v_g self <> None.
Proof.
  unfold Report.shower_lines.
  destruct (Orbit.la_sun self), (Orbit.L_g self), (Orbit.B_g self),
    (Orbit.v_g self); split; intros H; try discriminate;
    try (repeat split; discriminate);
    try (destruct H as (H1 & H2 & H3 & H4); congruence);
    try (exfalso; apply H; reflexivity).
Qed.

Lemma match_set {A : Type} (x : option A) (f : A -> option string) :
  (forall v, f v <> None) ->
  match x with Some v => f v | None => None end <> None <-> x <> None.
Proof.
  intros Hf. destruct x; split; intros H; try congruence; try apply Hf.
Qed.

(** X8: the report of an orbit is rendered without an exception exactly
    when the attributes of the two radiant sections are set and, if [ra_g]
    is set, so are the attributes that the header and the orbit section
    read.  In particular the report of a fresh [Orbit()] raises. *)
Theorem report_rendered_iff_fields_set (self : Orbit.t) :
  (repr self <> None <-> renderable self)
  /\ repr Orbit.init = None.
Proof.
  split; [| reflexivity].
  unfold Report.__repr__, renderable, radiant_fields_set, orbit_fields_set.
  rewrite concat_lines_set.
  unfold Report.header, Report.apparent_eci, Report.apparent_ground,
    Report.orbit_lines.
  destruct (Orbit.ra_g self) as [rg |] eqn:Hrg; cbn [Report.is_set];
    (split; [intros H | intros (H & H')]).
  - repeat match goal with
           | H : Forall _ (_ :: _) |- _ =>
               apply Forall_cons_iff in H; destruct H
           | H : Report.concat_lines _ <> None |- _ =>
               apply concat_lines_set in H
           | H : Report.line_deg _ _ _ _ _ _ _ <> None |- _ =>
               apply line_deg_set in H
           | H : Report.line_kms _ _ _ _ _ _ _ <> None |- _ =>
               apply line_kms_set in H
           | H : Report.line_num _ _ _ _ _ _ _ <> None |- _ =>
               apply line_num_set in H
           | H : match ?x with Some _ => _ | None => None end <> None |- _ =>
               apply match_set in H; [| discriminate]
           end.
    repeat split; assumption.
  - specialize (H' ltac:(discriminate)).
    repeat match goal with H : _ /\ _ |- _ => destruct H end.
    repeat first
      [ apply Forall_nil
      | apply Forall_cons
      | apply concat_lines_set
      | apply line_deg_set; assumption
      | apply line_kms_set; assumption
      | apply line_num_set; assumption
      | apply last_perihelion_line_set; exact I
      | apply shower_lines_set; repeat split; assumption
      | apply match_set; [discriminate | assumption]
      | discriminate ].
  - repeat match goal with
           | H : Forall _ (_ :: _) |- _ =>
               apply Forall_cons_iff in H; destruct H
           | H : Report.concat_lines _ <> None |- _ =>
               apply concat_lines_set in H
           | H : Report.line_deg _ _ _ _ _ _ _ <> None |- _ =>
               apply line_deg_set in H
           | H : Report.line_kms _ _ _ _ _ _ _ <> None |- _ =>
               apply line_kms_set in H
           end.
    split; [repeat split; assumption | intros Hc; now contradiction Hc].
  - repeat match goal with H : _ /\ _ |- _ => destruct H end.
    repeat first
      [ apply Forall_nil
      | apply Forall_cons
      | apply concat_lines_set
      | apply line_deg_set; assumption
      | apply line_kms_set; assumption
      | discriminate ].
Qed.

End ReportMore.

(** ** Witnesses of the further properties *)

Lemma geocentric_velocity_positive_witness :
  exists v_g : npfloat,
    Orbit.v_g (demoOrbit 6 26000) = Some v_g
    /\ fgt v_g (Fin 0) = true
    /\ (forall w y : R,
           Rotation.v_init_corr (demoEnv 6) demo_radiant (Fin 26000)
             (Fin 25000) demo_eci demo_jd false true false = Fin w ->
           Rotation.v_esc_sq demo_eci = Fin y ->
           exists g : R, v_g = Fin g /\ 0 < g /\ g * g = w * w - y).
Proof.
  unfold demoOrbit.
  exact (geocentric_velocity_positive (demoEnv 6) demo_radiant (Fin 26000)
           (Fin 25000) demo_eci demo_jd false true false
           (demo_escapes_fast 6)).
Defined.

Lemma zenith_angles_and_inclination_witness :
  exists zc zg i : npfloat,
    Orbit.zc (demoOrbit 6 26000) = Some zc
    /\ Orbit.zg (demoOrbit 6 26000) = Some zg
    /\ Orbit.i (demoOrbit 6 26000) = Some i
    /\ (zc = NaN \/ exists t : R, zc = Fin t /\ 0 <= t <= PI)
    /\ (i = NaN \/ exists t : R, i = Fin t /\ 0 <= t <= PI)
    /\ (zc = NaN -> zg = NaN)
    /\ (forall t u : R, zc = Fin t -> zg = Fin u -> t <= u <= t + 2 * PI).
Proof.
  unfold demoOrbit.
  exact (zenith_angles_and_inclination (demoEnv 6) demo_radiant (Fin 26000)
           (Fin 25000) demo_eci demo_jd false true false
           (demo_escapes_fast 6)).
Defined.

Lemma true_anomaly_half_plane_witness :
  exists nu : npfloat,
    Orbit.true_anomaly (demoOrbit 6 26000) = Some nu
    /\ (nu = NaN
        \/ exists t : R,
             nu = Fin t
             /\ (if flt (dot (demo_r 6) (demo_v 6)) (Fin 0)
                 then t = 0 \/ PI <= t < 2 * PI
                 else 0 <= t <= PI)).
Proof.
  unfold demoOrbit, demo_r, demo_v.
  exact (true_anomaly_half_plane (demoEnv 6) demo_radiant (Fin 26000)
           (Fin 25000) demo_eci demo_jd false true false
           (demo_escapes_fast 6)).
Defined.



(** * Properties of the orbits of the callers *)

Lemma repr_of_calcOrbit
    (E : Env) (format_float : string -> npfloat -> string)
    (format_int : string -> Z -> string)
    (format_str : string -> string -> string)
    (str_datetime : datetime -> string)
    (uncertainties : option Uncertainties) (v_init_ht : option npfloat)
    (radiant_eci : vec) (v_init v_avg : npfloat) (eci_ref : vec)
    (jd_ref : npfloat) (sf ri rc : bool) :
  exists text : string,
    Report.__repr__ E format_float format_int format_str str_datetime
      uncertainties v_init_ht
      (calcOrbit E radiant_eci v_init v_avg eci_ref jd_ref sf ri rc)
    = Some text.
Proof.
  unfold calcOrbit. cbv zeta.
  destruct (Rotation.escapes E radiant_eci v_init v_avg eci_ref jd_ref sf ri rc).
  - unfold Report.__repr__, Report.orbit_lines, Report.last_perihelion_line.
    cbn [Orbit.last_perihelion Orbit.ra_g Report.is_set].
    destruct (Kepler.last_perihelion E _ _ _); eexists; reflexivity.
  - eexists; reflexivity.
Qed.

Lemma calcOrbit_velocities
    (E : Env) (radiant_eci : vec) (v_init v_avg : npfloat) (eci_ref : vec)
    (jd_ref : npfloat) (sf ri rc : bool) :
  Orbit.v_init (calcOrbit E radiant_eci v_init v_avg eci_ref jd_ref sf ri rc)
  = Some v_init
  /\ Orbit.v_avg (calcOrbit E radiant_eci v_init v_avg eci_ref jd_ref sf ri rc)
     = Some v_avg.
Proof.
  unfold calcOrbit. cbv zeta.
  destruct (Rotation.escapes E radiant_eci v_init v_avg eci_ref jd_ref sf ri rc);
    split; reflexivity.
Qed.

Lemma print_calcOrbit
    (E : Env) (S : OrbitMain.ScriptEnv) (radiant_eci : vec)
    (v_init v_avg : npfloat) (eci_ref : vec) (jd_ref : npfloat)
    (sf ri rc : bool) :
  OrbitMain.print_orbit E S
    (calcOrbit E radiant_eci v_init v_avg eci_ref jd_ref sf ri rc)
  = OrbitMain.Done
      (calcOrbit E radiant_eci v_init v_avg eci_ref jd_ref sf ri rc).
Proof.
  unfold OrbitMain.print_orbit.
  destruct (repr_of_calcOrbit E (OrbitMain.format_float S)
              (OrbitMain.format_int S) (OrbitMain.format_str S)
              (OrbitMain.str_datetime S) None None radiant_eci v_init v_avg
              eci_ref jd_ref sf ri rc) as [text ->].
  reflexivity.
Qed.


(** * Rounding and the properties of floating tolerance *)

Section RoundingLemmas.
Import Rounded.
Variable rnd : R -> R.
Variable u : R.
Hypothesis u_pos : 0 <= u.

Lemma accurate_error (x b : R) :
  accurate rnd u x -> Rabs x <= b -> Rabs (rnd x - x) <= u * b.
Proof.
  unfold accurate. intros H Hb.
  apply (Rle_trans _ _ _ H). now apply Rmult_le_compat_l.
Qed.

(** A number from which [c] is subtracted and to which [c] is added back. *)
Lemma add_sub_round_trip (v c : R) :
  accurate rnd u (v - c) -> accurate rnd u (rnd (v - c) + c) ->
  Rabs (rnd (rnd (v - c) + c) - v) <= u * (2 + u) * (Rabs v + Rabs c).
Proof.
  intros H1 H2.
  pose proof (Rabs_pos v) as Hv. pose proof (Rabs_pos c) as Hc.
  assert (B1 : Rabs (v - c) <= Rabs v + Rabs c).
  { unfold Rminus. eapply Rle_trans; [apply Rabs_triang |].
    rewrite Rabs_Ropp. lra. }
  pose proof (accurate_error _ _ H1 B1) as E1.
  assert (B2 : Rabs (rnd (v - c) + c) <= Rabs v + u * (Rabs v + Rabs c)).
  { replace (rnd (v - c) + c) with (v + (rnd (v - c) - (v - c))) by ring.
    eapply Rle_trans; [apply Rabs_triang |]. lra. }
  pose proof (accurate_error _ _ H2 B2) as E2.
  replace (rnd (rnd (v - c) + c) - v)
    with ((rnd (rnd (v - c) + c) - (rnd (v - c) + c))
          + (rnd (v - c) - (v - c))) by ring.
  eapply Rle_trans; [apply Rabs_triang |].
  assert (0 <= u * Rabs c) by (apply Rmult_le_pos; assumption).
  assert (0 <= u * Rabs v) by (apply Rmult_le_pos; assumption).
  nra.
Qed.

(** A number that is multiplied by [s] and divided by [s] again. *)
Lemma mul_div_round_trip (p s : R) :
  s <> 0 -> accurate rnd u (p * s) -> accurate rnd u (rnd (p * s) / s) ->
  Rabs (rnd (rnd (p * s) / s) - p) <= u * (2 + u) * Rabs p.
Proof.
  intros Hs H1 H2.
  pose proof (Rabs_pos p) as Hp.
  assert (Hs' : 0 < Rabs s) by now apply Rabs_pos_lt.
  pose proof (accurate_error _ _ H1 (Rle_refl _)) as E1.
  rewrite Rabs_mult in E1.
  assert (D1 : Rabs (rnd (p * s) / s - p) <= u * Rabs p).
  { replace (rnd (p * s) / s - p) with ((rnd (p * s) - p * s) / s)
      by (field; assumption).
    unfold Rdiv. rewrite Rabs_mult, Rabs_inv.
    apply (Rmult_le_reg_r (Rabs s)); [assumption |].
    rewrite Rmult_assoc, Rinv_l by lra. lra. }
  assert (B2 : Rabs (rnd (p * s) / s) <= Rabs p + u * Rabs p).
  { replace (rnd (p * s) / s) with (p + (rnd (p * s) / s - p)) by ring.
    eapply Rle_trans; [apply Rabs_triang |]. lra. }
  pose proof (accurate_error _ _ H2 B2) as E2.
  replace (rnd (rnd (p * s) / s) - p)
    with ((rnd (rnd (p * s) / s) - rnd (p * s) / s)
          + (rnd (p * s) / s - p)) by ring.
  eapply Rle_trans; [apply Rabs_triang |].
  assert (0 <= u * Rabs p) by (apply Rmult_le_pos; assumption).
  nra.
Qed.

(** A number that is divided by [s] and multiplied by [s] again. *)
Lemma div_mul_round_trip (p s : R) :
  s <> 0 -> accurate rnd u (p / s) -> accurate rnd u (s * rnd (p / s)) ->
  Rabs (rnd (s * rnd (p / s)) - p) <= u * (2 + u) * Rabs p.
Proof.
  intros Hs H1 H2.
  pose proof (Rabs_pos p) as Hp.
  assert (Hs' : 0 < Rabs s) by now apply Rabs_pos_lt.
  pose proof (accurate_error _ _ H1 (Rle_refl _)) as E1.
  unfold Rdiv in E1 at 3. rewrite Rabs_mult, Rabs_inv in E1.
  assert (D1 : Rabs (s * rnd (p / s) - p) <= u * Rabs p).
  { replace (s * rnd (p / s) - p) with (s * (rnd (p / s) - p / s))
      by (field; assumption).
    rewrite Rabs_mult.
    apply (Rle_trans _ (Rabs s * (u * (Rabs p * / Rabs s)))).
    - apply Rmult_le_compat_l; [lra | exact E1].
    - right. field. lra. }
  assert (B2 : Rabs (s * rnd (p / s)) <= Rabs p + u * Rabs p).
  { replace (s * rnd (p / s)) with (p + (s * rnd (p / s) - p)) by ring.
    eapply Rle_trans; [apply Rabs_triang |]. lra. }
  pose proof (accurate_error _ _ H2 B2) as E2.
  replace (rnd (s * rnd (p / s)) - p)
    with ((rnd (s * rnd (p / s)) - s * rnd (p / s))
          + (s * rnd (p / s) - p)) by ring.
  eapply Rle_trans; [apply Rabs_triang |].
  assert (0 <= u * Rabs p) by (apply Rmult_le_pos; assumption).
  nra.
Qed.


End RoundingLemmas.

(** The coarse rounding of the examples. *)
Lemma coarse_eq (x : R) (z : Z) :
  IZR z - / 2 <= x * 1024 < IZR z + / 2 -> Rounded.coarse x = IZR z / 1024.
Proof.
  intros H. unfold Rounded.coarse. f_equal. f_equal. symmetry.
  apply Int_part_spec. lra.
Qed.

Lemma coarse_exact (x : R) (z : Z) :
  x * 1024 = IZR z -> Rounded.coarse x = x.
Proof.
  intros H. rewrite (coarse_eq x z) by lra. lra.
Qed.

Lemma coarse_accurate_exact (u x : R) (z : Z) :
  0 <= u -> x * 1024 = IZR z -> Rounded.accurate Rounded.coarse u x.
Proof.
  intros Hu H. unfold Rounded.accurate. rewrite (coarse_exact x z H).
  replace (x - x) with 0 by ring. rewrite Rabs_R0.
  apply Rmult_le_pos; [assumption | apply Rabs_pos].
Qed.

Lemma coarse_accurate (u x : R) (z : Z) :
  IZR z - / 2 <= x * 1024 < IZR z + / 2 -> 0 <= x ->
  Rabs (IZR z / 1024 - x) <= u * x ->
  Rounded.accurate Rounded.coarse u x.
Proof.
  intros H Hx Hb. unfold Rounded.accurate. rewrite (coarse_eq x z H).
  now rewrite (Rabs_pos_eq x).
Qed.

(** In float64 itself the rotation that is subtracted and added back does
    not give the component one started from: [0.1] comes back as
    [0.10000000000002274]. *)
Lemma rotation_not_exact_in_float64 :
  Binary64.add_rotation 0x1.4a1f972474539p+8 1
    (Binary64.subtract_rotation 0x1.4a1f972474539p+8 1 0x1.999999999999ap-4)
  = 0x1.999999999ap-4%float.
Proof. reflexivity. Qed.

(** C6: the rotation that is subtracted from a horizontal component of the
    reference velocity when the stations are fixed (lines 464-465) and added
    to it for the report when they move (lines 490-491) is the same rounded
    product [v_e*cos(ra_east)] or [v_e*sin(ra_east)].  Adding it back to a
    component from which it was subtracted recovers the component to
    floating tolerance: within [u*(2 + u)] times the sum of the sizes of the
    component and of the rotation, the two roundings being accurate to [u]
    ([2^-53] in float64).  Neither operation changes the z component, and
    they are the operations that make [v_ref_corr] and [v_ref_nocorr] in
    [calcOrbit]. *)
Theorem rotation_correction_symmetry (rnd : R -> R) (u v_e t v : R) :
  0 <= u ->
  Rounded.accurate rnd u (v - rnd (v_e * t)) ->
  Rounded.accurate rnd u
    (Rounded.subtract_rotation rnd v_e t v + rnd (v_e * t)) ->
  Rabs (Rounded.add_rotation rnd v_e t (Rounded.subtract_rotation rnd v_e t v)
        - v)
  <= u * (2 + u) * (Rabs v + Rabs (rnd (v_e * t)))
  /\ (forall (e ra : npfloat) (w : vec),
         vz (rotation_subtract e ra w) = vz w
         /\ vz (rotation_add e ra w) = vz w)
  /\ (forall (e ra x y : R) (z : npfloat),
         rotation_subtract (Fin e) (Fin ra) (V3 (Fin x) (Fin y) z)
         = V3 (Fin (Rounded.subtract_rotation (fun r => r) e (cos ra) x))
              (Fin (Rounded.subtract_rotation (fun r => r) e (sin ra) y)) z
         /\ rotation_add (Fin e) (Fin ra) (V3 (Fin x) (Fin y) z)
            = V3 (Fin (Rounded.add_rotation (fun r => r) e (cos ra) x))
                 (Fin (Rounded.add_rotation (fun r => r) e (sin ra) y)) z)
  /\ (forall (E : Env) (radiant_eci : vec) (v_init v_avg : npfloat)
             (eci_ref : vec) (jd_ref : npfloat) (reference_init : bool),
         Rotation.v_ref_corr E radiant_eci v_init v_avg eci_ref jd_ref true
                             reference_init
         = rotation_subtract (Rotation.v_e eci_ref)
                             (Rotation.ra_east E eci_ref jd_ref)
                             (Rotation.v_ref_vect radiant_eci v_init v_avg
                                                  reference_init)
         /\ Rotation.v_ref_nocorr E radiant_eci v_init v_avg eci_ref jd_ref
                                  reference_init
            = rotation_add (Rotation.v_e eci_ref)
                           (Rotation.ra_east E eci_ref jd_ref)
                           (Rotation.v_ref_vect radiant_eci v_init v_avg
                                                reference_init)).
Proof.
  intros Hu H1 H2.
  split; [exact (add_sub_round_trip rnd u Hu v (rnd (v_e * t)) H1 H2) |].
  split; [intros e ra w; split; reflexivity |].
  split; [| intros; split; reflexivity].
  intros e ra x y z.
  unfold rotation_subtract, rotation_add, Rounded.subtract_rotation,
    Rounded.add_rotation.
  cbn [vx vy vz fcos fsin fmul fsub fadd fneg]. split; reflexivity.
Qed.

Lemma rotation_correction_symmetry_witness :
  Rabs (Rounded.add_rotation Rounded.coarse 400 (/ 2)
          (Rounded.subtract_rotation Rounded.coarse 400 (/ 2) 1000.0001)
        - 1000.0001)
  <= / 1000 * (2 + / 1000)
     * (Rabs 1000.0001 + Rabs (Rounded.coarse (400 * / 2))).
Proof.
  assert (Hc : Rounded.coarse (400 * / 2) = 200)
    by (rewrite (coarse_eq _ 204800) by lra; lra).
  assert (Hs : Rounded.subtract_rotation Rounded.coarse 400 (/ 2) 1000.0001
               = 800).
  { unfold Rounded.subtract_rotation. rewrite Hc.
    rewrite (coarse_eq _ 819200) by lra. lra. }
  refine (proj1 (rotation_correction_symmetry Rounded.coarse (/ 1000) 400
                   (/ 2) 1000.0001 _ _ _)).
  - lra.
  - rewrite Hc. apply (coarse_accurate _ _ 819200); [lra | lra |].
    apply Rabs_le. lra.
  - rewrite Hs, Hc. apply (coarse_accurate_exact _ _ 1024000); lra.
Defined.

(** * Properties of the command-line script *)

Section ScriptProperties.
Variable E : Env.
Variable S : OrbitMain.ScriptEnv.

Local Abbreviation missing := OrbitMain.parameter_missing_message.


Ltac run_script :=
  cbv [OrbitMain.main OrbitMain.load OrbitMain.run OrbitMain.bind
       OrbitMain.resolve OrbitMain.number option_map].

(** X10: without a trajectory pickle the first argument that is missing, in
    the order right ascension, declination, initial velocity, time,
    location, decides the message the script exits with; a time that does
    not follow the format raises before the location is looked at. *)
Theorem script_exit_messages (cml : OrbitMain.CmlArgs) :
  OrbitMain.pickle_file cml = None ->
  (OrbitMain.ra cml = None ->
   OrbitMain.main E S cml = OrbitMain.Exit (missing "RA"))
  /\ (OrbitMain.ra cml <> None -> OrbitMain.dec cml = None ->
      OrbitMain.main E S cml = OrbitMain.Exit (missing "Dec"))
  /\ (OrbitMain.ra cml <> None -> OrbitMain.dec cml <> None ->
      OrbitMain.vinit cml = None ->
      OrbitMain.main E S cml = OrbitMain.Exit (missing "initial velocity"))
  /\ (OrbitMain.ra cml <> None -> OrbitMain.dec cml <> None ->
      OrbitMain.vinit cml <> None -> OrbitMain.time cml = None ->
      OrbitMain.main E S cml = OrbitMain.Exit (missing "reference time"))
  /\ (forall text,
         OrbitMain.ra cml <> None -> OrbitMain.dec cml <> None ->
         OrbitMain.vinit cml <> None -> OrbitMain.time cml = Some text ->
         (OrbitMain.strptime S text = None ->
          OrbitMain.main E S cml = OrbitMain.Raise)
         /\ (OrbitMain.strptime S text <> None ->
             (OrbitMain.lat cml = None -> OrbitMain.lon cml = None ->
              OrbitMain.ele cml = None ->
              OrbitMain.main E S cml = OrbitMain.Exit (missing "lat, lon, ht"))
             /\ (OrbitMain.lat cml = None ->
                 (OrbitMain.lon cml <> None \/ OrbitMain.ele cml <> None) ->
                 OrbitMain.main E S cml
                 = OrbitMain.Exit (missing "latitude"))
             /\ (OrbitMain.lat cml <> None -> OrbitMain.lon cml = None ->
                 OrbitMain.main E S cml
                 = OrbitMain.Exit (missing "longitude"))
             /\ (OrbitMain.lat cml <> None -> OrbitMain.lon cml <> None ->
                 OrbitMain.ele cml = None ->
                 OrbitMain.main E S cml
                 = OrbitMain.Exit (missing "height")))).
Proof.
  intros Hp. run_script. rewrite Hp.
  destruct (OrbitMain.ra cml), (OrbitMain.dec cml), (OrbitMain.vinit cml),
    (OrbitMain.vavg cml), (OrbitMain.time cml) as [tx |],
    (OrbitMain.lat cml), (OrbitMain.lon cml), (OrbitMain.ele cml);
    repeat split; intros; try congruence; try tauto;
    try match goal with
        | H : Some _ = Some _ |- _ => injection H as <-
        end;
    try match goal with
        | H : OrbitMain.strptime S ?t = None |- _ => rewrite H; reflexivity
        end;
    try match goal with
        | H : OrbitMain.strptime S ?t <> None |- _ =>
            destruct (OrbitMain.strptime S t); [reflexivity | congruence]
        end;
    try (destruct H4; congruence).
Qed.

(** X11: the script never exits for want of an average velocity: the
    message of line 946 is not reachable.  Without a pickle and without
    [-w], the average velocity handed to [calcOrbit] is the initial
    velocity. *)
Theorem script_average_velocity (cml : OrbitMain.CmlArgs) :
  OrbitMain.main E S cml <> OrbitMain.Exit (missing "average velocity")
  /\ (forall orb : Orbit.t,
         OrbitMain.pickle_file cml = None -> OrbitMain.vavg cml = None ->
         OrbitMain.main E S cml = OrbitMain.Done orb ->
         Orbit.v_avg orb = Orbit.v_init orb
         /\ exists v, OrbitMain.vinit cml = Some v
                      /\ Orbit.v_init orb = Some (fmul (Fin 1000) v)).
Proof.
  split.
  - run_script.
    destruct (OrbitMain.pickle_file cml) as [path |];
      [destruct (OrbitMain.loadPickle S path) as [t |]; [| discriminate] |];
      destruct (OrbitMain.ra cml), (OrbitMain.dec cml),
        (OrbitMain.vinit cml), (OrbitMain.vavg cml);
      repeat match goal with
             | |- context [match ?x with Some _ => _ | None => _ end] =>
                 destruct x
             | |- context [let '(_, _) := ?x in _] => destruct x
             end;
      rewrite ?print_calcOrbit; discriminate.
  - intros orb Hp Hw. run_script. rewrite Hp, Hw.
    destruct (OrbitMain.ra cml), (OrbitMain.dec cml),
      (OrbitMain.vinit cml) as [v |]; try discriminate.
    repeat match goal with
           | |- context [match ?x with Some _ => _ | None => _ end] =>
               destruct x; try discriminate
           | |- context [let '(_, _) := ?x in _] => destruct x
           end;
      rewrite ?print_calcOrbit; intros [= <-];
      (split; [| exists v; split; [reflexivity |]]);
      match goal with
      | |- context [calcOrbit ?e ?r ?vi ?va ?ec ?jd ?sf ?ri ?rc] =>
          destruct (calcOrbit_velocities e r vi va ec jd sf ri rc)
            as [Hi Ha];
          rewrite ?Hi, ?Ha; reflexivity
      end.
Qed.

(** X12: when the eight values are all given on the command line the
    script does not read the pickled trajectory: the run is the same with
    any trajectory and with none. *)
Theorem script_command_line_overrides (cml : OrbitMain.CmlArgs)
    (t : OrbitMain.Trajectory) :
  OrbitMain.ra cml <> None -> OrbitMain.dec cml <> None ->
  OrbitMain.vinit cml <> None -> OrbitMain.vavg cml <> None ->
  OrbitMain.time cml <> None -> OrbitMain.lat cml <> None ->
  OrbitMain.lon cml <> None -> OrbitMain.ele cml <> None ->
  OrbitMain.run E S cml (Some t) = OrbitMain.run E S cml None.
Proof.
  intros. run_script.
  destruct (OrbitMain.ra cml), (OrbitMain.dec cml), (OrbitMain.vinit cml),
    (OrbitMain.vavg cml), (OrbitMain.time cml), (OrbitMain.lat cml),
    (OrbitMain.lon cml), (OrbitMain.ele cml); congruence.
Qed.

(** X13: [--milig] alone selects the same run as [--refavg], [--vrotcorr]
    and [--statfixed] together: the average point as the reference, the
    correction of the velocity and fixed stations. *)
Theorem script_milig_flags (cml : OrbitMain.CmlArgs) (k c s : bool) :
  OrbitMain.flags (OrbitMain.with_flags cml k c s true) = (false, true, true)
  /\ OrbitMain.main E S (OrbitMain.with_flags cml k c s true)
     = OrbitMain.main E S (OrbitMain.with_flags cml true true true false).
Proof.
  split.
  - cbv [OrbitMain.flags OrbitMain.with_flags OrbitMain.refavg
         OrbitMain.milig OrbitMain.vrotcorr OrbitMain.statfixed].
    destruct k, c, s; reflexivity.
  - unfold OrbitMain.main, OrbitMain.load, OrbitMain.run, OrbitMain.flags.
    cbn [OrbitMain.with_flags OrbitMain.pickle_file OrbitMain.ra
         OrbitMain.dec OrbitMain.vinit OrbitMain.vavg OrbitMain.time
         OrbitMain.lat OrbitMain.lon OrbitMain.ele OrbitMain.j2000
         OrbitMain.refavg OrbitMain.vrotcorr OrbitMain.statfixed
         OrbitMain.milig].
    destruct k, c, s; reflexivity.
Qed.

End ScriptProperties.


Lemma script_exit_messages_witness :
  OrbitMain.main (demoEnv 6) demoScript (demoArgs None)
  = OrbitMain.Exit (OrbitMain.parameter_missing_message "RA").
Proof.
  exact (proj1 (script_exit_messages (demoEnv 6) demoScript (demoArgs None)
                  eq_refl) eq_refl).
Defined.

Lemma script_command_line_overrides_witness :
  OrbitMain.run (demoEnv 6) demoScript
    (OrbitMain.with_flags
       {| OrbitMain.pickle_file := Some "trajectory.pickle"%string;
          OrbitMain.ra := Some (Fin 90); OrbitMain.dec := Some (Fin 0);
          OrbitMain.vinit := Some (Fin 26); OrbitMain.vavg := Some (Fin 25);
          OrbitMain.time := Some "20170721-070419.513"%string;
          OrbitMain.lat := Some (Fin 0); OrbitMain.lon := Some (Fin 0);
          OrbitMain.ele := Some (Fin 100); OrbitMain.j2000 := false;
          OrbitMain.refavg := false; OrbitMain.vrotcorr := false;
          OrbitMain.statfixed := false; OrbitMain.milig := false |}
       false false false false)
    (Some {| OrbitMain.orbit := Orbit.init;
             OrbitMain.state_vect_mini := demo_eci |})
  = OrbitMain.run (demoEnv 6) demoScript
      (OrbitMain.with_flags
         {| OrbitMain.pickle_file := Some "trajectory.pickle"%string;
            OrbitMain.ra := Some (Fin 90); OrbitMain.dec := Some (Fin 0);
            OrbitMain.vinit := Some (Fin 26); OrbitMain.vavg := Some (Fin 25);
            OrbitMain.time := Some "20170721-070419.513"%string;
            OrbitMain.lat := Some (Fin 0); OrbitMain.lon := Some (Fin 0);
            OrbitMain.ele := Some (Fin 100); OrbitMain.j2000 := false;
            OrbitMain.refavg := false; OrbitMain.vrotcorr := false;
            OrbitMain.statfixed := false; OrbitMain.milig := false |}
         false false false false)
      None.
Proof.
  apply script_command_line_overrides; discriminate.
Defined.

(** * Properties of the normalisation of the fit parameters *)

Section NormalizationProperties.
Import Normalization.


Lemma truediv_raises (numpy : bool) (x y : npfloat) (e : error) :
  truediv numpy x y = inl e ->
  e = ZeroDivisionError /\ numpy = false /\ y = Fin 0.
Proof.
  unfold truediv. destruct numpy; [discriminate |].
  destruct y as [| s | r]; try discriminate.
  destruct (Reqb r 0) eqn:Hr; [| discriminate].
  apply Reqb_eq in Hr. subst r. intros [= <-]. auto.
Qed.


Lemma traverse_length {A B : Type} (f : A -> error + B) (l : list A)
    (xs : list B) :
  traverse f l = inr xs -> length xs = length l.
Proof.
  revert xs. induction l as [| a l IH]; intros xs; cbn [traverse].
  - intros [= <-]. reflexivity.
  - destruct (f a); [discriminate |].
    destruct (traverse f l) as [| ys]; [discriminate |].
    intros [= <-]. cbn. f_equal. now apply IH.
Qed.

Lemma traverse_raises {A B : Type} (f : A -> error + B) (l : list A)
    (e : error) :
  traverse f l = inl e -> Exists (fun a => f a = inl e) l.
Proof.
  induction l as [| a l IH]; cbn [traverse]; [discriminate |].
  destruct (f a) as [e' | x] eqn:Hf.
  - intros [= <-]. now constructor.
  - destruct (traverse f l) as [e' | ys]; [| discriminate].
    intros [= <-]. constructor 2. now apply IH.
Qed.







Lemma reachable_invariant (self : t) :
  reachable self ->
  (normalization_method self = Some Bounds -> bounds self <> None)
  /\ (normalization_method self = Some Scaling -> scaling_list self <> None)
  /\ (normalization_method self = None ->
      bounds self = None /\ scaling_list self = None).
Proof.
  induction 1 as [ps | numpy self b Hr IH | self sl b Hr IH]; cbn.
  - repeat split; discriminate.
  - repeat split; discriminate.
  - repeat split; discriminate.
Qed.

(** X17: on an object made by [__init__] and any sequence of
    normalisations that were given lists, [denormalize] never raises a
    ValueError: the two checks of lines 1215 and 1235 cannot fail.  It
    raises an UnboundLocalError exactly when no normalisation was done, a
    ZeroDivisionError only after a scaling of Python floats, and otherwise
    returns a list no longer than its argument. *)
Theorem denormalize_errors (numpy : bool) (self : t)
    (params_normed : list npfloat) :
  reachable self ->
  (forall message,
      denormalize numpy self params_normed <> inl (ValueError message))
  /\ (denormalize numpy self params_normed = inl UnboundLocalError
      <-> normalization_method self = None)
  /\ (denormalize numpy self params_normed = inl ZeroDivisionError ->
      numpy = false /\ normalization_method self = Some Scaling)
  /\ (forall ps, denormalize numpy self params_normed = inr ps ->
      (length ps <= length params_normed)%nat).
Proof.
  intros Hr. destruct (reachable_invariant self Hr) as (Hb & Hs & _).
  unfold denormalize.
  destruct (normalization_method self) as [[] |].
  - destruct (bounds self) as [b |]; [| now contradiction Hb].
    split; [discriminate |]. split; [split; discriminate |].
    split; [discriminate |].
    intros ps [= <-]. rewrite length_map, length_combine. lia.
  - destruct (scaling_list self) as [sl |]; [| now contradiction Hs].
    set (f := fun ps : npfloat * npfloat => truediv numpy (fst ps) (snd ps)).
    assert (Hf : forall e, traverse f (combine params_normed sl) = inl e ->
                           e = ZeroDivisionError /\ numpy = false).
    { intros e He. apply traverse_raises in He.
      apply Exists_exists in He. destruct He as (a & _ & Ha).
      unfold f in Ha. apply truediv_raises in Ha. tauto. }
    split; [intros message He; apply Hf in He; destruct He; discriminate |].
    split; [split; [intros He; apply Hf in He; destruct He; discriminate
                   | discriminate] |].
    split; [intros He; apply Hf in He; tauto |].
    intros ps He. apply traverse_length in He.
    rewrite He, length_combine. lia.
  - split; [discriminate |]. split; [split; reflexivity |].
    split; discriminate.
Qed.

Lemma denormalize_errors_witness :
  denormalize false (init [Fin 3; Fin 5]) [Fin 1] = inl UnboundLocalError
  <-> normalization_method (init [Fin 3; Fin 5]) = None.
Proof.
  exact (proj1 (proj2 (denormalize_errors false (init [Fin 3; Fin 5])
                         [Fin 1] (reach_init [Fin 3; Fin 5])))).
Defined.


End NormalizationProperties.

(** * Properties of saveUpdatedOrbit *)

Lemma replace_from_skip (old new s : string) (k : nat) :
  (String.length s <= k)%nat -> replace_from old new k s = EmptyString.
Proof.
  revert k. induction s as [| c s IH]; intros k Hk; [reflexivity |].
  cbn in Hk. destruct k as [| k]; [lia |]. cbn. apply IH. lia.
Qed.

Lemma str_replace_absent (s old new : string) :
  String.index 0 old s = None -> str_replace s old new = s.
Proof.
  unfold str_replace. induction s as [| c s IH]; intros H; [reflexivity |].
  cbn [String.index] in H. cbn [replace_from].
  destruct (String.prefix old (String c s)); [discriminate |].
  f_equal. apply IH. destruct (String.index 0 old s); [discriminate | trivial].
Qed.

Lemma str_replace_at_end (pre old new : string) :
  old <> EmptyString ->
  String.index 0 old (String.append pre old) = Some (String.length pre) ->
  str_replace (String.append pre old) old new = String.append pre new.
Proof.
  intros Hne. unfold str_replace.
  induction pre as [| c pre IH]; intros H.
  - cbn [String.append String.length] in *.
    destruct old as [| a old]; [congruence |].
    cbn [String.index] in H. cbn [replace_from].
    destruct (String.prefix (String a old) (String a old)) eqn:Hp.
    + rewrite replace_from_skip by (cbn; lia).
      clear. induction new; cbn; congruence.
    + destruct (String.index 0 (String a old) old); discriminate.
  - cbn [String.append String.length String.index] in H.
    cbn [String.append replace_from].
    destruct (String.prefix old (String c (String.append pre old)));
      [discriminate |].
    f_equal. apply IH.
    destruct (String.index 0 old (String.append pre old));
      [congruence | discriminate].
Qed.

Section SaveUpdatedOrbitProperties.
Variable E : Env.
Variable format_float : string -> npfloat -> string.
Variable format_int : string -> Z -> string.
Variable format_str : string -> string -> string.
Variable str_datetime : datetime -> string.
Variable path_split : string -> string * string.
Variable const_v_init : npfloat.
Variable traj : SaveUpdatedOrbit.Trajectory.
Variable traj_path : string.

Local Abbreviation save :=
  (SaveUpdatedOrbit.saveUpdatedOrbit E format_float format_int format_str
     str_datetime path_split const_v_init traj traj_path).

Lemma save_updated_orbit_returns (v : npfloat) :
  Orbit.v_init (SaveUpdatedOrbit.orbit traj) = Some v ->
  exists eff : SaveUpdatedOrbit.Effects, save = Some eff.
Proof.
  intros Hv.
  unfold SaveUpdatedOrbit.saveUpdatedOrbit, SaveUpdatedOrbit.v_init_diff.
  rewrite Hv. cbv zeta. unfold SaveUpdatedOrbit.updated_orbit.
  destruct (repr_of_calcOrbit E format_float format_int format_str
              str_datetime None None
              (SaveUpdatedOrbit.radiant_eci_mini traj)
              (fadd (SaveUpdatedOrbit.v_init traj) (fsub const_v_init v))
              (fadd (SaveUpdatedOrbit.v_avg traj) (fsub const_v_init v))
              (SaveUpdatedOrbit.state_vect_mini traj)
              (SaveUpdatedOrbit.rbeg_jd traj) false true false)
    as [text Ht].
  rewrite Ht. destruct (path_split traj_path) as [dir_path file_name].
  eexists; reflexivity.
Qed.

(** X19: [saveUpdatedOrbit] raises exactly when the orbit of the trajectory
    has no [v_init].  Otherwise the orbit it saves was computed with both
    velocities shifted by [const.v_init - orbit.v_init]: its [v_init] and
    [v_avg] are the shifted velocities and its [v_inf] is its [v_init]; every
    other attribute of the trajectory that the method reads ([radiant_eci_mini],
    [v_init], [v_avg], [state_vect_mini], [rbeg_jd], [uncertainties]) is saved
    unchanged and the report gets the uncertainties of the trajectory. *)
Theorem save_updated_orbit_velocities :
  (save = None <-> Orbit.v_init (SaveUpdatedOrbit.orbit traj) = None)
  /\ (forall eff v,
         save = Some eff ->
         Orbit.v_init (SaveUpdatedOrbit.orbit traj) = Some v ->
         let diff := fsub const_v_init v in
         let orb :=
           SaveUpdatedOrbit.orbit (SaveUpdatedOrbit.pickle_trajectory eff) in
         Orbit.v_init orb
         = Some (fadd (SaveUpdatedOrbit.v_init traj) diff)
         /\ Orbit.v_avg orb = Some (fadd (SaveUpdatedOrbit.v_avg traj) diff)
         /\ Orbit.v_inf orb = Orbit.v_init orb
         /\ SaveUpdatedOrbit.radiant_eci_mini
              (SaveUpdatedOrbit.pickle_trajectory eff)
            = SaveUpdatedOrbit.radiant_eci_mini traj
         /\ SaveUpdatedOrbit.v_init (SaveUpdatedOrbit.pickle_trajectory eff)
            = SaveUpdatedOrbit.v_init traj
         /\ SaveUpdatedOrbit.v_avg (SaveUpdatedOrbit.pickle_trajectory eff)
            = SaveUpdatedOrbit.v_avg traj
         /\ SaveUpdatedOrbit.state_vect_mini
              (SaveUpdatedOrbit.pickle_trajectory eff)
            = SaveUpdatedOrbit.state_vect_mini traj
         /\ SaveUpdatedOrbit.rbeg_jd (SaveUpdatedOrbit.pickle_trajectory eff)
            = SaveUpdatedOrbit.rbeg_jd traj
         /\ SaveUpdatedOrbit.uncertainties
              (SaveUpdatedOrbit.pickle_trajectory eff)
            = SaveUpdatedOrbit.uncertainties traj
         /\ SaveUpdatedOrbit.report_uncertainties eff
            = SaveUpdatedOrbit.uncertainties traj).
Proof.
  unfold SaveUpdatedOrbit.saveUpdatedOrbit, SaveUpdatedOrbit.v_init_diff.
  destruct (Orbit.v_init (SaveUpdatedOrbit.orbit traj)) as [v0 |].
  - cbv zeta. unfold SaveUpdatedOrbit.updated_orbit.
    destruct (repr_of_calcOrbit E format_float format_int format_str
                str_datetime None None
                (SaveUpdatedOrbit.radiant_eci_mini traj)
                (fadd (SaveUpdatedOrbit.v_init traj) (fsub const_v_init v0))
                (fadd (SaveUpdatedOrbit.v_avg traj) (fsub const_v_init v0))
                (SaveUpdatedOrbit.state_vect_mini traj)
                (SaveUpdatedOrbit.rbeg_jd traj) false true false)
      as [text Ht].
    rewrite Ht. destruct (path_split traj_path) as [dir_path file_name].
    split; [split; discriminate |].
    intros eff v [= <-] [= <-].
    cbn [SaveUpdatedOrbit.pickle_trajectory SaveUpdatedOrbit.with_orbit
         SaveUpdatedOrbit.orbit SaveUpdatedOrbit.v_init
         SaveUpdatedOrbit.v_avg SaveUpdatedOrbit.radiant_eci_mini
         SaveUpdatedOrbit.rbeg_jd SaveUpdatedOrbit.uncertainties
         SaveUpdatedOrbit.state_vect_mini
         SaveUpdatedOrbit.report_uncertainties].
    match goal with
    | |- context [calcOrbit ?e ?r ?vi ?va ?ec ?jd ?sf ?ri ?rc] =>
        destruct (calcOrbit_velocities e r vi va ec jd sf ri rc) as [Hi Ha];
        pose proof (calcOrbit_v_inf e r vi va ec jd sf ri rc) as Hf
    end.
    rewrite Hi, Ha, Hf. repeat split; reflexivity.
  - split; [split; reflexivity |]. discriminate.
Qed.

(** X20: the names of the two files.  When the name of the trajectory file
    ends with its first [trajectory.pickle], the report is written next to
    it as [...report_sim.txt] and the pickle as [...trajectory_sim.pickle];
    when the name has no [trajectory.pickle] the pickle is written under the
    name of the trajectory file itself. *)
Theorem save_updated_orbit_file_names (eff : SaveUpdatedOrbit.Effects) :
  save = Some eff ->
  SaveUpdatedOrbit.report_dir eff = fst (path_split traj_path)
  /\ SaveUpdatedOrbit.pickle_dir eff = fst (path_split traj_path)
  /\ (forall pre : string,
         snd (path_split traj_path)
         = String.append pre "trajectory.pickle" ->
         String.index 0 "trajectory.pickle" (snd (path_split traj_path))
         = Some (String.length pre) ->
         SaveUpdatedOrbit.report_file_name eff
         = String.append pre "report_sim.txt"
         /\ SaveUpdatedOrbit.pickle_file_name eff
            = String.append pre "trajectory_sim.pickle")
  /\ (String.index 0 "trajectory.pickle" (snd (path_split traj_path)) = None ->
      SaveUpdatedOrbit.pickle_file_name eff = snd (path_split traj_path)
      /\ SaveUpdatedOrbit.report_file_name eff
         = String.append (snd (path_split traj_path)) "report_sim.txt").
Proof.
  unfold SaveUpdatedOrbit.saveUpdatedOrbit.
  destruct (SaveUpdatedOrbit.v_init_diff _ _); [| discriminate].
  cbv zeta. destruct (Report.__repr__ _ _ _ _ _ _ _ _); [| discriminate].
  destruct (path_split traj_path) as [dir_path file_name].
  intros [= <-].
  cbn [SaveUpdatedOrbit.report_dir SaveUpdatedOrbit.pickle_dir
       SaveUpdatedOrbit.report_file_name SaveUpdatedOrbit.pickle_file_name
       fst snd].
  split; [reflexivity |]. split; [reflexivity |]. split.
  - intros pre -> Hi.
    rewrite !str_replace_at_end by (assumption || discriminate).
    split; [| reflexivity].
    clear. induction pre; cbn; congruence.
  - intros Hi. rewrite !str_replace_absent by assumption.
    split; reflexivity.
Qed.

End SaveUpdatedOrbitProperties.

Lemma save_updated_orbit_file_names_witness :
  exists eff : SaveUpdatedOrbit.Effects,
    demoSave = Some eff
    /\ SaveUpdatedOrbit.report_file_name eff = "20170721_report_sim.txt"%string
    /\ SaveUpdatedOrbit.pickle_file_name eff
       = "20170721_trajectory_sim.pickle"%string.
Proof.
  assert (Hv : Orbit.v_init (SaveUpdatedOrbit.orbit demoTrajectory)
               = Some (Fin 26000)).
  { unfold demoTrajectory. cbn [SaveUpdatedOrbit.orbit]. unfold demoOrbit.
    apply calcOrbit_velocities. }
  destruct (save_updated_orbit_returns (demoEnv 6)
              (fun _ _ => EmptyString) (fun _ _ => EmptyString)
              (fun _ _ => EmptyString) (fun _ => EmptyString)
              (fun path => (EmptyString, path)) (Fin 26500) demoTrajectory
              "20170721_trajectory.pickle" (Fin 26000) Hv) as [eff Heff].
  exists eff. split; [exact Heff |].
  destruct (save_updated_orbit_file_names (demoEnv 6)
              (fun _ _ => EmptyString) (fun _ _ => EmptyString)
              (fun _ _ => EmptyString) (fun _ => EmptyString)
              (fun path => (EmptyString, path)) (Fin 26500) demoTrajectory
              "20170721_trajectory.pickle" eff Heff) as (_ & _ & Hn & _).
  exact (Hn "20170721_"%string eq_refl eq_refl).
Defined.

(** * Properties of FragmentationEntry *)

Section FragmentationEntryProperties.
Import FragmentationEntry.
Variable rnd : R -> R.
Variable float_of_string : string -> option npfloat.
Variable int_of_string : string -> option Z.
Variable strip : string -> string.
Variable format_float : string -> npfloat -> string.
Variable format_int : string -> Z -> string.
Variable format_str : string -> string -> string.

Local Abbreviation new := (init rnd float_of_string int_of_string strip).
Local Abbreviation as_float := (to_float float_of_string).
Local Abbreviation as_int := (to_int int_of_string).

(** X21: the constructor raises exactly when the height cannot be converted
    to a float.  Every other field that cannot be converted is stored as
    [None], except the number of an [F] or [EF] entry, which is 1.  A mass
    percentage is stored as it is given, above 100 too: the limit of lines
    619-620 is assigned to the argument, not to the attribute.  A new entry
    is not done, has no id, no fragments, none of the six outputs and empty
    lists of results. *)
Theorem fragmentation_entry_fields
    (name : string)
    (v_height v_number v_mass_percent v_sigma v_gamma v_erosion_coeff
     v_grain_mass_min v_grain_mass_max v_mass_index : pyval)
    (normalize_units : bool) :
  let entry :=
    new name v_height v_number v_mass_percent v_sigma v_gamma
        v_erosion_coeff v_grain_mass_min v_grain_mass_max v_mass_index
        normalize_units in
  (entry = None <-> as_float v_height = None)
  /\ (forall e : t,
         entry = Some e ->
         frag_type e = strip name
         /\ mass_percent e = as_float v_mass_percent
         /\ (forall x : R,
                as_float v_mass_percent = Some (Fin x) -> 100 < x ->
                mass_percent e = Some (Fin x))
         /\ (forall n : Z, as_int v_number = Some n -> number e = Some n)
         /\ (as_int v_number = None ->
             number e
             = if String.eqb (strip name) "F" || String.eqb (strip name) "EF"
               then Some 1%Z else None)
         /\ (as_float v_mass_percent = None -> mass_percent e = None)
         /\ (as_float v_sigma = None -> sigma e = None)
         /\ (as_float v_gamma = None -> gamma e = None)
         /\ (as_float v_erosion_coeff = None -> erosion_coeff e = None)
         /\ (as_float v_grain_mass_min = None -> grain_mass_min e = None)
         /\ (as_float v_grain_mass_max = None -> grain_mass_max e = None)
         /\ (as_float v_mass_index = None -> mass_index e = None)
         /\ done e = false /\ id e = None /\ fragments e = []
         /\ time e = None /\ dyn_pressure e = None /\ velocity e = None
         /\ parent_mass e = None /\ mass e = None /\ final_mass e = None
         /\ main_time_data e = [] /\ main_height_data e = []
         /\ main_luminosity e = [] /\ main_abs_mag e = []
         /\ grains_time_data e = [] /\ grains_height_data e = []
         /\ grains_luminosity e = [] /\ grains_abs_mag e = []).
Proof.
  cbv zeta. unfold init.
  destruct (to_float float_of_string v_height) as [h |].
  - split; [split; discriminate |].
    intros e [= <-].
    cbn [FragmentationEntry.frag_type FragmentationEntry.mass_percent
         FragmentationEntry.number FragmentationEntry.sigma
         FragmentationEntry.gamma FragmentationEntry.erosion_coeff
         FragmentationEntry.grain_mass_min FragmentationEntry.grain_mass_max
         FragmentationEntry.mass_index FragmentationEntry.done
         FragmentationEntry.id FragmentationEntry.fragments
         FragmentationEntry.time FragmentationEntry.dyn_pressure
         FragmentationEntry.velocity FragmentationEntry.parent_mass
         FragmentationEntry.mass FragmentationEntry.final_mass
         FragmentationEntry.main_time_data FragmentationEntry.main_height_data
         FragmentationEntry.main_luminosity FragmentationEntry.main_abs_mag
         FragmentationEntry.grains_time_data
         FragmentationEntry.grains_height_data
         FragmentationEntry.grains_luminosity
         FragmentationEntry.grains_abs_mag].
    split; [reflexivity |]. split; [reflexivity |].
    split; [intros x Hx _; exact Hx |].
    split; [intros n ->; reflexivity |].
    split; [intros ->; reflexivity |].
    split; [intros H; exact H |].
    split; [intros ->; reflexivity |].
    split; [intros H; exact H |].
    split; [intros ->; reflexivity |].
    split; [intros H; exact H |].
    split; [intros H; exact H |].
    split; [intros H; exact H |].
    repeat (split; [reflexivity |]). reflexivity.
  - split; [split; reflexivity |]. discriminate.
Qed.

(** X22: the units of an entry made with [normalize_units=True] are those
    of the file again when it is written, to floating tolerance.  For a
    finite height [h] in km and finite coefficients [s], [c] in s2/km2 the
    entry holds the rounded [1000*h], [s/1e6] and [c/1e6], and [toString]
    formats numbers within [u*(2 + u)] of [h], [s] and [c] in relative
    terms when the six roundings are accurate to [u]; it formats the other
    fields as they were converted and blanks for the outputs of a simulation
    that has not been run. *)
Theorem fragmentation_entry_units_round_trip
    (u : R) (name : string) (h s c : R)
    (v_number v_mass_percent v_gamma v_grain_mass_min v_grain_mass_max
     v_mass_index : pyval) (e : t) :
  0 <= u ->
  Rounded.accurate rnd u (1000 * h) ->
  Rounded.accurate rnd u (rnd (1000 * h) / 1000) ->
  Rounded.accurate rnd u (s / 1e6) ->
  Rounded.accurate rnd u (1e6 * rnd (s / 1e6)) ->
  Rounded.accurate rnd u (c / 1e6) ->
  Rounded.accurate rnd u (1e6 * rnd (c / 1e6)) ->
  new name (PFloat (Fin h)) v_number v_mass_percent (PFloat (Fin s)) v_gamma
      (PFloat (Fin c)) v_grain_mass_min v_grain_mass_max v_mass_index true
  = Some e ->
  height e = Fin (rnd (1000 * h))
  /\ sigma e = Some (Fin (rnd (s / 1e6)))
  /\ erosion_coeff e = Some (Fin (rnd (c / 1e6)))
  /\ exists h' s' c' : R,
       Rabs (h' - h) <= u * (2 + u) * Rabs h
       /\ Rabs (s' - s) <= u * (2 + u) * Rabs s
       /\ Rabs (c' - c) <= u * (2 + u) * Rabs c
       /\ toString rnd format_float format_int format_str e
          = String.append
              (join ", "
                 [ format_str "{:>6s}" (strip name);
                   format_float "{:11.3f}" (Fin h');
                   match number e with
                   | Some n => format_int "{:6d}" n
                   | None => spaces 6
                   end;
                   field format_float "{:8.3f}" 8 (as_float v_mass_percent);
                   format_float "{:14.4f}" (Fin s');
                   field format_float "{:5.2f}" 5 (as_float v_gamma);
                   format_float "{:13.4f}" (Fin c');
                   field format_float "{:9.2e}" 9
                         (as_float v_grain_mass_min);
                   field format_float "{:9.2e}" 9
                         (as_float v_grain_mass_max);
                   field format_float "{:5.2f}" 5 (as_float v_mass_index) ])
              (String.append " # "
                 (String.append
                    (join ", "
                       [ spaces 9; spaces 9; spaces 8; spaces 11; spaces 9;
                         spaces 10 ])
                    " #")).
Proof.
  intros Hu Hh1 Hh2 Hs1 Hs2 Hc1 Hc2.
  unfold init. cbn [to_float]. intros [= <-].
  cbn [height sigma erosion_coeff fmul fdiv Rounded.rounded].
  rewrite !Reqb_false by lra. cbn [Rounded.rounded].
  split; [reflexivity |]. split; [reflexivity |]. split; [reflexivity |].
  exists (rnd (rnd (1000 * h) / 1000)), (rnd (1e6 * rnd (s / 1e6))),
         (rnd (1e6 * rnd (c / 1e6))).
  split.
  { replace (1000 * h) with (h * 1000) in * by ring.
    apply mul_div_round_trip; [assumption | lra | assumption | assumption]. }
  split; [apply div_mul_round_trip; [assumption | lra | assumption
                                     | assumption] |].
  split; [apply div_mul_round_trip; [assumption | lra | assumption
                                     | assumption] |].
  unfold toString.
  cbn [frag_type height number mass_percent sigma gamma erosion_coeff
       grain_mass_min grain_mass_max mass_index time dyn_pressure velocity
       parent_mass mass final_mass option_map field fmul fdiv
       Rounded.rounded].
  rewrite !Reqb_false by lra. cbn [Rounded.rounded].
  reflexivity.
Qed.

End FragmentationEntryProperties.

Lemma fragmentation_entry_units_round_trip_witness :
  exists e : FragmentationEntry.t,
    FragmentationEntry.init Rounded.coarse (fun _ => None) (fun _ => None)
      (fun s => s) "EF" (FragmentationEntry.PFloat (Fin 85.0000001))
      FragmentationEntry.PNone FragmentationEntry.PNone
      (FragmentationEntry.PFloat (Fin 3000000.0001))
      FragmentationEntry.PNone (FragmentationEntry.PFloat (Fin 2000000))
      FragmentationEntry.PNone FragmentationEntry.PNone
      FragmentationEntry.PNone true
    = Some e
    /\ FragmentationEntry.height e
       = Fin (Rounded.coarse (1000 * 85.0000001)).
Proof.
  assert (Hh : Rounded.coarse (1000 * 85.0000001) = 85000)
    by (rewrite (coarse_eq _ 87040000) by lra; lra).
  assert (Hs : Rounded.coarse (3000000.0001 / 1e6) = 3)
    by (rewrite (coarse_eq _ 3072) by lra; lra).
  assert (Hc : Rounded.coarse (2000000 / 1e6) = 2)
    by (rewrite (coarse_eq _ 2048) by lra; lra).
  eexists. split; [reflexivity |].
  refine (proj1 (fragmentation_entry_units_round_trip Rounded.coarse
                   (fun _ => None) (fun _ => None) (fun s => s)
                   (fun _ _ => EmptyString) (fun _ _ => EmptyString)
                   (fun _ _ => EmptyString) (/ 1000) "EF" 85.0000001
                   3000000.0001 2000000
                   FragmentationEntry.PNone FragmentationEntry.PNone
                   FragmentationEntry.PNone FragmentationEntry.PNone
                   FragmentationEntry.PNone FragmentationEntry.PNone
                   _ _ _ _ _ _ _ _ eq_refl)).
  - lra.
  - apply (coarse_accurate _ _ 87040000); [lra | lra |]. apply Rabs_le. lra.
  - rewrite Hh. apply (coarse_accurate_exact _ _ 87040); lra.
  - apply (coarse_accurate _ _ 3072); [lra | lra |]. apply Rabs_le. lra.
  - rewrite Hs. apply (coarse_accurate_exact _ _ 3072000000); lra.
  - apply (coarse_accurate_exact _ _ 2048); lra.
  - rewrite Hc. apply (coarse_accurate_exact _ _ 2048000000); lra.
Defined.
